(** * UAE transfer-pricing relationship assessment: the decision core of main.py

    A shallow embedding of the rule evaluators of [src/main.py]
    (FamilyRelationshipAnalyzer, CorporateRelationshipAnalyzer,
    ConnectedPersonAnalyzer, SpecialEntityAnalyzer, RiskAnalyzer,
    DocumentationAnalyzer and the orchestrating TPRelationshipAssessor) and of
    the party dictionaries that [main] builds from the form, followed by the
    properties of the assessment that the specification states and by
    further properties read off the code.

    Parties are Python dictionaries with string keys; they are finite maps
    [gmap string value] over a small universe of Python values.  Operations
    that Python rejects at run time ([.upper()] on a non-string, [>=] between
    a string and a number, ...) raise, and the embedding threads these
    exceptions through an error monad in the source's evaluation order.

    Numbers are integers (no floats).  A string is held as the UTF-8
    encoding of Python's sequence of code points, so the ASCII literals of
    the source stand for themselves, and [upper] is [str.upper]: the full
    upper-case mapping of the Unicode character database applied to every
    code point (the dotless i, for one, goes to I, so that a type written
    with it dispatches as INDIVIDUAL).

    The data model types every field of a party; [well_formed] is that typing
    (every field optional, no range imposed).  The assessment of well-formed
    parties always returns (lemma [assess_wf]); on other inputs it may raise
    (examples [type_not_a_string], [voting_rights_not_a_number]).  The
    properties are stated for well-formed parties, and say that the call
    returns together with what it returns. *)

From Stdlib Require Import ZArith String Ascii Bool List Lia.
From stdpp Require Import base option gmap strings pretty.

Set Warnings "-register-all".
Local Open Scope string_scope.
Local Open Scope Z_scope.

(* ===================================================================== *)
(** ** Python values, exceptions and the builtin operations the code uses *)
(* ===================================================================== *)

Inductive value :=
| VNone
| VBool (b : bool)
| VInt (z : Z)
| VStr (s : string)
| VDict (d : gmap string value).

Inductive exn := TypeError | AttributeError.

Inductive result (A : Type) :=
| Ok (a : A)
| Raise (e : exn).
Arguments Ok {A} a.
Arguments Raise {A} e.

(** Sequencing: the first exception raised aborts the rest. *)
Definition bind {A B : Type} (m : result A) (k : A -> result B) : result B :=
  match m with
  | Ok a => k a
  | Raise e => Raise e
  end.

Notation "'let*' x ':=' m 'in' k" := (bind m (fun x => k))
  (at level 10, x name, m at level 100, k at level 200).

(** Truth value of an object ([bool(x)], [if x], [x or y]). *)
Definition truthy (v : value) : bool :=
  match v with
  | VNone => false
  | VBool b => b
  | VInt z => negb (z =? 0)
  | VStr s => negb (String.eqb s "")
  | VDict d => match map_to_list d with [] => false | _ :: _ => true end
  end.

(** [x or y] evaluates to [x] when [x] is truthy and to [y] otherwise. *)
Definition py_or (x y : value) : value := if truthy x then x else y.

(** [bool] is a subclass of [int]: [True] and [False] take part in
    arithmetic and ordering as 1 and 0. *)
Definition as_int (v : value) : option Z :=
  match v with
  | VBool b => Some (Z.b2z b)
  | VInt z => Some z
  | _ => None
  end.

(** [x + y]: integer addition, string concatenation, [TypeError] otherwise. *)
Definition py_add (x y : value) : result value :=
  match as_int x, as_int y with
  | Some a, Some b => Ok (VInt (a + b))
  | _, _ =>
      match x, y with
      | VStr s, VStr t => Ok (VStr (s +:+ t))
      | _, _ => Raise TypeError
      end
  end.

(** Ordering: numbers with numbers, strings with strings (lexicographic);
    every other combination raises [TypeError]. *)
Definition py_compare (x y : value) : result comparison :=
  match as_int x, as_int y with
  | Some a, Some b => Ok (a ?= b)
  | _, _ =>
      match x, y with
      | VStr s, VStr t => Ok (String.compare s t)
      | _, _ => Raise TypeError
      end
  end.

Definition py_ge (x y : value) : result bool :=
  let* c := py_compare x y in
  Ok (match c with Lt => false | _ => true end).

Definition py_gt (x y : value) : result bool :=
  let* c := py_compare x y in
  Ok (match c with Gt => true | _ => false end).

(** [max(x, y)] keeps [x] unless [y > x]. *)
Definition py_max (x y : value) : result value :=
  let* greater := py_gt y x in
  Ok (if greater then y else x).

(** [x == s] for a string literal [s], [x == n] for an integer literal [n]. *)
Definition py_eq_str (x : value) (s : string) : bool :=
  match x with
  | VStr t => String.eqb t s
  | _ => false
  end.

Definition py_eq_int (x : value) (n : Z) : bool :=
  match as_int x with
  | Some a => a =? n
  | None => false
  end.

(** [x in [s1, ..., sn]] for a list of string literals. *)
Definition py_in_strs (x : value) (l : list string) : bool :=
  existsb (py_eq_str x) l.

(** [d.get(k, dflt)] on a dictionary. *)
Definition dict_get (d : gmap string value) (k : string) (dflt : value) : value :=
  default dflt (d !! k).

(** [x.get(k, dflt)] on an arbitrary object: only dictionaries have [get]. *)
Definition py_get (x : value) (k : string) (dflt : value) : result value :=
  match x with
  | VDict d => Ok (dict_get d k dflt)
  | _ => Raise AttributeError
  end.

(** [l.append(x)] on a list. *)
Definition append {A : Type} (l : list A) (x : A) : list A := (l ++ [x])%list.

(** *** Strings

    A Python [str] is a sequence of Unicode code points; here it is the
    string of the bytes of its UTF-8 encoding.  Two strings are equal exactly
    when their encodings are, and an ASCII string is its own encoding. *)

Definition byte (c : ascii) : Z := Z.of_N (N_of_ascii c).

Definition to_byte (b : Z) : ascii := ascii_of_N (Z.to_N b).

(** The UTF-8 encoding of one code point. *)
Definition utf8 (c : Z) : string :=
  if c <? 128 then String (to_byte c) ""
  else if c <? 2048 then
    String (to_byte (192 + c / 64)) (String (to_byte (128 + c mod 64)) "")
  else if c <? 65536 then
    String (to_byte (224 + c / 4096))
      (String (to_byte (128 + c / 64 mod 64)) (String (to_byte (128 + c mod 64)) ""))
  else
    String (to_byte (240 + c / 262144))
      (String (to_byte (128 + c / 4096 mod 64))
         (String (to_byte (128 + c / 64 mod 64))
            (String (to_byte (128 + c mod 64)) ""))).

(** A continuation byte of a multi-byte character. *)
Definition continuation (c : ascii) : bool := (128 <=? byte c) && (byte c <? 192).

(** The upper-case mapping of [str.upper] (CPython 3.11, Unicode 14.0).
    [upper_runs] holds the code points that map to a single other code
    point, as runs (first, last, step, offset): every code point [first],
    [first + step], ... up to [last] maps to itself plus [offset].
    [upper_special] holds the code points that map to several. *)
Definition upper_runs : list (Z * Z * Z * Z) :=
  [
   (97, 122, 1, -32); (181, 181, 1, 743); (224, 246, 1, -32); (248, 254, 1, -32);
   (255, 255, 1, 121); (257, 303, 2, -1); (305, 305, 1, -232); (307, 311, 2, -1);
   (314, 328, 2, -1); (331, 375, 2, -1); (378, 382, 2, -1); (383, 383, 1, -300);
   (384, 384, 1, 195); (387, 389, 2, -1); (392, 392, 1, -1); (396, 396, 1, -1);
   (402, 402, 1, -1); (405, 405, 1, 97); (409, 409, 1, -1); (410, 410, 1, 163);
   (414, 414, 1, 130); (417, 421, 2, -1); (424, 424, 1, -1); (429, 429, 1, -1);
   (432, 432, 1, -1); (436, 438, 2, -1); (441, 441, 1, -1); (445, 445, 1, -1);
   (447, 447, 1, 56); (453, 453, 1, -1); (454, 454, 1, -2); (456, 456, 1, -1);
   (457, 457, 1, -2); (459, 459, 1, -1); (460, 460, 1, -2); (462, 476, 2, -1);
   (477, 477, 1, -79); (479, 495, 2, -1); (498, 498, 1, -1); (499, 499, 1, -2);
   (501, 501, 1, -1); (505, 543, 2, -1); (547, 563, 2, -1); (572, 572, 1, -1);
   (575, 576, 1, 10815); (578, 578, 1, -1); (583, 591, 2, -1); (592, 592, 1, 10783);
   (593, 593, 1, 10780); (594, 594, 1, 10782); (595, 595, 1, -210); (596, 596, 1, -206);
   (598, 599, 1, -205); (601, 601, 1, -202); (603, 603, 1, -203); (604, 604, 1, 42319);
   (608, 608, 1, -205); (609, 609, 1, 42315); (611, 611, 1, -207); (613, 613, 1, 42280);
   (614, 614, 1, 42308); (616, 616, 1, -209); (617, 617, 1, -211); (618, 618, 1, 42308);
   (619, 619, 1, 10743); (620, 620, 1, 42305); (623, 623, 1, -211); (625, 625, 1, 10749);
   (626, 626, 1, -213); (629, 629, 1, -214); (637, 637, 1, 10727); (640, 640, 1, -218);
   (642, 642, 1, 42307); (643, 643, 1, -218); (647, 647, 1, 42282); (648, 648, 1, -218);
   (649, 649, 1, -69); (650, 651, 1, -217); (652, 652, 1, -71); (658, 658, 1, -219);
   (669, 669, 1, 42261); (670, 670, 1, 42258); (837, 837, 1, 84); (881, 883, 2, -1);
   (887, 887, 1, -1); (891, 893, 1, 130); (940, 940, 1, -38); (941, 943, 1, -37);
   (945, 961, 1, -32); (962, 962, 1, -31); (963, 971, 1, -32); (972, 972, 1, -64);
   (973, 974, 1, -63); (976, 976, 1, -62); (977, 977, 1, -57); (981, 981, 1, -47);
   (982, 982, 1, -54); (983, 983, 1, -8); (985, 1007, 2, -1); (1008, 1008, 1, -86);
   (1009, 1009, 1, -80); (1010, 1010, 1, 7); (1011, 1011, 1, -116); (1013, 1013, 1, -96);
   (1016, 1016, 1, -1); (1019, 1019, 1, -1); (1072, 1103, 1, -32); (1104, 1119, 1, -80);
   (1121, 1153, 2, -1); (1163, 1215, 2, -1); (1218, 1230, 2, -1); (1231, 1231, 1, -15);
   (1233, 1327, 2, -1); (1377, 1414, 1, -48); (4304, 4346, 1, 3008); (4349, 4351, 1, 3008);
   (5112, 5117, 1, -8); (7296, 7296, 1, -6254); (7297, 7297, 1, -6253);
   (7298, 7298, 1, -6244); (7299, 7300, 1, -6242); (7301, 7301, 1, -6243);
   (7302, 7302, 1, -6236); (7303, 7303, 1, -6181); (7304, 7304, 1, 35266);
   (7545, 7545, 1, 35332); (7549, 7549, 1, 3814); (7566, 7566, 1, 35384);
   (7681, 7829, 2, -1); (7835, 7835, 1, -59); (7841, 7935, 2, -1); (7936, 7943, 1, 8);
   (7952, 7957, 1, 8); (7968, 7975, 1, 8); (7984, 7991, 1, 8); (8000, 8005, 1, 8);
   (8017, 8023, 2, 8); (8032, 8039, 1, 8); (8048, 8049, 1, 74); (8050, 8053, 1, 86);
   (8054, 8055, 1, 100); (8056, 8057, 1, 128); (8058, 8059, 1, 112); (8060, 8061, 1, 126);
   (8112, 8113, 1, 8); (8126, 8126, 1, -7205); (8144, 8145, 1, 8); (8160, 8161, 1, 8);
   (8165, 8165, 1, 7); (8526, 8526, 1, -28); (8560, 8575, 1, -16); (8580, 8580, 1, -1);
   (9424, 9449, 1, -26); (11312, 11359, 1, -48); (11361, 11361, 1, -1);
   (11365, 11365, 1, -10795); (11366, 11366, 1, -10792); (11368, 11372, 2, -1);
   (11379, 11379, 1, -1); (11382, 11382, 1, -1); (11393, 11491, 2, -1);
   (11500, 11502, 2, -1); (11507, 11507, 1, -1); (11520, 11557, 1, -7264);
   (11559, 11559, 1, -7264); (11565, 11565, 1, -7264); (42561, 42605, 2, -1);
   (42625, 42651, 2, -1); (42787, 42799, 2, -1); (42803, 42863, 2, -1);
   (42874, 42876, 2, -1); (42879, 42887, 2, -1); (42892, 42892, 1, -1);
   (42897, 42899, 2, -1); (42900, 42900, 1, 48); (42903, 42921, 2, -1);
   (42933, 42947, 2, -1); (42952, 42954, 2, -1); (42961, 42961, 1, -1);
   (42967, 42969, 2, -1); (42998, 42998, 1, -1); (43859, 43859, 1, -928);
   (43888, 43967, 1, -38864); (65345, 65370, 1, -32); (66600, 66639, 1, -40);
   (66776, 66811, 1, -40); (66967, 66977, 1, -39); (66979, 66993, 1, -39);
   (66995, 67001, 1, -39); (67003, 67004, 1, -39); (68800, 68850, 1, -64);
   (71872, 71903, 1, -32); (93792, 93823, 1, -32); (125218, 125251, 1, -34)
  ].

Definition upper_special : list (Z * list Z) :=
  [
   (223, [83; 83]); (329, [700; 78]); (496, [74; 780]); (912, [921; 776; 769]);
   (944, [933; 776; 769]); (1415, [1333; 1362]); (7830, [72; 817]); (7831, [84; 776]);
   (7832, [87; 778]); (7833, [89; 778]); (7834, [65; 702]); (8016, [933; 787]);
   (8018, [933; 787; 768]); (8020, [933; 787; 769]); (8022, [933; 787; 834]);
   (8064, [7944; 921]); (8065, [7945; 921]); (8066, [7946; 921]); (8067, [7947; 921]);
   (8068, [7948; 921]); (8069, [7949; 921]); (8070, [7950; 921]); (8071, [7951; 921]);
   (8072, [7944; 921]); (8073, [7945; 921]); (8074, [7946; 921]); (8075, [7947; 921]);
   (8076, [7948; 921]); (8077, [7949; 921]); (8078, [7950; 921]); (8079, [7951; 921]);
   (8080, [7976; 921]); (8081, [7977; 921]); (8082, [7978; 921]); (8083, [7979; 921]);
   (8084, [7980; 921]); (8085, [7981; 921]); (8086, [7982; 921]); (8087, [7983; 921]);
   (8088, [7976; 921]); (8089, [7977; 921]); (8090, [7978; 921]); (8091, [7979; 921]);
   (8092, [7980; 921]); (8093, [7981; 921]); (8094, [7982; 921]); (8095, [7983; 921]);
   (8096, [8040; 921]); (8097, [8041; 921]); (8098, [8042; 921]); (8099, [8043; 921]);
   (8100, [8044; 921]); (8101, [8045; 921]); (8102, [8046; 921]); (8103, [8047; 921]);
   (8104, [8040; 921]); (8105, [8041; 921]); (8106, [8042; 921]); (8107, [8043; 921]);
   (8108, [8044; 921]); (8109, [8045; 921]); (8110, [8046; 921]); (8111, [8047; 921]);
   (8114, [8122; 921]); (8115, [913; 921]); (8116, [902; 921]); (8118, [913; 834]);
   (8119, [913; 834; 921]); (8124, [913; 921]); (8130, [8138; 921]); (8131, [919; 921]);
   (8132, [905; 921]); (8134, [919; 834]); (8135, [919; 834; 921]); (8140, [919; 921]);
   (8146, [921; 776; 768]); (8147, [921; 776; 769]); (8150, [921; 834]);
   (8151, [921; 776; 834]); (8162, [933; 776; 768]); (8163, [933; 776; 769]);
   (8164, [929; 787]); (8166, [933; 834]); (8167, [933; 776; 834]); (8178, [8186; 921]);
   (8179, [937; 921]); (8180, [911; 921]); (8182, [937; 834]); (8183, [937; 834; 921]);
   (8188, [937; 921]); (64256, [70; 70]); (64257, [70; 73]); (64258, [70; 76]);
   (64259, [70; 70; 73]); (64260, [70; 70; 76]); (64261, [83; 84]); (64262, [83; 84]);
   (64275, [1348; 1350]); (64276, [1348; 1333]); (64277, [1348; 1339]);
   (64278, [1358; 1350]); (64279, [1348; 1341])
  ].

Definition in_run (c : Z) (run : Z * Z * Z * Z) : bool :=
  let '(first, last, step, _) := run in
  (first <=? c) && (c <=? last) && ((c - first) mod step =? 0).

(** The code points that replace code point [c] in [s.upper()]. *)
Definition to_upper_full (c : Z) : list Z :=
  match List.find (fun e => fst e =? c) upper_special with
  | Some (_, l) => l
  | None =>
    match List.find (in_run c) upper_runs with
    | Some (_, _, _, offset) => [c + offset]
    | None => [c]
    end
  end.

Definition upper_code_point (c : Z) : string :=
  fold_right (fun u s => utf8 u ++ s) "" (to_upper_full c).

(** [s.upper()]: the string is read character by character (one to four
    bytes each) and every character is replaced by its upper-case mapping.
    A byte that starts no well-formed character, which the encoding of a
    [str] never holds, is kept. *)
Fixpoint upper (s : string) : string :=
  match s with
  | EmptyString => EmptyString
  | String c1 s1 =>
    let b1 := byte c1 in
    if b1 <? 128 then upper_code_point b1 ++ upper s1
    else
      match s1 with
      | EmptyString => String c1 EmptyString
      | String c2 s2 =>
        let p2 := (b1 - 192) * 64 + (byte c2 - 128) in
        if (192 <=? b1) && (b1 <? 224) && continuation c2 && (128 <=? p2)
        then upper_code_point p2 ++ upper s2
        else
          match s2 with
          | EmptyString => String c1 (upper s1)
          | String c3 s3 =>
            let p3 := (b1 - 224) * 4096 + (byte c2 - 128) * 64 + (byte c3 - 128) in
            if (224 <=? b1) && (b1 <? 240) && continuation c2 && continuation c3
               && (2048 <=? p3)
            then upper_code_point p3 ++ upper s3
            else
              match s3 with
              | EmptyString => String c1 (upper s1)
              | String c4 s4 =>
                let p4 := (b1 - 240) * 262144 + (byte c2 - 128) * 4096
                          + (byte c3 - 128) * 64 + (byte c4 - 128) in
                if (240 <=? b1) && (b1 <? 248) && continuation c2 && continuation c3
                   && continuation c4 && (65536 <=? p4) && (p4 <=? 1114111)
                then upper_code_point p4 ++ upper s4
                else String c1 (upper s1)
              end
          end
      end
  end.
Arguments upper : simpl never.

(** [x.upper()]: only strings have the method. *)
Definition py_upper (x : value) : result string :=
  match x with
  | VStr s => Ok (upper s)
  | _ => Raise AttributeError
  end.

(* ===================================================================== *)
(** ** 2. Configuration constants and thresholds *)
(* ===================================================================== *)

Module CONFIG.
Definition OWNERSHIP_THRESHOLD : Z := 50.
Definition CONTROL_THRESHOLD : Z := 50.
Definition MAX_FAMILY_DEGREE : Z := 4.
Module DOCUMENTATION_THRESHOLDS.
Definition REVENUE : Z := 200000000.
Definition MNE_GROUP_CONSOLIDATED : Z := 3150000000.
End DOCUMENTATION_THRESHOLDS.
End CONFIG.

(* ===================================================================== *)
(** ** 3. Family relationship analyzer *)
(* ===================================================================== *)

Module FamilyRelationshipAnalyzer.

Record family_result := {
  isRelatedParty : bool;
  degree : Z;
  relationshipType : value;
  basis : string
}.

(** The dictionary literal of [__init__], in insertion order. *)
Definition family_degrees : list (Z * list string) :=
  [ (1, ["parent"; "child"; "spouse_parent"; "spouse_child"]);
    (2, ["grandparent"; "grandchild"; "sibling"; "spouse_sibling"]);
    (3, ["great_grandparent"; "great_grandchild"; "uncle"; "aunt"; "niece"; "nephew"]);
    (4, ["great_great_grandparent"; "great_great_grandchild"; "first_cousin"]) ].

Fixpoint calculate_degree_in (table : list (Z * list string)) (relationship_type : value) : Z :=
  match table with
  | [] => 999
  | (deg, relations) :: rest =>
      if py_in_strs relationship_type relations then deg
      else calculate_degree_in rest relationship_type
  end.

Definition calculate_degree (relationship_type : value) : Z :=
  calculate_degree_in family_degrees relationship_type.

Definition assess_relationship (person1 person2 : gmap string value) : family_result :=
  let relationship_type := dict_get person1 "relationship_type" (VStr "") in
  let degree := calculate_degree relationship_type in
  let is_related :=
    if truthy (VInt degree) then degree <=? CONFIG.MAX_FAMILY_DEGREE else false in
  {| isRelatedParty := is_related;
     degree := degree;
     relationshipType := relationship_type;
     basis := if is_related
              then "Family relationship - " +:+ pretty degree +:+ " degree"
              else "No family relation within 4th degree" |}.

End FamilyRelationshipAnalyzer.

(* ===================================================================== *)
(** ** 4. Corporate relationship analyzer *)
(* ===================================================================== *)

Module CorporateRelationshipAnalyzer.

(** The dictionary returned by each sub-test: its verdict, the raw figures
    it looked at (under their keys, in the order of the literal) and its
    fixed basis string. *)
Record analysis := {
  isRelated : bool;
  figures : list (string * value);
  basis : string
}.

Record relationships_t := {
  ownership : analysis;
  control : analysis;
  management : analysis
}.

Record corporate_result := {
  isRelatedParty : bool;
  relationships : relationships_t
}.

(** Iteration order of [relationships.items()]. *)
Definition items (r : relationships_t) : list (string * analysis) :=
  [("ownership", ownership r); ("control", control r); ("management", management r)].

Definition analyze_ownership (entity1 entity2 : gmap string value) : result analysis :=
  let* direct_ownership_1 := py_get (dict_get entity1 "ownership" (VDict ∅)) "direct" (VInt 0) in
  let* indirect_ownership_1 := py_get (dict_get entity1 "ownership" (VDict ∅)) "indirect" (VInt 0) in
  let* total_ownership_1 := py_add direct_ownership_1 indirect_ownership_1 in
  let* direct_ownership_2 := py_get (dict_get entity2 "ownership" (VDict ∅)) "direct" (VInt 0) in
  let* indirect_ownership_2 := py_get (dict_get entity2 "ownership" (VDict ∅)) "indirect" (VInt 0) in
  let* total_ownership_2 := py_add direct_ownership_2 indirect_ownership_2 in
  let* is_related_1 := py_ge total_ownership_1 (VInt CONFIG.OWNERSHIP_THRESHOLD) in
  let* is_related_2 := py_ge total_ownership_2 (VInt CONFIG.OWNERSHIP_THRESHOLD) in
  Ok {| isRelated := is_related_1 || is_related_2;
        figures := [("entity1_total_ownership", total_ownership_1);
                    ("entity2_total_ownership", total_ownership_2)];
        basis := "Ownership >= 50%" |}.

(** [a >= t or b >= t]: the right comparison runs only when the left one is false. *)
Definition ge_or_ge (a b t : value) : result bool :=
  let* left := py_ge a t in
  if left then Ok true else py_ge b t.

Definition analyze_control (entity1 entity2 : gmap string value) : result analysis :=
  let entity1_voting := dict_get entity1 "votingRights" (VInt 0) in
  let entity2_voting := dict_get entity2 "votingRights" (VInt 0) in
  let entity1_profit := dict_get entity1 "profitEntitlement" (VInt 0) in
  let entity2_profit := dict_get entity2 "profitEntitlement" (VInt 0) in
  let* is_related_1 := ge_or_ge entity1_voting entity1_profit (VInt CONFIG.CONTROL_THRESHOLD) in
  let* is_related_2 := ge_or_ge entity2_voting entity2_profit (VInt CONFIG.CONTROL_THRESHOLD) in
  Ok {| isRelated := is_related_1 || is_related_2;
        figures := [("entity1_voting", entity1_voting);
                    ("entity2_voting", entity2_voting);
                    ("entity1_profit", entity1_profit);
                    ("entity2_profit", entity2_profit)];
        basis := "Control through voting rights or profit entitlement >= 50%" |}.

Definition analyze_management (entity1 entity2 : gmap string value) : result analysis :=
  let entity1_control := dict_get entity1 "managementControl" (VInt 0) in
  let entity2_control := dict_get entity2 "managementControl" (VInt 0) in
  let* is_related_1 := py_ge entity1_control (VInt CONFIG.CONTROL_THRESHOLD) in
  let* is_related_2 := py_ge entity2_control (VInt CONFIG.CONTROL_THRESHOLD) in
  Ok {| isRelated := is_related_1 || is_related_2;
        figures := [("entity1_management_control", entity1_control);
                    ("entity2_management_control", entity2_control)];
        basis := "Management control >= 50%" |}.

Definition assess_relationship (entity1 entity2 : gmap string value) : result corporate_result :=
  let* ownership_analysis := analyze_ownership entity1 entity2 in
  let* control_analysis := analyze_control entity1 entity2 in
  let* management_analysis := analyze_management entity1 entity2 in
  Ok {| isRelatedParty := existsb id [isRelated ownership_analysis;
                                      isRelated control_analysis;
                                      isRelated management_analysis];
        relationships := {| ownership := ownership_analysis;
                            control := control_analysis;
                            management := management_analysis |} |}.

End CorporateRelationshipAnalyzer.

(* ===================================================================== *)
(** ** 5. Connected person analyzer (individual -> company) *)
(* ===================================================================== *)

Module ConnectedPersonAnalyzer.

Record test_result := {
  isConnected : bool;
  basis : string
}.

Record connection_result := {
  isConnectedPerson : bool;
  bases : list string
}.

Definition check_directorship (person entity : gmap string value) : test_result :=
  let is_director := dict_get person "isDirector" (VBool false) in
  let is_connected := truthy is_director in
  {| isConnected := is_connected;
     basis := if is_connected then "Director relationship" else "" |}.

Definition check_officer (person entity : gmap string value) : test_result :=
  let is_officer := dict_get person "isOfficer" (VBool false) in
  let is_connected := truthy is_officer in
  {| isConnected := is_connected;
     basis := if is_connected then "Officer relationship" else "" |}.

Definition check_ownership (person entity : gmap string value) : result test_result :=
  let personal_ownership := dict_get person "personalOwnership" (VInt 0) in
  let family_ownership := dict_get person "familyOwnership" (VInt 0) in
  let* combined_ownership := py_add personal_ownership family_ownership in
  let* is_connected := py_ge combined_ownership (VInt CONFIG.OWNERSHIP_THRESHOLD) in
  Ok {| isConnected := is_connected;
        basis := if is_connected then "Ownership >= 50%" else "" |}.

Definition assess_connection (person entity : gmap string value) : result connection_result :=
  let directorship_test := check_directorship person entity in
  let officer_test := check_officer person entity in
  let* ownership_test := check_ownership person entity in
  let is_connected := existsb id [isConnected directorship_test;
                                  isConnected officer_test;
                                  isConnected ownership_test] in
  let basis0 := [] in
  let basis1 := if isConnected directorship_test then append basis0 (basis directorship_test) else basis0 in
  let basis2 := if isConnected officer_test then append basis1 (basis officer_test) else basis1 in
  let basis3 := if isConnected ownership_test then append basis2 (basis ownership_test) else basis2 in
  Ok {| isConnectedPerson := is_connected; bases := basis3 |}.

End ConnectedPersonAnalyzer.

(* ===================================================================== *)
(** ** 6. Special entity analyzer *)
(* ===================================================================== *)

Module SpecialEntityAnalyzer.

Definition assess_permanent_establishment (entity1 entity2 : gmap string value) : bool :=
  if py_eq_str (dict_get entity1 "type" VNone) "CORPORATE"
     && py_eq_str (dict_get entity2 "type" VNone) "PERMANENT_ESTABLISHMENT"
  then true
  else false.

Definition assess_partnership (entity1 entity2 : gmap string value) : bool :=
  if py_eq_str (dict_get entity1 "companyType" VNone) "Partnership"
     && py_eq_str (dict_get entity2 "companyType" VNone) "Partnership"
  then true
  else false.

Definition assess_trust_foundation (entity1 entity2 : gmap string value) : bool :=
  if py_in_strs (dict_get entity1 "companyType" VNone) ["Trust"; "Foundation"]
     || py_in_strs (dict_get entity2 "companyType" VNone) ["Trust"; "Foundation"]
  then true
  else false.

End SpecialEntityAnalyzer.

(* ===================================================================== *)
(** ** 7. Risk analyzer *)
(* ===================================================================== *)

Module RiskAnalyzer.

Record factors_t := {
  complexityScore : Z;
  crossBorder : value;
  highValueTransactions : value
}.

Record risk_assessment := {
  riskLevel : string;
  factors : factors_t
}.

Definition assess_complexity (relationship_data : gmap string value) : result Z :=
  let layers := dict_get relationship_data "layersOfOwnership" (VInt 1) in
  let* above := py_gt layers (VInt 3) in
  if above then Ok 3
  else if py_eq_int layers 3 then Ok 2
  else Ok 1.

Definition analyze_risk (relationship_data : gmap string value) : result risk_assessment :=
  let* complexity_score := assess_complexity relationship_data in
  let cross_border := dict_get relationship_data "crossBorder" (VBool false) in
  let high_value := dict_get relationship_data "highValueTransactions" (VBool false) in
  let risk_level := "LOW" in
  let risk_level :=
    if (complexity_score >=? 3) || truthy cross_border || truthy high_value then "HIGH"
    else if complexity_score =? 2 then "MEDIUM"
    else risk_level in
  Ok {| riskLevel := risk_level;
        factors := {| complexityScore := complexity_score;
                      crossBorder := cross_border;
                      highValueTransactions := high_value |} |}.

End RiskAnalyzer.

(* ===================================================================== *)
(** ** 8. Documentation analyzer *)
(* ===================================================================== *)

(** The record returned by [DocumentationAnalyzer.determine_requirements]. *)
Record requirements := {
  masterFile : bool;
  localFile : bool;
  disclosureForm : bool;
  additionalDocs : list string
}.

(** The result dictionary of [TPRelationshipAssessor.assess_relationship].
    [riskAssessment] and [documentationRequired] start as the empty
    dictionary [{}], here [None], and are filled in by the last two steps. *)
Record assessment_result := {
  isRelatedParty : bool;
  isConnectedPerson : bool;
  basis : list string;
  specialCases : list string;
  riskAssessment : option RiskAnalyzer.risk_assessment;
  documentationRequired : option requirements
}.

Module DocumentationAnalyzer.

Definition is_master_file_required (entity : gmap string value) : result bool :=
  let group_revenue := dict_get entity "groupConsolidatedRevenue" (VInt 0) in
  py_ge group_revenue (VInt CONFIG.DOCUMENTATION_THRESHOLDS.MNE_GROUP_CONSOLIDATED).

Definition is_local_file_required (entity : gmap string value) : result bool :=
  let revenue := dict_get entity "revenue" (VInt 0) in
  py_ge revenue (VInt CONFIG.DOCUMENTATION_THRESHOLDS.REVENUE).

Definition is_disclosure_required (relationship : assessment_result) : bool :=
  truthy (VBool (isRelatedParty relationship)).

Definition determine_requirements (entity : gmap string value)
    (relationship : assessment_result)
    (risk_assessment : RiskAnalyzer.risk_assessment) : result requirements :=
  let* master_file_req := is_master_file_required entity in
  let* local_file_req := is_local_file_required entity in
  let disclosure_form_req := is_disclosure_required relationship in
  let additional_docs := [] in
  let additional_docs :=
    if String.eqb (RiskAnalyzer.riskLevel risk_assessment) "HIGH"
    then append additional_docs "Detailed Intercompany Agreement Documentation"
    else additional_docs in
  Ok {| masterFile := master_file_req;
        localFile := local_file_req;
        disclosureForm := disclosure_form_req;
        additionalDocs := additional_docs |}.

End DocumentationAnalyzer.

(* ===================================================================== *)
(** ** 9. Main assessment controller *)
(* ===================================================================== *)

Module TPRelationshipAssessor.

(** In-place updates of the result dictionary. *)
Definition set_isRelatedParty (r : assessment_result) (b : bool) : assessment_result :=
  {| isRelatedParty := b;
     isConnectedPerson := isConnectedPerson r;
     basis := basis r;
     specialCases := specialCases r;
     riskAssessment := riskAssessment r;
     documentationRequired := documentationRequired r |}.

Definition set_isConnectedPerson (r : assessment_result) (b : bool) : assessment_result :=
  {| isRelatedParty := isRelatedParty r;
     isConnectedPerson := b;
     basis := basis r;
     specialCases := specialCases r;
     riskAssessment := riskAssessment r;
     documentationRequired := documentationRequired r |}.

Definition basis_append (r : assessment_result) (s : string) : assessment_result :=
  {| isRelatedParty := isRelatedParty r;
     isConnectedPerson := isConnectedPerson r;
     basis := append (basis r) s;
     specialCases := specialCases r;
     riskAssessment := riskAssessment r;
     documentationRequired := documentationRequired r |}.

Definition specialCases_append (r : assessment_result) (s : string) : assessment_result :=
  {| isRelatedParty := isRelatedParty r;
     isConnectedPerson := isConnectedPerson r;
     basis := basis r;
     specialCases := append (specialCases r) s;
     riskAssessment := riskAssessment r;
     documentationRequired := documentationRequired r |}.

Definition set_riskAssessment (r : assessment_result)
    (ra : RiskAnalyzer.risk_assessment) : assessment_result :=
  {| isRelatedParty := isRelatedParty r;
     isConnectedPerson := isConnectedPerson r;
     basis := basis r;
     specialCases := specialCases r;
     riskAssessment := Some ra;
     documentationRequired := documentationRequired r |}.

Definition set_documentationRequired (r : assessment_result)
    (d : requirements) : assessment_result :=
  {| isRelatedParty := isRelatedParty r;
     isConnectedPerson := isConnectedPerson r;
     basis := basis r;
     specialCases := specialCases r;
     riskAssessment := riskAssessment r;
     documentationRequired := Some d |}.

(** The block that both the CORPORATE/CORPORATE branch and the mixed branch
    run on the corporate analyzer's result:
    [if rel["isRelatedParty"]: result["isRelatedParty"] = True;
     for k, v in rel["relationships"].items():
       if v["isRelated"]: result["basis"].append(v["basis"])]. *)
Definition merge_corporate (result0 : assessment_result)
    (rel : CorporateRelationshipAnalyzer.corporate_result) : assessment_result :=
  if CorporateRelationshipAnalyzer.isRelatedParty rel then
    fold_left
      (fun res kv =>
         if CorporateRelationshipAnalyzer.isRelated (snd kv)
         then basis_append res (CorporateRelationshipAnalyzer.basis (snd kv))
         else res)
      (CorporateRelationshipAnalyzer.items (CorporateRelationshipAnalyzer.relationships rel))
      (set_isRelatedParty result0 true)
  else result0.

(** The type-pair dispatch (the [if]/[elif]/[elif] chain). *)
Definition dispatch (party1 party2 : gmap string value) (party1_type party2_type : string)
    (result0 : assessment_result) : result assessment_result :=
  if String.eqb party1_type "INDIVIDUAL" && String.eqb party2_type "INDIVIDUAL" then
    let fam_rel := FamilyRelationshipAnalyzer.assess_relationship party1 party2 in
    if FamilyRelationshipAnalyzer.isRelatedParty fam_rel
    then Ok (basis_append (set_isRelatedParty result0 true)
                          (FamilyRelationshipAnalyzer.basis fam_rel))
    else Ok result0
  else if String.eqb party1_type "CORPORATE" && String.eqb party2_type "CORPORATE" then
    let* corp_rel := CorporateRelationshipAnalyzer.assess_relationship party1 party2 in
    Ok (merge_corporate result0 corp_rel)
  else if (String.eqb party1_type "INDIVIDUAL" && String.eqb party2_type "CORPORATE")
          || (String.eqb party1_type "CORPORATE" && String.eqb party2_type "INDIVIDUAL") then
    let* connected_rel :=
      if String.eqb party1_type "INDIVIDUAL"
      then ConnectedPersonAnalyzer.assess_connection party1 party2
      else ConnectedPersonAnalyzer.assess_connection party2 party1 in
    let* corp_analyzer_result := CorporateRelationshipAnalyzer.assess_relationship party1 party2 in
    let result1 := merge_corporate result0 corp_analyzer_result in
    if ConnectedPersonAnalyzer.isConnectedPerson connected_rel
    then Ok (fold_left basis_append (ConnectedPersonAnalyzer.bases connected_rel)
                       (set_isConnectedPerson result1 true))
    else Ok result1
  else Ok result0.

(** The three special-entity checks, in source order. *)
Definition special_entity_checks (party1 party2 : gmap string value)
    (result0 : assessment_result) : assessment_result :=
  let result1 :=
    if SpecialEntityAnalyzer.assess_permanent_establishment party1 party2
    then specialCases_append (set_isRelatedParty result0 true) "Permanent Establishment relationship"
    else result0 in
  let result2 :=
    if SpecialEntityAnalyzer.assess_partnership party1 party2
    then specialCases_append (set_isRelatedParty result1 true) "Partnership relationship"
    else result1 in
  if SpecialEntityAnalyzer.assess_trust_foundation party1 party2
  then specialCases_append (set_isRelatedParty result2 true) "Trust/Foundation relationship"
  else result2.

(** The [risk_data] dictionary literal; its three values are evaluated in
    the order of the literal, and [max] may raise. *)
Definition risk_data (party1 party2 : gmap string value) : result (gmap string value) :=
  let cross_border := py_or (dict_get party1 "crossBorder" (VBool false))
                            (dict_get party2 "crossBorder" (VBool false)) in
  let high_value := py_or (dict_get party1 "highValueTransactions" (VBool false))
                          (dict_get party2 "highValueTransactions" (VBool false)) in
  let* layers := py_max (dict_get party1 "layersOfOwnership" (VInt 1))
                        (dict_get party2 "layersOfOwnership" (VInt 1)) in
  Ok (<["crossBorder" := cross_border]>
      (<["highValueTransactions" := high_value]>
       (<["layersOfOwnership" := layers]> ∅))).

Definition assess_relationship (party1 party2 : gmap string value) : result assessment_result :=
  let result0 := {| isRelatedParty := false;
                    isConnectedPerson := false;
                    basis := [];
                    specialCases := [];
                    riskAssessment := None;
                    documentationRequired := None |} in
  let* party1_type := py_upper (dict_get party1 "type" (VStr "")) in
  let* party2_type := py_upper (dict_get party2 "type" (VStr "")) in
  let* result1 := dispatch party1 party2 party1_type party2_type result0 in
  let result2 := special_entity_checks party1 party2 result1 in
  let* data := risk_data party1 party2 in
  let* risk_assessment := RiskAnalyzer.analyze_risk data in
  let result3 := set_riskAssessment result2 risk_assessment in
  let* doc_req := DocumentationAnalyzer.determine_requirements party1 result3 risk_assessment in
  Ok (set_documentationRequired result3 doc_req).

End TPRelationshipAssessor.

(** The one operation the core exposes: [assess(party1, party2)]. *)
Definition assess : gmap string value -> gmap string value -> result assessment_result :=
  TPRelationshipAssessor.assess_relationship.

(* ===================================================================== *)
(** ** 10. Streamlit front end: the party dictionaries of [main] *)
(* ===================================================================== *)

Module FrontEnd.

(** The options of the select boxes. *)
Definition party_types : list string :=
  ["INDIVIDUAL"; "CORPORATE"; "PERMANENT_ESTABLISHMENT"].

Definition relationship_options : list string :=
  [""; "parent"; "child"; "spouse_parent"; "spouse_child";
   "grandparent"; "grandchild"; "sibling"; "spouse_sibling";
   "uncle"; "aunt"; "niece"; "nephew"; "first_cousin"].

(** What the widgets of one party return.  The widgets of the Individual and
    of the Corporate block are rendered, and read by [main], only for a party
    of that type. *)
Record widgets := {
  party_type : string;
  cross_border : bool;
  high_value : bool;
  layers : Z;
  relationship_type : string;
  is_director : bool;
  is_officer : bool;
  personal_ownership : Z;
  family_ownership : Z;
  revenue : Z;
  group_rev : Z;
  direct_own : Z;
  indirect_own : Z;
  voting_rights : Z;
  profit_entitlement : Z;
  management_control : Z
}.

Definition percentage (z : Z) : bool := (0 <=? z) && (z <=? 100).

(** The ranges the widgets enforce: select boxes return one of their
    options, [number_input] a number between its bounds. *)
Definition in_range (w : widgets) : bool :=
  existsb (String.eqb (party_type w)) party_types
  && existsb (String.eqb (relationship_type w)) relationship_options
  && ((1 <=? layers w) && (layers w <=? 10))
  && percentage (personal_ownership w) && percentage (family_ownership w)
  && (0 <=? revenue w) && (0 <=? group_rev w)
  && percentage (direct_own w) && percentage (indirect_own w)
  && percentage (voting_rights w) && percentage (profit_entitlement w)
  && percentage (management_control w).

(** The dictionary [main] builds for one party: the literal with the four
    common keys, then the item assignments of the block of its type. *)
Definition build_party (w : widgets) : gmap string value :=
  let party : gmap string value :=
    list_to_map [("type", VStr (party_type w));
                 ("crossBorder", VBool (cross_border w));
                 ("highValueTransactions", VBool (high_value w));
                 ("layersOfOwnership", VInt (layers w))] in
  let party :=
    if String.eqb (party_type w) "INDIVIDUAL" then
      <["familyOwnership" := VInt (family_ownership w)]>
      (<["personalOwnership" := VInt (personal_ownership w)]>
       (<["isOfficer" := VBool (is_officer w)]>
        (<["isDirector" := VBool (is_director w)]>
         (<["relationship_type" := VStr (relationship_type w)]> party))))
    else party in
  if String.eqb (party_type w) "CORPORATE" then
    <["managementControl" := VInt (management_control w)]>
    (<["profitEntitlement" := VInt (profit_entitlement w)]>
     (<["votingRights" := VInt (voting_rights w)]>
      (<["ownership" := VDict (list_to_map [("direct", VInt (direct_own w));
                                            ("indirect", VInt (indirect_own w))])]>
       (<["groupConsolidatedRevenue" := VInt (group_rev w)]>
        (<["revenue" := VInt (revenue w)]> party)))))
  else party.

(** The value bound to [assessment_result] when the button is pressed; the
    [st.write] calls that render it only produce output. *)
Definition main (w1 w2 : widgets) : result assessment_result :=
  assess (build_party w1) (build_party w2).

End FrontEnd.

(* ===================================================================== *)
(** ** The party schema of the data model *)
(* ===================================================================== *)

(** A party record is well formed when every field it carries has the type
    the data model gives it; every field is optional, and no range is
    imposed on the numbers. *)

Definition is_bool (v : value) : bool := match v with VBool _ => true | _ => false end.
Definition is_int (v : value) : bool := match v with VInt _ => true | _ => false end.
Definition is_str (v : value) : bool := match v with VStr _ => true | _ => false end.

Definition field_ok (check : value -> bool) (d : gmap string value) (k : string) : bool :=
  match d !! k with
  | None => true
  | Some v => check v
  end.

Definition is_ownership (v : value) : bool :=
  match v with
  | VDict d => field_ok is_int d "direct" && field_ok is_int d "indirect"
  | _ => false
  end.

Definition schema : list (string * (value -> bool)) :=
  [ ("type", is_str); ("crossBorder", is_bool); ("highValueTransactions", is_bool);
    ("layersOfOwnership", is_int); ("companyType", is_str);
    ("relationship_type", is_str); ("isDirector", is_bool); ("isOfficer", is_bool);
    ("personalOwnership", is_int); ("familyOwnership", is_int);
    ("revenue", is_int); ("groupConsolidatedRevenue", is_int);
    ("ownership", is_ownership); ("votingRights", is_int);
    ("profitEntitlement", is_int); ("managementControl", is_int) ].

Definition well_formed (p : gmap string value) : bool :=
  forallb (fun kc => field_ok (snd kc) p (fst kc)) schema.

(** Typed readers: the value of a field, or its default when it is absent. *)
Definition int_field (d : gmap string value) (k : string) (dflt : Z) : Z :=
  match d !! k with Some (VInt z) => z | _ => dflt end.

Definition bool_field (d : gmap string value) (k : string) : bool :=
  match d !! k with Some (VBool b) => b | _ => false end.

Definition str_field (d : gmap string value) (k : string) : string :=
  match d !! k with Some (VStr s) => s | _ => "" end.

Definition ownership_of (p : gmap string value) : gmap string value :=
  match p !! "ownership" with Some (VDict d) => d | _ => ∅ end.

Definition total_ownership (p : gmap string value) : Z :=
  int_field (ownership_of p) "direct" 0 + int_field (ownership_of p) "indirect" 0.

(** The normalized (upper-cased) type of a party, as the dispatch computes it. *)
Definition party_type (p : gmap string value) : result string :=
  py_upper (dict_get p "type" (VStr "")).

(** Some threshold of the corporate tests is reached by this party's figures. *)
Definition reaches_threshold (p : gmap string value) : Prop :=
  CONFIG.OWNERSHIP_THRESHOLD <= total_ownership p
  \/ CONFIG.CONTROL_THRESHOLD <= int_field p "votingRights" 0
  \/ CONFIG.CONTROL_THRESHOLD <= int_field p "profitEntitlement" 0
  \/ CONFIG.CONTROL_THRESHOLD <= int_field p "managementControl" 0.

(** The dispatch conditions on a pair of normalized types. *)
Definition both_individual (t1 t2 : string) : bool :=
  String.eqb t1 "INDIVIDUAL" && String.eqb t2 "INDIVIDUAL".
Definition both_corporate (t1 t2 : string) : bool :=
  String.eqb t1 "CORPORATE" && String.eqb t2 "CORPORATE".
Definition mixed_pair (t1 t2 : string) : bool :=
  (String.eqb t1 "INDIVIDUAL" && String.eqb t2 "CORPORATE")
  || (String.eqb t1 "CORPORATE" && String.eqb t2 "INDIVIDUAL").

(** Two dictionaries that agree on every key outside [ks]. *)
Definition differ_only_in (ks : list string) (p p' : gmap string value) : Prop :=
  forall k, ~ In k ks -> p !! k = p' !! k.

(** The result dictionary as initialised by the controller. *)
Definition initial_result : assessment_result :=
  {| isRelatedParty := false; isConnectedPerson := false; basis := [];
     specialCases := []; riskAssessment := None; documentationRequired := None |}.

(* ===================================================================== *)
(** ** Vocabulary of the properties *)
(* ===================================================================== *)

(** Verdicts of the three corporate sub-tests, read off the typed fields. *)
Definition ownership_test (e1 e2 : gmap string value) : bool :=
  (CONFIG.OWNERSHIP_THRESHOLD <=? total_ownership e1)
  || (CONFIG.OWNERSHIP_THRESHOLD <=? total_ownership e2).

Definition control_test (e1 e2 : gmap string value) : bool :=
  ((CONFIG.CONTROL_THRESHOLD <=? int_field e1 "votingRights" 0)
   || (CONFIG.CONTROL_THRESHOLD <=? int_field e1 "profitEntitlement" 0))
  || ((CONFIG.CONTROL_THRESHOLD <=? int_field e2 "votingRights" 0)
      || (CONFIG.CONTROL_THRESHOLD <=? int_field e2 "profitEntitlement" 0)).

Definition management_test (e1 e2 : gmap string value) : bool :=
  (CONFIG.CONTROL_THRESHOLD <=? int_field e1 "managementControl" 0)
  || (CONFIG.CONTROL_THRESHOLD <=? int_field e2 "managementControl" 0).

(** The basis strings the corporate block appends, in the fixed order
    ownership, control, management. *)
Definition corporate_bases (e1 e2 : gmap string value) : list string :=
  ((if ownership_test e1 e2 then ["Ownership >= 50%"] else [])
   ++ (if control_test e1 e2
       then ["Control through voting rights or profit entitlement >= 50%"] else [])
   ++ (if management_test e1 e2 then ["Management control >= 50%"] else []))%list.

Definition corporate_related (e1 e2 : gmap string value) : bool :=
  ownership_test e1 e2 || control_test e1 e2 || management_test e1 e2.

(** Verdict and basis strings of the connected-person tests. *)
Definition ownership_connected (person : gmap string value) : bool :=
  CONFIG.OWNERSHIP_THRESHOLD
  <=? int_field person "personalOwnership" 0 + int_field person "familyOwnership" 0.

Definition connected_bases (person : gmap string value) : list string :=
  ((if bool_field person "isDirector" then ["Director relationship"] else [])
   ++ (if bool_field person "isOfficer" then ["Officer relationship"] else [])
   ++ (if ownership_connected person then ["Ownership >= 50%"] else []))%list.

(** The merged risk inputs and the complexity step function. *)
Definition merged_cross_border (p1 p2 : gmap string value) : bool :=
  bool_field p1 "crossBorder" || bool_field p2 "crossBorder".

Definition merged_high_value (p1 p2 : gmap string value) : bool :=
  bool_field p1 "highValueTransactions" || bool_field p2 "highValueTransactions".

Definition max_layers (p1 p2 : gmap string value) : Z :=
  Z.max (int_field p1 "layersOfOwnership" 1) (int_field p2 "layersOfOwnership" 1).

Definition complexity_of (layers : Z) : Z :=
  if 3 <? layers then 3 else if layers =? 3 then 2 else 1.

Definition risk_level_of (score : Z) (cross_border high_value : bool) : string :=
  if (3 <=? score) || cross_border || high_value then "HIGH"
  else if score =? 2 then "MEDIUM"
  else "LOW".

(** What the special-entity pass does to the result. *)
Definition special_labels (p1 p2 : gmap string value) : list string :=
  ((if SpecialEntityAnalyzer.assess_permanent_establishment p1 p2
    then ["Permanent Establishment relationship"] else [])
   ++ (if SpecialEntityAnalyzer.assess_partnership p1 p2
       then ["Partnership relationship"] else [])
   ++ (if SpecialEntityAnalyzer.assess_trust_foundation p1 p2
       then ["Trust/Foundation relationship"] else []))%list.

Definition special_fires (p1 p2 : gmap string value) : bool :=
  SpecialEntityAnalyzer.assess_permanent_establishment p1 p2
  || SpecialEntityAnalyzer.assess_partnership p1 p2
  || SpecialEntityAnalyzer.assess_trust_foundation p1 p2.

(** The risk record and the documentation record of a well-formed pair. *)
Definition risk_of (p1 p2 : gmap string value) : RiskAnalyzer.risk_assessment :=
  {| RiskAnalyzer.riskLevel :=
       risk_level_of (complexity_of (max_layers p1 p2))
                     (merged_cross_border p1 p2) (merged_high_value p1 p2);
     RiskAnalyzer.factors :=
       {| RiskAnalyzer.complexityScore := complexity_of (max_layers p1 p2);
          RiskAnalyzer.crossBorder := VBool (merged_cross_border p1 p2);
          RiskAnalyzer.highValueTransactions := VBool (merged_high_value p1 p2) |} |}.

Definition requirements_of (p1 : gmap string value) (related : bool)
    (ra : RiskAnalyzer.risk_assessment) : requirements :=
  {| masterFile :=
       CONFIG.DOCUMENTATION_THRESHOLDS.MNE_GROUP_CONSOLIDATED
       <=? int_field p1 "groupConsolidatedRevenue" 0;
     localFile := CONFIG.DOCUMENTATION_THRESHOLDS.REVENUE <=? int_field p1 "revenue" 0;
     disclosureForm := related;
     additionalDocs :=
       if String.eqb (RiskAnalyzer.riskLevel ra) "HIGH"
       then ["Detailed Intercompany Agreement Documentation"] else [] |}.

(** The party passed as [person] to the connected-person analyzer. *)
Definition person_of (p1 p2 : gmap string value) (t1 : string) : gmap string value :=
  if String.eqb t1 "INDIVIDUAL" then p1 else p2.

Definition connected (person : gmap string value) : bool :=
  bool_field person "isDirector" || bool_field person "isOfficer"
  || ownership_connected person.

(** A party whose companyType is Partnership, Trust or Foundation. *)
Definition special_company_type (p : gmap string value) : bool :=
  py_in_strs (dict_get p "companyType" VNone) ["Partnership"; "Trust"; "Foundation"].

(** A party that carries none of the fields the corporate tests read. *)
Definition lacks_corporate_fields (p : gmap string value) : Prop :=
  p !! "ownership" = None /\ p !! "votingRights" = None
  /\ p !! "profitEntitlement" = None /\ p !! "managementControl" = None.

(** The keys of [party2] that some analyzer looks up. *)
Definition party2_reads : list string :=
  [ "type"; "ownership"; "votingRights"; "profitEntitlement"; "managementControl";
    "isDirector"; "isOfficer"; "personalOwnership"; "familyOwnership";
    "companyType"; "crossBorder"; "highValueTransactions"; "layersOfOwnership" ].

(** The verdict of the family test on party1. *)
Definition family_related (p1 : gmap string value) : bool :=
  FamilyRelationshipAnalyzer.isRelatedParty
    (FamilyRelationshipAnalyzer.assess_relationship p1 ∅).

Definition family_basis (p1 : gmap string value) : string :=
  FamilyRelationshipAnalyzer.basis (FamilyRelationshipAnalyzer.assess_relationship p1 ∅).

(** What the dispatch contributes for a pair with normalized types [t1], [t2]. *)
Definition branch_related (p1 p2 : gmap string value) (t1 t2 : string) : bool :=
  if both_individual t1 t2 then family_related p1
  else if both_corporate t1 t2 then corporate_related p1 p2
  else if mixed_pair t1 t2 then corporate_related p1 p2
  else false.

Definition branch_connected (p1 p2 : gmap string value) (t1 t2 : string) : bool :=
  mixed_pair t1 t2 && connected (person_of p1 p2 t1).

Definition branch_bases (p1 p2 : gmap string value) (t1 t2 : string) : list string :=
  if both_individual t1 t2 then (if family_related p1 then [family_basis p1] else [])
  else if both_corporate t1 t2 then corporate_bases p1 p2
  else if mixed_pair t1 t2
       then (corporate_bases p1 p2 ++ connected_bases (person_of p1 p2 t1))%list
  else [].

(** Every string the assessment can put in the basis list. *)
Definition basis_vocabulary : list string :=
  [ "Family relationship - 1 degree"; "Family relationship - 2 degree";
    "Family relationship - 3 degree"; "Family relationship - 4 degree";
    "Ownership >= 50%";
    "Control through voting rights or profit entitlement >= 50%";
    "Management control >= 50%";
    "Director relationship"; "Officer relationship" ].

Definition special_vocabulary : list string :=
  [ "Permanent Establishment relationship"; "Partnership relationship";
    "Trust/Foundation relationship" ].

(** The order LOW < MEDIUM < HIGH of the risk levels. *)
Definition risk_rank (level : string) : Z :=
  if String.eqb level "HIGH" then 2
  else if String.eqb level "MEDIUM" then 1
  else 0.

(** The keys of a party that the data model names. *)
Definition schema_keys : list string := map fst schema.

(** The keys of [party1] that some analyzer looks up. *)
Definition party1_reads : list string :=
  (party2_reads ++ ["relationship_type"; "revenue"; "groupConsolidatedRevenue"])%list.

Definition is_dict (v : value) : bool := match v with VDict _ => true | _ => false end.

(** The keys read outside the corporate and connected-person analyzers. *)
Definition common_reads : list string :=
  [ "type"; "companyType"; "crossBorder"; "highValueTransactions";
    "layersOfOwnership"; "relationship_type"; "revenue"; "groupConsolidatedRevenue" ].

(* ===================================================================== *)
(** ** Concrete parties *)
(* ===================================================================== *)

(** A dictionary literal [{k1: v1, ..., kn: vn}]. *)
Definition dict (l : list (string * value)) : gmap string value := list_to_map l.

Definition sibling_1 : gmap string value :=
  dict [("type", VStr "INDIVIDUAL"); ("relationship_type", VStr "sibling")].
Definition individual_empty : gmap string value := dict [("type", VStr "INDIVIDUAL")].

Definition corporate_empty : gmap string value := dict [("type", VStr "CORPORATE")].

Definition corporate_trust : gmap string value :=
  dict [("type", VStr "CORPORATE"); ("companyType", VStr "Trust")].

Definition corporate_owner : gmap string value :=
  dict [("type", VStr "CORPORATE");
        ("ownership", VDict (dict [("direct", VInt 60); ("indirect", VInt 0)]));
        ("revenue", VInt 250000000);
        ("crossBorder", VBool true)].

Definition corporate_rich : gmap string value :=
  dict [("type", VStr "CORPORATE");
        ("revenue", VInt 900000000);
        ("groupConsolidatedRevenue", VInt 4000000000)].

Definition corporate_owned : gmap string value :=
  dict [("type", VStr "CORPORATE");
        ("ownership", VDict (dict [("direct", VInt 60); ("indirect", VInt 0)]))].

Definition individual_friend_trust : gmap string value :=
  dict [("type", VStr "INDIVIDUAL"); ("relationship_type", VStr "friend");
        ("companyType", VStr "Trust")].

Definition individual_cousin : gmap string value :=
  dict [("type", VStr "INDIVIDUAL"); ("relationship_type", VStr "first_cousin")].

Definition establishment : gmap string value :=
  dict [("type", VStr "PERMANENT_ESTABLISHMENT")].

Definition corporate_lowercase : gmap string value := dict [("type", VStr "corporate")].

Definition establishment_lowercase : gmap string value :=
  dict [("type", VStr "permanent_establishment")].

Definition individual_director : gmap string value :=
  dict [("type", VStr "INDIVIDUAL"); ("isDirector", VBool true)].

(** A company whose type is none of the three type names. *)
Definition company_misspelt : gmap string value :=
  dict [("type", VStr "Company");
        ("ownership", VDict (dict [("direct", VInt 80); ("indirect", VInt 0)]));
        ("votingRights", VInt 80);
        ("crossBorder", VBool true)].

(** Parties whose type is written with the dotless i (U+0131), which
    [str.upper] maps to I. *)
Definition dotless_sibling : gmap string value :=
  dict [("type", VStr "ındıvıdual"); ("relationship_type", VStr "sibling")].

Definition dotless_officer : gmap string value :=
  dict [("type", VStr "ındıvıdual"); ("isOfficer", VBool true);
        ("personalOwnership", VInt 60)].

Definition form_individual : FrontEnd.widgets :=
  {| FrontEnd.party_type := "INDIVIDUAL"; FrontEnd.cross_border := false;
     FrontEnd.high_value := false; FrontEnd.layers := 1;
     FrontEnd.relationship_type := "aunt"; FrontEnd.is_director := true;
     FrontEnd.is_officer := false; FrontEnd.personal_ownership := 10;
     FrontEnd.family_ownership := 5; FrontEnd.revenue := 0; FrontEnd.group_rev := 0;
     FrontEnd.direct_own := 0; FrontEnd.indirect_own := 0; FrontEnd.voting_rights := 0;
     FrontEnd.profit_entitlement := 0; FrontEnd.management_control := 0 |}.

Definition form_corporate : FrontEnd.widgets :=
  {| FrontEnd.party_type := "CORPORATE"; FrontEnd.cross_border := true;
     FrontEnd.high_value := false; FrontEnd.layers := 3;
     FrontEnd.relationship_type := ""; FrontEnd.is_director := false;
     FrontEnd.is_officer := false; FrontEnd.personal_ownership := 0;
     FrontEnd.family_ownership := 0; FrontEnd.revenue := 250000000;
     FrontEnd.group_rev := 0; FrontEnd.direct_own := 30; FrontEnd.indirect_own := 25;
     FrontEnd.voting_rights := 10; FrontEnd.profit_entitlement := 0;
     FrontEnd.management_control := 0 |}.

Definition form_establishment : FrontEnd.widgets :=
  {| FrontEnd.party_type := "PERMANENT_ESTABLISHMENT"; FrontEnd.cross_border := false;
     FrontEnd.high_value := false; FrontEnd.layers := 2;
     FrontEnd.relationship_type := ""; FrontEnd.is_director := false;
     FrontEnd.is_officer := false; FrontEnd.personal_ownership := 0;
     FrontEnd.family_ownership := 0; FrontEnd.revenue := 0; FrontEnd.group_rev := 0;
     FrontEnd.direct_own := 0; FrontEnd.indirect_own := 0; FrontEnd.voting_rights := 0;
     FrontEnd.profit_entitlement := 0; FrontEnd.management_control := 0 |}.

(** A corporate party carrying a key the data model does not name. *)
Definition corporate_named : gmap string value :=
  dict [("type", VStr "CORPORATE"); ("name", VStr "Acme")].


Definition individual_owner : gmap string value :=
  dict [("type", VStr "INDIVIDUAL"); ("isOfficer", VBool true);
        ("personalOwnership", VInt 30); ("familyOwnership", VInt 25)].

Definition partnership_1 : gmap string value :=
  dict [("type", VStr "CORPORATE"); ("companyType", VStr "Partnership")].

(** An individual whose record carries an ownership entry that is not a
    dictionary. *)
Definition individual_bad_ownership : gmap string value :=
  dict [("type", VStr "INDIVIDUAL"); ("relationship_type", VStr "sibling");
        ("ownership", VStr "sixty percent")].

Definition corporate_bad_ownership : gmap string value :=
  dict [("type", VStr "CORPORATE"); ("ownership", VStr "sixty percent")].

(* ===================================================================== *)
(** ** Evaluation on concrete inputs *)
(* ===================================================================== *)

Example end_to_end_sibling :
  assess sibling_1 individual_empty =
  Ok {| isRelatedParty := true;
        isConnectedPerson := false;
        basis := ["Family relationship - 2 degree"];
        specialCases := [];
        riskAssessment := Some {| RiskAnalyzer.riskLevel := "LOW";
                                  RiskAnalyzer.factors :=
                                    {| RiskAnalyzer.complexityScore := 1;
                                       RiskAnalyzer.crossBorder := VBool false;
                                       RiskAnalyzer.highValueTransactions := VBool false |} |};
        documentationRequired := Some {| masterFile := false; localFile := false;
                                         disclosureForm := true; additionalDocs := [] |} |}.
Proof. vm_compute. reflexivity. Qed.

(** The spec's second end-to-end example. *)
Example end_to_end_corporate_owner :
  assess corporate_owner corporate_empty =
  Ok {| isRelatedParty := true;
        isConnectedPerson := false;
        basis := ["Ownership >= 50%"];
        specialCases := [];
        riskAssessment := Some {| RiskAnalyzer.riskLevel := "HIGH";
                                  RiskAnalyzer.factors :=
                                    {| RiskAnalyzer.complexityScore := 1;
                                       RiskAnalyzer.crossBorder := VBool true;
                                       RiskAnalyzer.highValueTransactions := VBool false |} |};
        documentationRequired :=
          Some {| masterFile := false; localFile := true; disclosureForm := true;
                  additionalDocs := ["Detailed Intercompany Agreement Documentation"] |} |}.
Proof. vm_compute. reflexivity. Qed.

(** Ill-typed fields raise: a type that is not a string has no [upper], and a
    string cannot be compared with the ownership threshold. *)
Example type_not_a_string :
  assess (dict [("type", VInt 5)]) individual_empty = Raise AttributeError.
Proof. vm_compute. reflexivity. Qed.

Example voting_rights_not_a_number :
  assess (dict [("type", VStr "CORPORATE"); ("votingRights", VStr "60")]) corporate_empty
  = Raise TypeError.
Proof. vm_compute. reflexivity. Qed.

Example upper_dotless_i : upper "ındıvıdual" = "INDIVIDUAL".
Proof. vm_compute. reflexivity. Qed.

Example upper_sharp_s : upper "straße" = "STRASSE".
Proof. vm_compute. reflexivity. Qed.

Example upper_accented : upper "société" = "SOCIÉTÉ".
Proof. vm_compute. reflexivity. Qed.

(** A type written with the dotless i dispatches as INDIVIDUAL: the family
    test runs, and against a company the connected-person and ownership
    tests run. *)
Example end_to_end_dotless_sibling :
  exists r, assess dotless_sibling individual_empty = Ok r
            /\ isRelatedParty r = true
            /\ basis r = ["Family relationship - 2 degree"].
Proof. eexists. split; [vm_compute; reflexivity |]. split; reflexivity. Qed.

Example end_to_end_dotless_officer :
  exists r, assess dotless_officer corporate_owned = Ok r
            /\ isConnectedPerson r = true
            /\ basis r = ["Ownership >= 50%"; "Officer relationship"; "Ownership >= 50%"].
Proof. eexists. split; [vm_compute; reflexivity |]. split; reflexivity. Qed.

Example upper_mixed_case : upper "Permanent_Establishment" = "PERMANENT_ESTABLISHMENT".
Proof. reflexivity. Qed.

Example calculate_degree_uncle :
  FamilyRelationshipAnalyzer.calculate_degree (VStr "uncle") = 3.
Proof. reflexivity. Qed.

Example calculate_degree_unknown :
  FamilyRelationshipAnalyzer.calculate_degree (VStr "friend") = 999.
Proof. reflexivity. Qed.

Example local_file_boundary :
  DocumentationAnalyzer.is_local_file_required (dict [("revenue", VInt 200000000)]) = Ok true
  /\ DocumentationAnalyzer.is_local_file_required (dict [("revenue", VInt 199999999)])
     = Ok false.
Proof. split; vm_compute; reflexivity. Qed.

(* ===================================================================== *)
(** ** Lemmas on the builtin operations *)
(* ===================================================================== *)

Lemma Ok_inj {A} (a b : A) : Ok a = Ok b -> a = b.
Proof. intros H. now injection H. Qed.

Lemma py_ge_int (a b : Z) : py_ge (VInt a) (VInt b) = Ok (b <=? a).
Proof.
  unfold py_ge, py_compare; simpl. f_equal.
  destruct (Z.compare_spec a b); symmetry;
    [apply Z.leb_le | apply Z.leb_gt | apply Z.leb_le]; lia.
Qed.

Lemma py_gt_int (a b : Z) : py_gt (VInt a) (VInt b) = Ok (b <? a).
Proof.
  unfold py_gt, py_compare; simpl. f_equal.
  destruct (Z.compare_spec a b); symmetry;
    [apply Z.ltb_ge | apply Z.ltb_ge | apply Z.ltb_lt]; lia.
Qed.

Lemma py_add_int (a b : Z) : py_add (VInt a) (VInt b) = Ok (VInt (a + b)).
Proof. reflexivity. Qed.

Lemma py_max_int (a b : Z) : py_max (VInt a) (VInt b) = Ok (VInt (Z.max a b)).
Proof.
  unfold py_max. rewrite py_gt_int. simpl. f_equal.
  destruct (Z.ltb_spec a b); f_equal; lia.
Qed.

Lemma ge_or_ge_int (a b t : Z) :
  CorporateRelationshipAnalyzer.ge_or_ge (VInt a) (VInt b) (VInt t)
  = Ok ((t <=? a) || (t <=? b)).
Proof.
  unfold CorporateRelationshipAnalyzer.ge_or_ge. rewrite !py_ge_int. simpl.
  destruct (t <=? a); reflexivity.
Qed.

Lemma py_or_bool (a b : bool) : py_or (VBool a) (VBool b) = VBool (a || b).
Proof. destruct a; reflexivity. Qed.

Lemma py_in_strs_In (s : string) (l : list string) :
  py_in_strs (VStr s) l = true <-> In s l.
Proof.
  unfold py_in_strs. rewrite existsb_exists. simpl. split.
  - intros (x & Hx & He). apply String.eqb_eq in He. now subst.
  - intros H. exists s. split; [assumption | apply String.eqb_refl].
Qed.

(** Reading a well-typed field. *)
Lemma wf_field (p : gmap string value) (k : string) (chk : value -> bool) :
  well_formed p = true -> In (k, chk) schema -> field_ok chk p k = true.
Proof.
  unfold well_formed. rewrite forallb_forall. intros H Hin. apply (H _ Hin).
Qed.

Lemma get_int_ok (d : gmap string value) (k : string) (dflt : Z) :
  field_ok is_int d k = true -> dict_get d k (VInt dflt) = VInt (int_field d k dflt).
Proof.
  unfold field_ok, dict_get, int_field.
  destruct (d !! k) as [[]|]; simpl; congruence.
Qed.

Lemma get_bool_ok (d : gmap string value) (k : string) :
  field_ok is_bool d k = true -> dict_get d k (VBool false) = VBool (bool_field d k).
Proof.
  unfold field_ok, dict_get, bool_field.
  destruct (d !! k) as [[]|]; simpl; congruence.
Qed.

Lemma get_str_ok (d : gmap string value) (k : string) :
  field_ok is_str d k = true -> dict_get d k (VStr "") = VStr (str_field d k).
Proof.
  unfold field_ok, dict_get, str_field.
  destruct (d !! k) as [[]|]; simpl; congruence.
Qed.

Lemma get_ownership_ok (p : gmap string value) :
  field_ok is_ownership p "ownership" = true ->
  dict_get p "ownership" (VDict ∅) = VDict (ownership_of p)
  /\ field_ok is_int (ownership_of p) "direct" = true
  /\ field_ok is_int (ownership_of p) "indirect" = true.
Proof.
  unfold field_ok at 1, dict_get, ownership_of.
  destruct (p !! "ownership") as [[]|]; simpl; try discriminate.
  - intros H. apply andb_prop in H. tauto.
  - intros _. repeat split.
Qed.

Ltac in_schema := simpl; repeat (first [left; reflexivity | right]).

Ltac wf_int H k := apply get_int_ok, (wf_field _ k is_int H); in_schema.
Ltac wf_bool H k := apply get_bool_ok, (wf_field _ k is_bool H); in_schema.
Ltac wf_str H k := apply get_str_ok, (wf_field _ k is_str H); in_schema.

(* ===================================================================== *)
(** ** The analyzers on well-formed parties *)
(* ===================================================================== *)

Lemma analyze_ownership_wf (e1 e2 : gmap string value) :
  well_formed e1 = true -> well_formed e2 = true ->
  exists a, CorporateRelationshipAnalyzer.analyze_ownership e1 e2 = Ok a
    /\ CorporateRelationshipAnalyzer.isRelated a = ownership_test e1 e2
    /\ CorporateRelationshipAnalyzer.basis a = "Ownership >= 50%".
Proof.
  intros W1 W2.
  destruct (get_ownership_ok e1) as (E1 & D1 & I1);
    [apply (wf_field _ "ownership" is_ownership W1); in_schema |].
  destruct (get_ownership_ok e2) as (E2 & D2 & I2);
    [apply (wf_field _ "ownership" is_ownership W2); in_schema |].
  unfold CorporateRelationshipAnalyzer.analyze_ownership.
  rewrite E1, E2. cbn [py_get bind].
  rewrite (get_int_ok _ _ _ D1), (get_int_ok _ _ _ I1),
          (get_int_ok _ _ _ D2), (get_int_ok _ _ _ I2).
  cbn [bind]. rewrite !py_add_int. cbn [bind]. rewrite !py_ge_int. cbn [bind].
  eexists. split; [reflexivity |]. split; reflexivity.
Qed.

Lemma analyze_control_wf (e1 e2 : gmap string value) :
  well_formed e1 = true -> well_formed e2 = true ->
  exists a, CorporateRelationshipAnalyzer.analyze_control e1 e2 = Ok a
    /\ CorporateRelationshipAnalyzer.isRelated a = control_test e1 e2
    /\ CorporateRelationshipAnalyzer.basis a
       = "Control through voting rights or profit entitlement >= 50%".
Proof.
  intros W1 W2. unfold CorporateRelationshipAnalyzer.analyze_control.
  replace (dict_get e1 "votingRights" (VInt 0))
    with (VInt (int_field e1 "votingRights" 0)) by (symmetry; wf_int W1 "votingRights").
  replace (dict_get e2 "votingRights" (VInt 0))
    with (VInt (int_field e2 "votingRights" 0)) by (symmetry; wf_int W2 "votingRights").
  replace (dict_get e1 "profitEntitlement" (VInt 0))
    with (VInt (int_field e1 "profitEntitlement" 0))
    by (symmetry; wf_int W1 "profitEntitlement").
  replace (dict_get e2 "profitEntitlement" (VInt 0))
    with (VInt (int_field e2 "profitEntitlement" 0))
    by (symmetry; wf_int W2 "profitEntitlement").
  rewrite !ge_or_ge_int. cbn [bind].
  eexists. split; [reflexivity |]. split; reflexivity.
Qed.

Lemma analyze_management_wf (e1 e2 : gmap string value) :
  well_formed e1 = true -> well_formed e2 = true ->
  exists a, CorporateRelationshipAnalyzer.analyze_management e1 e2 = Ok a
    /\ CorporateRelationshipAnalyzer.isRelated a = management_test e1 e2
    /\ CorporateRelationshipAnalyzer.basis a = "Management control >= 50%".
Proof.
  intros W1 W2. unfold CorporateRelationshipAnalyzer.analyze_management.
  replace (dict_get e1 "managementControl" (VInt 0))
    with (VInt (int_field e1 "managementControl" 0))
    by (symmetry; wf_int W1 "managementControl").
  replace (dict_get e2 "managementControl" (VInt 0))
    with (VInt (int_field e2 "managementControl" 0))
    by (symmetry; wf_int W2 "managementControl").
  rewrite !py_ge_int. cbn [bind].
  eexists. split; [reflexivity |]. split; reflexivity.
Qed.

Lemma corporate_wf (e1 e2 : gmap string value) :
  well_formed e1 = true -> well_formed e2 = true ->
  exists c, CorporateRelationshipAnalyzer.assess_relationship e1 e2 = Ok c
    /\ CorporateRelationshipAnalyzer.isRelatedParty c = corporate_related e1 e2
    /\ forall r0,
         isRelatedParty (TPRelationshipAssessor.merge_corporate r0 c)
           = isRelatedParty r0 || corporate_related e1 e2
         /\ isConnectedPerson (TPRelationshipAssessor.merge_corporate r0 c)
           = isConnectedPerson r0
         /\ basis (TPRelationshipAssessor.merge_corporate r0 c)
           = (basis r0 ++ corporate_bases e1 e2)%list
         /\ specialCases (TPRelationshipAssessor.merge_corporate r0 c) = specialCases r0.
Proof.
  intros W1 W2.
  destruct (analyze_ownership_wf e1 e2 W1 W2) as (ao & Eo & Ro & Bo).
  destruct (analyze_control_wf e1 e2 W1 W2) as (ac & Ec & Rc & Bc).
  destruct (analyze_management_wf e1 e2 W1 W2) as (am & Em & Rm & Bm).
  unfold CorporateRelationshipAnalyzer.assess_relationship.
  rewrite Eo, Ec, Em. cbn [bind].
  eexists. split; [reflexivity |].
  unfold corporate_related, corporate_bases.
  split.
  - simpl. unfold id. rewrite Ro, Rc, Rm.
    destruct (ownership_test e1 e2), (control_test e1 e2), (management_test e1 e2);
      reflexivity.
  - intros r0. unfold TPRelationshipAssessor.merge_corporate. simpl.
    unfold id. rewrite Ro, Rc, Rm, Bo, Bc, Bm.
    destruct (ownership_test e1 e2), (control_test e1 e2), (management_test e1 e2);
      simpl; unfold append; rewrite ?orb_true_r, ?orb_false_r, ?app_nil_r, <- ?app_assoc;
      repeat split; reflexivity.
Qed.

Lemma assess_connection_wf (person entity : gmap string value) :
  well_formed person = true ->
  ConnectedPersonAnalyzer.assess_connection person entity
  = Ok {| ConnectedPersonAnalyzer.isConnectedPerson :=
            bool_field person "isDirector" || bool_field person "isOfficer"
            || ownership_connected person;
          ConnectedPersonAnalyzer.bases := connected_bases person |}.
Proof.
  intros W.
  unfold ConnectedPersonAnalyzer.assess_connection,
    ConnectedPersonAnalyzer.check_directorship, ConnectedPersonAnalyzer.check_officer,
    ConnectedPersonAnalyzer.check_ownership.
  replace (dict_get person "isDirector" (VBool false))
    with (VBool (bool_field person "isDirector")) by (symmetry; wf_bool W "isDirector").
  replace (dict_get person "isOfficer" (VBool false))
    with (VBool (bool_field person "isOfficer")) by (symmetry; wf_bool W "isOfficer").
  replace (dict_get person "personalOwnership" (VInt 0))
    with (VInt (int_field person "personalOwnership" 0))
    by (symmetry; wf_int W "personalOwnership").
  replace (dict_get person "familyOwnership" (VInt 0))
    with (VInt (int_field person "familyOwnership" 0))
    by (symmetry; wf_int W "familyOwnership").
  rewrite py_add_int. cbn [bind]. rewrite py_ge_int. cbn [bind].
  unfold connected_bases, ownership_connected. simpl.
  destruct (bool_field person "isDirector"), (bool_field person "isOfficer"),
    (CONFIG.OWNERSHIP_THRESHOLD
     <=? int_field person "personalOwnership" 0 + int_field person "familyOwnership" 0);
    reflexivity.
Qed.

Lemma risk_wf (p1 p2 : gmap string value) :
  well_formed p1 = true -> well_formed p2 = true ->
  exists data,
    TPRelationshipAssessor.risk_data p1 p2 = Ok data
    /\ RiskAnalyzer.analyze_risk data
       = Ok {| RiskAnalyzer.riskLevel :=
                 risk_level_of (complexity_of (max_layers p1 p2))
                               (merged_cross_border p1 p2) (merged_high_value p1 p2);
               RiskAnalyzer.factors :=
                 {| RiskAnalyzer.complexityScore := complexity_of (max_layers p1 p2);
                    RiskAnalyzer.crossBorder := VBool (merged_cross_border p1 p2);
                    RiskAnalyzer.highValueTransactions :=
                      VBool (merged_high_value p1 p2) |} |}.
Proof.
  intros W1 W2. unfold TPRelationshipAssessor.risk_data.
  replace (dict_get p1 "crossBorder" (VBool false))
    with (VBool (bool_field p1 "crossBorder")) by (symmetry; wf_bool W1 "crossBorder").
  replace (dict_get p2 "crossBorder" (VBool false))
    with (VBool (bool_field p2 "crossBorder")) by (symmetry; wf_bool W2 "crossBorder").
  replace (dict_get p1 "highValueTransactions" (VBool false))
    with (VBool (bool_field p1 "highValueTransactions"))
    by (symmetry; wf_bool W1 "highValueTransactions").
  replace (dict_get p2 "highValueTransactions" (VBool false))
    with (VBool (bool_field p2 "highValueTransactions"))
    by (symmetry; wf_bool W2 "highValueTransactions").
  replace (dict_get p1 "layersOfOwnership" (VInt 1))
    with (VInt (int_field p1 "layersOfOwnership" 1))
    by (symmetry; wf_int W1 "layersOfOwnership").
  replace (dict_get p2 "layersOfOwnership" (VInt 1))
    with (VInt (int_field p2 "layersOfOwnership" 1))
    by (symmetry; wf_int W2 "layersOfOwnership").
  rewrite py_max_int, !py_or_bool. cbn [bind].
  fold (max_layers p1 p2) (merged_cross_border p1 p2) (merged_high_value p1 p2).
  eexists. split; [reflexivity |].
  unfold RiskAnalyzer.analyze_risk, RiskAnalyzer.assess_complexity, dict_get.
  repeat first [rewrite lookup_insert_eq | rewrite lookup_insert_ne by discriminate].
  cbn [default from_option]. unfold id.
  rewrite py_gt_int. cbn [bind]. unfold complexity_of, risk_level_of, py_eq_int.
  cbn [as_int truthy].
  destruct (3 <? max_layers p1 p2); cbn [bind].
  - reflexivity.
  - destruct (max_layers p1 p2 =? 3); cbn [bind]; reflexivity.
Qed.

Lemma determine_requirements_wf (entity : gmap string value)
    (relationship : assessment_result) (ra : RiskAnalyzer.risk_assessment) :
  well_formed entity = true ->
  DocumentationAnalyzer.determine_requirements entity relationship ra
  = Ok {| masterFile :=
            CONFIG.DOCUMENTATION_THRESHOLDS.MNE_GROUP_CONSOLIDATED
            <=? int_field entity "groupConsolidatedRevenue" 0;
          localFile :=
            CONFIG.DOCUMENTATION_THRESHOLDS.REVENUE <=? int_field entity "revenue" 0;
          disclosureForm := isRelatedParty relationship;
          additionalDocs :=
            if String.eqb (RiskAnalyzer.riskLevel ra) "HIGH"
            then ["Detailed Intercompany Agreement Documentation"] else [] |}.
Proof.
  intros W.
  unfold DocumentationAnalyzer.determine_requirements,
    DocumentationAnalyzer.is_master_file_required,
    DocumentationAnalyzer.is_local_file_required,
    DocumentationAnalyzer.is_disclosure_required.
  replace (dict_get entity "groupConsolidatedRevenue" (VInt 0))
    with (VInt (int_field entity "groupConsolidatedRevenue" 0))
    by (symmetry; wf_int W "groupConsolidatedRevenue").
  replace (dict_get entity "revenue" (VInt 0))
    with (VInt (int_field entity "revenue" 0)) by (symmetry; wf_int W "revenue").
  rewrite !py_ge_int. cbn [bind truthy]. reflexivity.
Qed.

Lemma special_entity_checks_spec (p1 p2 : gmap string value) (r0 : assessment_result) :
  let r := TPRelationshipAssessor.special_entity_checks p1 p2 r0 in
  isRelatedParty r = isRelatedParty r0 || special_fires p1 p2
  /\ isConnectedPerson r = isConnectedPerson r0
  /\ basis r = basis r0
  /\ specialCases r = (specialCases r0 ++ special_labels p1 p2)%list
  /\ riskAssessment r = riskAssessment r0
  /\ documentationRequired r = documentationRequired r0.
Proof.
  unfold TPRelationshipAssessor.special_entity_checks, special_fires, special_labels.
  destruct (SpecialEntityAnalyzer.assess_permanent_establishment p1 p2),
    (SpecialEntityAnalyzer.assess_partnership p1 p2),
    (SpecialEntityAnalyzer.assess_trust_foundation p1 p2);
    cbn; unfold append; rewrite ?orb_true_r, ?orb_false_r, ?app_nil_r, <- ?app_assoc;
    repeat split; reflexivity.
Qed.

Lemma party_type_wf (p : gmap string value) :
  well_formed p = true -> party_type p = Ok (upper (str_field p "type")).
Proof.
  intros W. unfold party_type.
  replace (dict_get p "type" (VStr "")) with (VStr (str_field p "type"))
    by (symmetry; wf_str W "type").
  reflexivity.
Qed.

(** The four arms of the dispatch. *)
Lemma dispatch_individual (p1 p2 : gmap string value) (t1 t2 : string)
    (r0 : assessment_result) :
  both_individual t1 t2 = true ->
  TPRelationshipAssessor.dispatch p1 p2 t1 t2 r0
  = Ok (if FamilyRelationshipAnalyzer.isRelatedParty
             (FamilyRelationshipAnalyzer.assess_relationship p1 p2)
        then TPRelationshipAssessor.basis_append
               (TPRelationshipAssessor.set_isRelatedParty r0 true)
               (FamilyRelationshipAnalyzer.basis
                  (FamilyRelationshipAnalyzer.assess_relationship p1 p2))
        else r0).
Proof.
  unfold both_individual, TPRelationshipAssessor.dispatch. intros ->.
  destruct (FamilyRelationshipAnalyzer.isRelatedParty _); reflexivity.
Qed.

Lemma dispatch_corporate (p1 p2 : gmap string value) (t1 t2 : string)
    (r0 : assessment_result) :
  both_corporate t1 t2 = true ->
  TPRelationshipAssessor.dispatch p1 p2 t1 t2 r0
  = (let* corp_rel := CorporateRelationshipAnalyzer.assess_relationship p1 p2 in
     Ok (TPRelationshipAssessor.merge_corporate r0 corp_rel)).
Proof.
  unfold both_corporate, TPRelationshipAssessor.dispatch. intros H.
  rewrite H. apply andb_prop in H. destruct H as [H1 _].
  apply String.eqb_eq in H1. subst t1. reflexivity.
Qed.

Lemma dispatch_mixed (p1 p2 : gmap string value) (t1 t2 : string)
    (r0 : assessment_result) :
  mixed_pair t1 t2 = true ->
  TPRelationshipAssessor.dispatch p1 p2 t1 t2 r0
  = (let* connected_rel :=
       if String.eqb t1 "INDIVIDUAL"
       then ConnectedPersonAnalyzer.assess_connection p1 p2
       else ConnectedPersonAnalyzer.assess_connection p2 p1 in
     let* corp := CorporateRelationshipAnalyzer.assess_relationship p1 p2 in
     let r1 := TPRelationshipAssessor.merge_corporate r0 corp in
     if ConnectedPersonAnalyzer.isConnectedPerson connected_rel
     then Ok (fold_left TPRelationshipAssessor.basis_append
                (ConnectedPersonAnalyzer.bases connected_rel)
                (TPRelationshipAssessor.set_isConnectedPerson r1 true))
     else Ok r1).
Proof.
  unfold mixed_pair, TPRelationshipAssessor.dispatch. intros H. rewrite H.
  apply orb_prop in H.
  destruct H as [H | H]; apply andb_prop in H; destruct H as [H1 H2];
    apply String.eqb_eq in H1, H2; subst t1 t2; reflexivity.
Qed.

Lemma dispatch_fallback (p1 p2 : gmap string value) (t1 t2 : string)
    (r0 : assessment_result) :
  both_individual t1 t2 = false -> both_corporate t1 t2 = false ->
  mixed_pair t1 t2 = false ->
  TPRelationshipAssessor.dispatch p1 p2 t1 t2 r0 = Ok r0.
Proof.
  unfold both_individual, both_corporate, mixed_pair, TPRelationshipAssessor.dispatch.
  intros -> -> ->. reflexivity.
Qed.

Lemma fold_basis_append (l : list string) (r : assessment_result) :
  let r' := fold_left TPRelationshipAssessor.basis_append l r in
  isRelatedParty r' = isRelatedParty r
  /\ isConnectedPerson r' = isConnectedPerson r
  /\ basis r' = (basis r ++ l)%list
  /\ specialCases r' = specialCases r.
Proof.
  revert r. induction l as [| s l IH]; intros r; cbn.
  - rewrite app_nil_r. repeat split.
  - destruct (IH (TPRelationshipAssessor.basis_append r s)) as (H1 & H2 & H3 & H4).
    cbn in *. rewrite H1, H2, H3, H4. unfold append. rewrite <- app_assoc.
    repeat split.
Qed.

(** On well-formed parties every arm of the dispatch returns. *)
Lemma dispatch_wf (p1 p2 : gmap string value) (t1 t2 : string) (r0 : assessment_result) :
  well_formed p1 = true -> well_formed p2 = true ->
  exists r1, TPRelationshipAssessor.dispatch p1 p2 t1 t2 r0 = Ok r1.
Proof.
  intros W1 W2.
  destruct (both_individual t1 t2) eqn:HI.
  { rewrite (dispatch_individual _ _ _ _ _ HI). eauto. }
  destruct (both_corporate t1 t2) eqn:HC.
  { rewrite (dispatch_corporate _ _ _ _ _ HC).
    destruct (corporate_wf p1 p2 W1 W2) as (c & Ec & _). rewrite Ec. cbn [bind]. eauto. }
  destruct (mixed_pair t1 t2) eqn:HM.
  { rewrite (dispatch_mixed _ _ _ _ _ HM).
    destruct (corporate_wf p1 p2 W1 W2) as (c & Ec & _).
    rewrite (assess_connection_wf p1 p2 W1), (assess_connection_wf p2 p1 W2).
    destruct (String.eqb t1 "INDIVIDUAL"); cbn [bind]; rewrite Ec; cbn [bind];
      match goal with |- context [if ?b then _ else _] => destruct b end; eauto. }
  rewrite (dispatch_fallback _ _ _ _ _ HI HC HM). eauto.
Qed.

(** The shape of every assessment of a well-formed pair: the call returns,
    and its result is the dispatch outcome [r1], passed through the
    special-entity checks, with the risk and documentation records filled in. *)
Lemma assess_wf (p1 p2 : gmap string value) :
  well_formed p1 = true -> well_formed p2 = true ->
  exists r1 r,
    TPRelationshipAssessor.dispatch p1 p2 (upper (str_field p1 "type"))
      (upper (str_field p2 "type")) initial_result = Ok r1
    /\ assess p1 p2 = Ok r
    /\ isRelatedParty r = isRelatedParty r1 || special_fires p1 p2
    /\ isConnectedPerson r = isConnectedPerson r1
    /\ basis r = basis r1
    /\ specialCases r = (specialCases r1 ++ special_labels p1 p2)%list
    /\ riskAssessment r = Some (risk_of p1 p2)
    /\ documentationRequired r
       = Some (requirements_of p1 (isRelatedParty r) (risk_of p1 p2)).
Proof.
  intros W1 W2.
  destruct (dispatch_wf p1 p2 (upper (str_field p1 "type"))
              (upper (str_field p2 "type")) initial_result W1 W2) as (r1 & E1).
  destruct (risk_wf p1 p2 W1 W2) as (data & Ed & Er).
  exists r1. eexists. split; [exact E1 |].
  unfold assess, TPRelationshipAssessor.assess_relationship.
  fold (party_type p1) (party_type p2). fold initial_result.
  rewrite (party_type_wf p1 W1), (party_type_wf p2 W2). cbn [bind].
  rewrite E1. cbn [bind]. rewrite Ed. cbn [bind]. rewrite Er. cbn [bind].
  rewrite (determine_requirements_wf _ _ _ W1). cbn [bind].
  split; [reflexivity |].
  destruct (special_entity_checks_spec p1 p2 r1) as (S1 & S2 & S3 & S4 & _).
  cbn. fold (risk_of p1 p2). rewrite S1, S2, S3, S4.
  repeat split.
Qed.

(** The corporate arm and the mixed arm on well-formed parties. *)
Lemma dispatch_corporate_wf (p1 p2 : gmap string value) (t1 t2 : string)
    (r0 : assessment_result) :
  well_formed p1 = true -> well_formed p2 = true -> both_corporate t1 t2 = true ->
  exists r1, TPRelationshipAssessor.dispatch p1 p2 t1 t2 r0 = Ok r1
    /\ isRelatedParty r1 = isRelatedParty r0 || corporate_related p1 p2
    /\ isConnectedPerson r1 = isConnectedPerson r0
    /\ basis r1 = (basis r0 ++ corporate_bases p1 p2)%list
    /\ specialCases r1 = specialCases r0.
Proof.
  intros W1 W2 HC. rewrite (dispatch_corporate _ _ _ _ _ HC).
  destruct (corporate_wf p1 p2 W1 W2) as (c & Ec & _ & Hm). rewrite Ec. cbn [bind].
  eexists. split; [reflexivity |]. apply Hm.
Qed.

Lemma connected_bases_nil (person : gmap string value) :
  connected person = false -> connected_bases person = [].
Proof.
  unfold connected, connected_bases.
  destruct (bool_field person "isDirector"), (bool_field person "isOfficer"),
    (ownership_connected person); cbn; congruence.
Qed.

Lemma dispatch_mixed_wf (p1 p2 : gmap string value) (t1 t2 : string)
    (r0 : assessment_result) :
  well_formed p1 = true -> well_formed p2 = true -> mixed_pair t1 t2 = true ->
  exists r1, TPRelationshipAssessor.dispatch p1 p2 t1 t2 r0 = Ok r1
    /\ isRelatedParty r1 = isRelatedParty r0 || corporate_related p1 p2
    /\ isConnectedPerson r1 = isConnectedPerson r0 || connected (person_of p1 p2 t1)
    /\ basis r1
       = (basis r0 ++ corporate_bases p1 p2 ++ connected_bases (person_of p1 p2 t1))%list
    /\ specialCases r1 = specialCases r0.
Proof.
  intros W1 W2 HM. rewrite (dispatch_mixed _ _ _ _ _ HM).
  destruct (corporate_wf p1 p2 W1 W2) as (c & Ec & _ & Hm).
  destruct (Hm r0) as (M1 & M2 & M3 & M4).
  assert (Hconn : (if String.eqb t1 "INDIVIDUAL"
                   then ConnectedPersonAnalyzer.assess_connection p1 p2
                   else ConnectedPersonAnalyzer.assess_connection p2 p1)
                  = Ok {| ConnectedPersonAnalyzer.isConnectedPerson :=
                            connected (person_of p1 p2 t1);
                          ConnectedPersonAnalyzer.bases :=
                            connected_bases (person_of p1 p2 t1) |}).
  { unfold person_of. destruct (String.eqb t1 "INDIVIDUAL");
      [apply (assess_connection_wf p1 p2 W1) | apply (assess_connection_wf p2 p1 W2)]. }
  rewrite Hconn. cbn [bind]. rewrite Ec. cbn [bind].
  cbn [ConnectedPersonAnalyzer.isConnectedPerson ConnectedPersonAnalyzer.bases].
  destruct (connected (person_of p1 p2 t1)) eqn:Hc.
  - eexists. split; [reflexivity |].
    match goal with
    | |- context [fold_left _ ?l ?r] =>
        destruct (fold_basis_append l r) as (F1 & F2 & F3 & F4)
    end.
    cbn in F1, F2, F3, F4. rewrite F1, F2, F3, F4, M1, M3, M4.
    rewrite orb_true_r, <- app_assoc. repeat split.
  - eexists. split; [reflexivity |].
    rewrite (connected_bases_nil _ Hc), app_nil_r, orb_false_r. tauto.
Qed.

Lemma dispatch_wf_specialCases (p1 p2 : gmap string value) (t1 t2 : string)
    (r0 r1 : assessment_result) :
  well_formed p1 = true -> well_formed p2 = true ->
  TPRelationshipAssessor.dispatch p1 p2 t1 t2 r0 = Ok r1 ->
  specialCases r1 = specialCases r0.
Proof.
  intros W1 W2 E.
  destruct (both_individual t1 t2) eqn:HI.
  { rewrite (dispatch_individual _ _ _ _ _ HI) in E. apply Ok_inj in E. subst r1.
    destruct (FamilyRelationshipAnalyzer.isRelatedParty
                (FamilyRelationshipAnalyzer.assess_relationship p1 p2)); reflexivity. }
  destruct (both_corporate t1 t2) eqn:HC.
  { destruct (dispatch_corporate_wf p1 p2 t1 t2 r0 W1 W2 HC) as (r & Er & _ & _ & _ & H).
    congruence. }
  destruct (mixed_pair t1 t2) eqn:HM.
  { destruct (dispatch_mixed_wf p1 p2 t1 t2 r0 W1 W2 HM) as (r & Er & _ & _ & _ & H).
    congruence. }
  rewrite (dispatch_fallback _ _ _ _ _ HI HC HM) in E. congruence.
Qed.

Lemma special_fires_iff (p1 p2 : gmap string value) :
  special_fires p1 p2 = true
  <-> SpecialEntityAnalyzer.assess_permanent_establishment p1 p2 = true
      \/ SpecialEntityAnalyzer.assess_partnership p1 p2 = true
      \/ SpecialEntityAnalyzer.assess_trust_foundation p1 p2 = true.
Proof.
  unfold special_fires. rewrite !orb_true_iff. tauto.
Qed.

(** The permanent-establishment predicate compares the raw type strings. *)
Lemma assess_permanent_establishment_iff (p1 p2 : gmap string value) :
  SpecialEntityAnalyzer.assess_permanent_establishment p1 p2 = true
  <-> p1 !! "type" = Some (VStr "CORPORATE")
      /\ p2 !! "type" = Some (VStr "PERMANENT_ESTABLISHMENT").
Proof.
  unfold SpecialEntityAnalyzer.assess_permanent_establishment, dict_get, py_eq_str.
  split.
  - destruct (p1 !! "type") as [[| | |s1|]|]; cbn; try discriminate.
    destruct (String.eqb_spec s1 "CORPORATE"); cbn; try discriminate.
    destruct (p2 !! "type") as [[| | |s2|]|]; cbn; try discriminate.
    destruct (String.eqb_spec s2 "PERMANENT_ESTABLISHMENT"); cbn; try discriminate.
    subst. auto.
  - intros [-> ->]. reflexivity.
Qed.

Lemma special_labels_permanent_establishment (p1 p2 : gmap string value) :
  In "Permanent Establishment relationship" (special_labels p1 p2)
  <-> SpecialEntityAnalyzer.assess_permanent_establishment p1 p2 = true.
Proof.
  unfold special_labels.
  destruct (SpecialEntityAnalyzer.assess_permanent_establishment p1 p2),
    (SpecialEntityAnalyzer.assess_partnership p1 p2),
    (SpecialEntityAnalyzer.assess_trust_foundation p1 p2); cbn;
    (split; [intros H | intros H; try discriminate H; auto]);
    repeat (destruct H as [H | H]; try discriminate H); try reflexivity;
    try contradiction.
Qed.

Lemma plain_company_types (p1 p2 : gmap string value) :
  special_company_type p1 = false -> special_company_type p2 = false ->
  SpecialEntityAnalyzer.assess_partnership p1 p2 = false
  /\ SpecialEntityAnalyzer.assess_trust_foundation p1 p2 = false.
Proof.
  unfold special_company_type, SpecialEntityAnalyzer.assess_partnership,
    SpecialEntityAnalyzer.assess_trust_foundation, py_in_strs.
  cbn [existsb]. intros H1 H2.
  apply orb_false_elim in H1, H2. destruct H1 as [P1 T1], H2 as [P2 T2].
  rewrite P1, T1, T2. split; reflexivity.
Qed.

Lemma permanent_establishment_no_branch (t1 t2 : string) :
  t1 = "PERMANENT_ESTABLISHMENT" \/ t2 = "PERMANENT_ESTABLISHMENT" ->
  both_individual t1 t2 = false /\ both_corporate t1 t2 = false
  /\ mixed_pair t1 t2 = false.
Proof.
  unfold both_individual, both_corporate, mixed_pair.
  intros [-> | ->]; cbn; rewrite ?andb_false_r; auto.
Qed.

Lemma corporate_related_iff (p1 p2 : gmap string value) :
  corporate_related p1 p2 = true <-> reaches_threshold p1 \/ reaches_threshold p2.
Proof.
  unfold corporate_related, ownership_test, control_test, management_test,
    reaches_threshold.
  rewrite !orb_true_iff, !Z.leb_le. tauto.
Qed.

Lemma calculate_degree_recognized (n : Z) (labels : list string) (s : string) :
  In (n, labels) FamilyRelationshipAnalyzer.family_degrees -> In s labels ->
  FamilyRelationshipAnalyzer.calculate_degree (VStr s) = n /\ 1 <= n <= 4.
Proof.
  unfold FamilyRelationshipAnalyzer.family_degrees. cbn [In].
  intros Hrow Hs.
  repeat (destruct Hrow as [Hrow | Hrow];
          [ apply pair_equal_spec in Hrow; destruct Hrow as [<- <-]; cbn [In] in Hs;
            repeat (destruct Hs as [<- | Hs]; [split; [reflexivity | lia] |]);
            contradiction
          | ]).
  contradiction.
Qed.

Lemma calculate_degree_unrecognized (s : string) :
  (forall n labels,
     In (n, labels) FamilyRelationshipAnalyzer.family_degrees -> ~ In s labels) ->
  FamilyRelationshipAnalyzer.calculate_degree (VStr s) = 999.
Proof.
  intros H.
  unfold FamilyRelationshipAnalyzer.calculate_degree,
    FamilyRelationshipAnalyzer.family_degrees.
  cbn [FamilyRelationshipAnalyzer.calculate_degree_in].
  repeat match goal with
         | |- context [py_in_strs (VStr s) ?l] =>
             let E := fresh "E" in
             destruct (py_in_strs (VStr s) l) eqn:E;
             [ apply py_in_strs_In in E; exfalso;
               refine (H _ _ _ E);
               unfold FamilyRelationshipAnalyzer.family_degrees; cbn [In]; tauto
             | ]
         end.
  reflexivity.
Qed.

Lemma lacks_corporate_fields_below (p : gmap string value) :
  lacks_corporate_fields p -> ~ reaches_threshold p.
Proof.
  intros (Ho & Hv & Hp & Hm).
  unfold reaches_threshold, total_ownership, ownership_of, int_field.
  rewrite Ho, Hv, Hp, Hm, !lookup_empty.
  unfold CONFIG.OWNERSHIP_THRESHOLD, CONFIG.CONTROL_THRESHOLD. lia.
Qed.

Lemma corporate_bases_nil (p1 p2 : gmap string value) :
  corporate_related p1 p2 = false -> corporate_bases p1 p2 = [].
Proof.
  unfold corporate_related, corporate_bases.
  destruct (ownership_test p1 p2), (control_test p1 p2), (management_test p1 p2);
    cbn; congruence.
Qed.

(* ===================================================================== *)
(** ** What the assessment reads of the second party *)
(* ===================================================================== *)

Section Party2Reads.

Variables p2 p2' : gmap string value.
Hypothesis agree : forall k, In k party2_reads -> p2 !! k = p2' !! k.

Lemma dict_get_agree (k : string) (d : value) :
  In k party2_reads -> dict_get p2 k d = dict_get p2' k d.
Proof. intros Hin. unfold dict_get. now rewrite (agree k Hin). Qed.

Ltac in_reads := simpl; repeat (first [left; reflexivity | right]).

Ltac to_p2' :=
  repeat match goal with
         | |- context [dict_get p2 ?k ?d] =>
             rewrite (dict_get_agree k d) by in_reads
         end.

Lemma corporate_agree_r (e1 : gmap string value) :
  CorporateRelationshipAnalyzer.assess_relationship e1 p2
  = CorporateRelationshipAnalyzer.assess_relationship e1 p2'.
Proof.
  unfold CorporateRelationshipAnalyzer.assess_relationship,
    CorporateRelationshipAnalyzer.analyze_ownership,
    CorporateRelationshipAnalyzer.analyze_control,
    CorporateRelationshipAnalyzer.analyze_management.
  to_p2'. reflexivity.
Qed.

Lemma connection_agree_person (entity entity' : gmap string value) :
  ConnectedPersonAnalyzer.assess_connection p2 entity
  = ConnectedPersonAnalyzer.assess_connection p2' entity'.
Proof.
  unfold ConnectedPersonAnalyzer.assess_connection,
    ConnectedPersonAnalyzer.check_directorship, ConnectedPersonAnalyzer.check_officer,
    ConnectedPersonAnalyzer.check_ownership.
  to_p2'. reflexivity.
Qed.

Lemma connection_agree_entity (person : gmap string value) :
  ConnectedPersonAnalyzer.assess_connection person p2
  = ConnectedPersonAnalyzer.assess_connection person p2'.
Proof. reflexivity. Qed.

Lemma dispatch_agree (p1 : gmap string value) (t1 t2 : string) (r0 : assessment_result) :
  TPRelationshipAssessor.dispatch p1 p2 t1 t2 r0
  = TPRelationshipAssessor.dispatch p1 p2' t1 t2 r0.
Proof.
  unfold TPRelationshipAssessor.dispatch.
  rewrite (corporate_agree_r p1), (connection_agree_person p1 p1),
    (connection_agree_entity p1).
  reflexivity.
Qed.

Lemma special_agree (p1 : gmap string value) (r0 : assessment_result) :
  TPRelationshipAssessor.special_entity_checks p1 p2 r0
  = TPRelationshipAssessor.special_entity_checks p1 p2' r0.
Proof.
  unfold TPRelationshipAssessor.special_entity_checks,
    SpecialEntityAnalyzer.assess_permanent_establishment,
    SpecialEntityAnalyzer.assess_partnership,
    SpecialEntityAnalyzer.assess_trust_foundation.
  to_p2'. reflexivity.
Qed.

Lemma risk_data_agree (p1 : gmap string value) :
  TPRelationshipAssessor.risk_data p1 p2 = TPRelationshipAssessor.risk_data p1 p2'.
Proof. unfold TPRelationshipAssessor.risk_data. to_p2'. reflexivity. Qed.

(** The whole outcome, result or exception, depends on [party2] only through
    the keys of [party2_reads]. *)
Lemma assess_agree (p1 : gmap string value) : assess p1 p2 = assess p1 p2'.
Proof.
  unfold assess, TPRelationshipAssessor.assess_relationship.
  rewrite (dict_get_agree "type" (VStr "")) by in_reads.
  destruct (py_upper (dict_get p1 "type" (VStr ""))) as [t1|]; [| reflexivity].
  destruct (py_upper (dict_get p2' "type" (VStr ""))) as [t2|]; [| reflexivity].
  cbn [bind]. rewrite dispatch_agree.
  destruct (TPRelationshipAssessor.dispatch p1 p2' t1 t2 _) as [r1|]; [| reflexivity].
  cbn [bind]. rewrite special_agree, risk_data_agree. reflexivity.
Qed.

End Party2Reads.

Lemma differ_only_in_agree (ks : list string) (p p' : gmap string value) :
  differ_only_in ks p p' ->
  (forall k, In k ks -> ~ In k party2_reads) ->
  forall k, In k party2_reads -> p !! k = p' !! k.
Proof. intros Hd Hks k Hin. apply Hd. intros Hk. exact (Hks k Hk Hin). Qed.

(* ===================================================================== *)
(** ** Properties of the assessment *)
(* ===================================================================== *)

(** C1, as the code has it.  For a well-formed pair whose types both
    normalize to CORPORATE, assess returns isRelatedParty = true iff some
    corporate threshold is reached (either entity's direct+indirect ownership
    total, votingRights, profitEntitlement or managementControl is at least
    50) or the partnership rule or the trust/foundation rule fires.  When all
    of these values are 0 and neither rule fires, isRelatedParty is false. *)
Theorem C1_corporate_pair (p1 p2 : gmap string value) :
  well_formed p1 = true -> well_formed p2 = true ->
  party_type p1 = Ok "CORPORATE" -> party_type p2 = Ok "CORPORATE" ->
  exists r,
    assess p1 p2 = Ok r
    /\ (isRelatedParty r = true
        <-> (50 <= total_ownership p1 \/ 50 <= int_field p1 "votingRights" 0
             \/ 50 <= int_field p1 "profitEntitlement" 0
             \/ 50 <= int_field p1 "managementControl" 0)
            \/ (50 <= total_ownership p2 \/ 50 <= int_field p2 "votingRights" 0
                \/ 50 <= int_field p2 "profitEntitlement" 0
                \/ 50 <= int_field p2 "managementControl" 0)
            \/ SpecialEntityAnalyzer.assess_partnership p1 p2 = true
            \/ SpecialEntityAnalyzer.assess_trust_foundation p1 p2 = true)
    /\ (total_ownership p1 = 0 -> int_field p1 "votingRights" 0 = 0 ->
        int_field p1 "profitEntitlement" 0 = 0 ->
        int_field p1 "managementControl" 0 = 0 ->
        total_ownership p2 = 0 -> int_field p2 "votingRights" 0 = 0 ->
        int_field p2 "profitEntitlement" 0 = 0 ->
        int_field p2 "managementControl" 0 = 0 ->
        SpecialEntityAnalyzer.assess_partnership p1 p2 = false ->
        SpecialEntityAnalyzer.assess_trust_foundation p1 p2 = false ->
        isRelatedParty r = false).
Proof.
  intros W1 W2 T1 T2.
  destruct (assess_wf p1 p2 W1 W2) as (r1 & r & Ed & E & Hrel & _).
  rewrite (party_type_wf p1 W1) in T1. rewrite (party_type_wf p2 W2) in T2.
  apply Ok_inj in T1, T2. rewrite T1, T2 in Ed.
  destruct (dispatch_corporate_wf p1 p2 "CORPORATE" "CORPORATE" initial_result W1 W2
              eq_refl) as (r1' & Ed' & Hr1 & _).
  rewrite Ed in Ed'. apply Ok_inj in Ed'. subst r1'.
  cbn [initial_result isRelatedParty orb] in Hr1.
  assert (Hpe : SpecialEntityAnalyzer.assess_permanent_establishment p1 p2 = false).
  { destruct (SpecialEntityAnalyzer.assess_permanent_establishment p1 p2) eqn:Epe;
      [| reflexivity].
    apply assess_permanent_establishment_iff in Epe. destruct Epe as [_ Epe].
    unfold str_field in T2. rewrite Epe in T2. discriminate T2. }
  assert (Hiff : isRelatedParty r = true
                 <-> reaches_threshold p1 \/ reaches_threshold p2
                     \/ SpecialEntityAnalyzer.assess_partnership p1 p2 = true
                     \/ SpecialEntityAnalyzer.assess_trust_foundation p1 p2 = true).
  { rewrite Hrel, Hr1, orb_true_iff, special_fires_iff, corporate_related_iff, Hpe.
    intuition discriminate. }
  exists r. split; [exact E |]. split; [exact Hiff |].
  intros O1 V1 P1 M1 O2 V2 P2 M2 Hpa Htr.
  destruct (isRelatedParty r); [| reflexivity].
  destruct (proj1 Hiff eq_refl) as [H | [H | [H | H]]];
    try (unfold reaches_threshold, CONFIG.OWNERSHIP_THRESHOLD,
           CONFIG.CONTROL_THRESHOLD in H; lia);
    congruence.
Qed.

Lemma C1_witness :
  exists r, assess corporate_owner corporate_empty = Ok r /\ isRelatedParty r = true.
Proof.
  destruct (C1_corporate_pair corporate_owner corporate_empty
              eq_refl eq_refl eq_refl eq_refl) as (r & E & Hiff & _).
  exists r. split; [exact E |]. apply Hiff. left. left. vm_compute. discriminate.
Defined.

(** C1 as stated fails: a Corporate party whose companyType is "Trust",
    facing an empty Corporate party, has every ownership, voting, profit and
    management value at 0, and yet the pair is assessed as related. *)
Lemma C1_counterexample :
  well_formed corporate_trust = true /\ well_formed corporate_empty = true
  /\ party_type corporate_trust = Ok "CORPORATE"
  /\ party_type corporate_empty = Ok "CORPORATE"
  /\ total_ownership corporate_trust = 0
  /\ int_field corporate_trust "votingRights" 0 = 0
  /\ int_field corporate_trust "profitEntitlement" 0 = 0
  /\ int_field corporate_trust "managementControl" 0 = 0
  /\ total_ownership corporate_empty = 0
  /\ int_field corporate_empty "votingRights" 0 = 0
  /\ int_field corporate_empty "profitEntitlement" 0 = 0
  /\ int_field corporate_empty "managementControl" 0 = 0
  /\ exists r,
       assess corporate_trust corporate_empty = Ok r
       /\ isRelatedParty r = true
       /\ basis r = []
       /\ specialCases r = ["Trust/Foundation relationship"].
Proof.
  repeat (split; [vm_compute; reflexivity |]).
  eexists. split; [vm_compute; reflexivity |]. repeat split.
Qed.

(** C2. Every assessment of a well-formed pair returns a risk record whose
    factors are the merged cross-border flag, the merged high-value flag and
    the complexity score of the larger layer count (3 above three layers, 2 at
    exactly three, 1 below).  Its level is HIGH whenever one of the merged
    flags is set or the score is at least 3, MEDIUM exactly when the larger
    layer count is 3 and both flags are clear, and LOW when it is at most 2
    and both flags are clear. *)
Theorem C2_risk_level (p1 p2 : gmap string value) :
  well_formed p1 = true -> well_formed p2 = true ->
  exists r ra,
    assess p1 p2 = Ok r /\ riskAssessment r = Some ra
    /\ RiskAnalyzer.crossBorder (RiskAnalyzer.factors ra)
       = VBool (merged_cross_border p1 p2)
    /\ RiskAnalyzer.highValueTransactions (RiskAnalyzer.factors ra)
       = VBool (merged_high_value p1 p2)
    /\ let score := RiskAnalyzer.complexityScore (RiskAnalyzer.factors ra) in
       let layers := max_layers p1 p2 in
       (3 < layers -> score = 3) /\ (layers = 3 -> score = 2) /\ (layers < 3 -> score = 1)
       /\ (merged_cross_border p1 p2 = true \/ merged_high_value p1 p2 = true
           \/ 3 <= score -> RiskAnalyzer.riskLevel ra = "HIGH")
       /\ (RiskAnalyzer.riskLevel ra = "MEDIUM"
           <-> layers = 3 /\ merged_cross_border p1 p2 = false
               /\ merged_high_value p1 p2 = false)
       /\ (layers <= 2 -> merged_cross_border p1 p2 = false ->
           merged_high_value p1 p2 = false -> RiskAnalyzer.riskLevel ra = "LOW").
Proof.
  intros W1 W2.
  destruct (assess_wf p1 p2 W1 W2) as (r1 & r & _ & E & _ & _ & _ & _ & Hra & _).
  exists r, (risk_of p1 p2). split; [exact E |]. split; [exact Hra |].
  cbn [risk_of RiskAnalyzer.factors RiskAnalyzer.crossBorder
       RiskAnalyzer.highValueTransactions RiskAnalyzer.complexityScore
       RiskAnalyzer.riskLevel].
  split; [reflexivity |]. split; [reflexivity |].
  unfold risk_level_of, complexity_of.
  destruct (merged_cross_border p1 p2), (merged_high_value p1 p2);
    destruct (Z.ltb_spec 3 (max_layers p1 p2)) as [Hl | Hl];
    try destruct (Z.eqb_spec (max_layers p1 p2) 3) as [He | He];
    cbn; repeat split; intros; try reflexivity; try lia; try discriminate;
    repeat match goal with
           | H : _ /\ _ |- _ => destruct H
           | H : _ \/ _ |- _ => destruct H
           end; try lia; try discriminate.
Qed.

(** The spec's second end-to-end example: a corporate owner with
    cross-border transactions is assessed at HIGH risk. *)
Lemma C2_witness :
  exists r ra,
    assess corporate_owner corporate_empty = Ok r
    /\ riskAssessment r = Some ra
    /\ RiskAnalyzer.riskLevel ra = "HIGH".
Proof.
  destruct (C2_risk_level corporate_owner corporate_empty eq_refl eq_refl)
    as (r & ra & E & Era & _ & _ & _ & _ & _ & Hhigh & _).
  exists r, ra. split; [exact E |]. split; [exact Era |].
  apply Hhigh. left. reflexivity.
Defined.

(** C3, as the code has it.  For a well-formed pair of Individual parties:
    when party1's relationship label is one of the recognized kinship labels
    of a degree n in 1..4, assess yields isRelatedParty = true and the basis
    list is the single string naming that degree; when the label is not
    recognized, it maps to the sentinel degree 999, nothing is added to the
    basis list, and isRelatedParty is true only if the partnership rule or
    the trust/foundation rule fires (so it is false when neither does). *)
Theorem C3_individual_pair (p1 p2 : gmap string value) :
  well_formed p1 = true -> well_formed p2 = true ->
  party_type p1 = Ok "INDIVIDUAL" -> party_type p2 = Ok "INDIVIDUAL" ->
  exists r,
    assess p1 p2 = Ok r
    /\ (forall n labels,
          In (n, labels) FamilyRelationshipAnalyzer.family_degrees ->
          In (str_field p1 "relationship_type") labels ->
          1 <= n <= 4
          /\ FamilyRelationshipAnalyzer.calculate_degree
               (VStr (str_field p1 "relationship_type")) = n
          /\ isRelatedParty r = true
          /\ basis r = ["Family relationship - " +:+ pretty n +:+ " degree"])
    /\ ((forall n labels,
           In (n, labels) FamilyRelationshipAnalyzer.family_degrees ->
           ~ In (str_field p1 "relationship_type") labels) ->
        FamilyRelationshipAnalyzer.calculate_degree
          (VStr (str_field p1 "relationship_type")) = 999
        /\ 999 > CONFIG.MAX_FAMILY_DEGREE
        /\ basis r = []
        /\ (isRelatedParty r = true
            <-> SpecialEntityAnalyzer.assess_partnership p1 p2 = true
                \/ SpecialEntityAnalyzer.assess_trust_foundation p1 p2 = true)
        /\ (SpecialEntityAnalyzer.assess_partnership p1 p2 = false ->
            SpecialEntityAnalyzer.assess_trust_foundation p1 p2 = false ->
            isRelatedParty r = false)).
Proof.
  intros W1 W2 T1 T2.
  destruct (assess_wf p1 p2 W1 W2) as (r1 & r & Ed & E & Hrel & _ & Hbas & _).
  rewrite (party_type_wf p1 W1) in T1. rewrite (party_type_wf p2 W2) in T2.
  apply Ok_inj in T1, T2. rewrite T1, T2 in Ed.
  rewrite (dispatch_individual p1 p2 "INDIVIDUAL" "INDIVIDUAL" _ eq_refl) in Ed.
  apply Ok_inj in Ed.
  unfold FamilyRelationshipAnalyzer.assess_relationship in Ed.
  replace (dict_get p1 "relationship_type" (VStr ""))
    with (VStr (str_field p1 "relationship_type")) in Ed
    by (symmetry; wf_str W1 "relationship_type").
  cbn [FamilyRelationshipAnalyzer.isRelatedParty FamilyRelationshipAnalyzer.basis] in Ed.
  exists r. split; [exact E |]. split.
  - intros n labels Hrow Hs.
    destruct (calculate_degree_recognized n labels _ Hrow Hs) as [Hdeg Hn].
    rewrite Hdeg in Ed. split; [exact Hn |]. split; [exact Hdeg |].
    rewrite Hrel, Hbas.
    assert (Hcases : n = 1 \/ n = 2 \/ n = 3 \/ n = 4) by lia.
    destruct Hcases as [-> | [-> | [-> | ->]]]; subst r1; split; reflexivity.
  - intros Hnone. rewrite (calculate_degree_unrecognized _ Hnone) in Ed.
    cbn in Ed. subst r1.
    assert (Hpe : SpecialEntityAnalyzer.assess_permanent_establishment p1 p2 = false).
    { destruct (SpecialEntityAnalyzer.assess_permanent_establishment p1 p2) eqn:Epe;
        [| reflexivity].
      apply assess_permanent_establishment_iff in Epe. destruct Epe as [Epe _].
      unfold str_field in T1. rewrite Epe in T1. discriminate T1. }
    assert (Hiff : isRelatedParty r = true
                   <-> SpecialEntityAnalyzer.assess_partnership p1 p2 = true
                       \/ SpecialEntityAnalyzer.assess_trust_foundation p1 p2 = true).
    { rewrite Hrel. cbn [initial_result isRelatedParty orb].
      rewrite special_fires_iff, Hpe. intuition discriminate. }
    split; [apply (calculate_degree_unrecognized _ Hnone) |].
    split; [reflexivity |]. split; [exact Hbas |]. split; [exact Hiff |].
    intros Hpa Htr. destruct (isRelatedParty r); [| reflexivity].
    destruct (proj1 Hiff eq_refl); congruence.
Qed.

Lemma C3_witness :
  exists r,
    assess sibling_1 individual_empty = Ok r
    /\ isRelatedParty r = true
    /\ basis r = ["Family relationship - 2 degree"].
Proof.
  destruct (C3_individual_pair sibling_1 individual_empty eq_refl eq_refl eq_refl eq_refl)
    as (r & E & Hrec & _).
  destruct (Hrec 2 ["grandparent"; "grandchild"; "sibling"; "spouse_sibling"])
    as (_ & _ & Hrel & Hbas).
  - cbn. auto.
  - cbn. auto.
  - exists r. repeat split; assumption.
Defined.

(** C3 as stated fails on its second half: an Individual whose label
    "friend" is not a kinship label, and whose companyType is "Trust", is
    assessed as related to another Individual. *)
Lemma C3_counterexample :
  well_formed individual_friend_trust = true /\ well_formed individual_empty = true
  /\ party_type individual_friend_trust = Ok "INDIVIDUAL"
  /\ party_type individual_empty = Ok "INDIVIDUAL"
  /\ individual_friend_trust !! "relationship_type" = Some (VStr "friend")
  /\ FamilyRelationshipAnalyzer.calculate_degree (VStr "friend") = 999
  /\ exists r,
       assess individual_friend_trust individual_empty = Ok r
       /\ isRelatedParty r = true
       /\ basis r = []
       /\ specialCases r = ["Trust/Foundation relationship"].
Proof.
  repeat (split; [vm_compute; reflexivity |]).
  eexists. split; [vm_compute; reflexivity |]. repeat split.
Qed.

(** C4. Every assessment of a well-formed pair returns a documentation
    record in which masterFile holds iff party1's groupConsolidatedRevenue
    is at least 3,150,000,000, localFile holds iff party1's revenue is at
    least 200,000,000 (so 200,000,000 gives true and 199,999,999 gives
    false), disclosureForm is the result's isRelatedParty flag, and
    additionalDocs is the single label "Detailed Intercompany Agreement
    Documentation" when the risk level is HIGH and empty otherwise. *)
Theorem C4_documentation (p1 p2 : gmap string value) :
  well_formed p1 = true -> well_formed p2 = true ->
  exists r ra d,
    assess p1 p2 = Ok r /\ riskAssessment r = Some ra
    /\ documentationRequired r = Some d
    /\ (masterFile d = true <-> 3150000000 <= int_field p1 "groupConsolidatedRevenue" 0)
    /\ (localFile d = true <-> 200000000 <= int_field p1 "revenue" 0)
    /\ (int_field p1 "revenue" 0 = 200000000 -> localFile d = true)
    /\ (int_field p1 "revenue" 0 = 199999999 -> localFile d = false)
    /\ disclosureForm d = isRelatedParty r
    /\ (RiskAnalyzer.riskLevel ra = "HIGH" ->
        additionalDocs d = ["Detailed Intercompany Agreement Documentation"])
    /\ (RiskAnalyzer.riskLevel ra <> "HIGH" -> additionalDocs d = []).
Proof.
  intros W1 W2.
  destruct (assess_wf p1 p2 W1 W2) as (r1 & r & _ & E & _ & _ & _ & _ & Hra & Hd).
  exists r, (risk_of p1 p2), (requirements_of p1 (isRelatedParty r) (risk_of p1 p2)).
  split; [exact E |]. split; [exact Hra |]. split; [exact Hd |].
  cbn [requirements_of masterFile localFile disclosureForm additionalDocs].
  unfold CONFIG.DOCUMENTATION_THRESHOLDS.MNE_GROUP_CONSOLIDATED,
    CONFIG.DOCUMENTATION_THRESHOLDS.REVENUE.
  split; [apply Z.leb_le |]. split; [apply Z.leb_le |].
  split; [intros ->; reflexivity |]. split; [intros ->; reflexivity |].
  split; [reflexivity |].
  split.
  - intros ->. reflexivity.
  - intros Hne. destruct (String.eqb_spec (RiskAnalyzer.riskLevel (risk_of p1 p2)) "HIGH");
      [contradiction | reflexivity].
Qed.

Lemma C4_witness :
  exists r d,
    assess corporate_owner corporate_empty = Ok r
    /\ documentationRequired r = Some d
    /\ localFile d = true
    /\ additionalDocs d = ["Detailed Intercompany Agreement Documentation"].
Proof.
  destruct (C4_documentation corporate_owner corporate_empty eq_refl eq_refl)
    as (r & ra & d & E & Era & Ed & _ & Hlocal & _ & _ & _ & Hhigh & _).
  exists r, d. split; [exact E |]. split; [exact Ed |]. split.
  - apply Hlocal. vm_compute. discriminate.
  - apply Hhigh. vm_compute in E. apply Ok_inj in E. subst r.
    apply (f_equal (fun o => match o with Some x => RiskAnalyzer.riskLevel x | None => "" end)) in Era.
    symmetry. exact Era.
Defined.

(** C5, as the code has it.  For a well-formed Individual/Corporate pair in
    either order, the corporate analyzer run on the raw (party1, party2) pair
    returns a related sub-result exactly when one of the two parties reaches
    a corporate threshold (ownership total, votingRights, profitEntitlement
    or managementControl at least 50).  A side that lacks these fields
    contributes only defaults, so the sub-result is then decided by the other
    side alone.  The basis list of the assessment is the corporate block's
    strings followed by the connected-person strings; when the sub-result is
    not related the block is a no-op: it appends nothing, and isRelatedParty
    is set only by a special-entity rule. *)
Theorem C5_mixed_pair_corporate_run (p1 p2 : gmap string value) (t1 t2 : string) :
  well_formed p1 = true -> well_formed p2 = true ->
  party_type p1 = Ok t1 -> party_type p2 = Ok t2 -> mixed_pair t1 t2 = true ->
  exists c r,
    CorporateRelationshipAnalyzer.assess_relationship p1 p2 = Ok c
    /\ assess p1 p2 = Ok r
    /\ (CorporateRelationshipAnalyzer.isRelatedParty c = true
        <-> reaches_threshold p1 \/ reaches_threshold p2)
    /\ (lacks_corporate_fields p1 ->
        (CorporateRelationshipAnalyzer.isRelatedParty c = true <-> reaches_threshold p2))
    /\ (lacks_corporate_fields p2 ->
        (CorporateRelationshipAnalyzer.isRelatedParty c = true <-> reaches_threshold p1))
    /\ basis r
       = (corporate_bases p1 p2 ++ connected_bases (person_of p1 p2 t1))%list
    /\ (CorporateRelationshipAnalyzer.isRelatedParty c = false ->
        corporate_bases p1 p2 = []
        /\ basis r = connected_bases (person_of p1 p2 t1)
        /\ (isRelatedParty r = true
            <-> SpecialEntityAnalyzer.assess_partnership p1 p2 = true
                \/ SpecialEntityAnalyzer.assess_trust_foundation p1 p2 = true)).
Proof.
  intros W1 W2 T1 T2 HM.
  destruct (corporate_wf p1 p2 W1 W2) as (c & Ec & Hc & _).
  destruct (assess_wf p1 p2 W1 W2) as (r1 & r & Ed & E & Hrel & _ & Hbas & _).
  rewrite (party_type_wf p1 W1) in T1. rewrite (party_type_wf p2 W2) in T2.
  apply Ok_inj in T1, T2. rewrite T1, T2 in Ed.
  destruct (dispatch_mixed_wf p1 p2 t1 t2 initial_result W1 W2 HM)
    as (r1' & Ed' & Hr1 & _ & Hb1 & _).
  rewrite Ed in Ed'. apply Ok_inj in Ed'. subst r1'.
  cbn [initial_result isRelatedParty basis orb app] in Hr1, Hb1.
  assert (Hiff : CorporateRelationshipAnalyzer.isRelatedParty c = true
                 <-> reaches_threshold p1 \/ reaches_threshold p2).
  { rewrite Hc. apply corporate_related_iff. }
  assert (Hpe : SpecialEntityAnalyzer.assess_permanent_establishment p1 p2 = false).
  { destruct (SpecialEntityAnalyzer.assess_permanent_establishment p1 p2) eqn:Epe;
      [| reflexivity].
    apply assess_permanent_establishment_iff in Epe. destruct Epe as [_ Epe].
    unfold str_field in T2. rewrite Epe in T2. subst t2.
    unfold mixed_pair in HM. cbn in HM. rewrite !andb_false_r in HM. discriminate HM. }
  exists c, r. split; [exact Ec |]. split; [exact E |]. split; [exact Hiff |].
  split; [| split; [| split]].
  - intros Hl. pose proof (lacks_corporate_fields_below _ Hl). tauto.
  - intros Hl. pose proof (lacks_corporate_fields_below _ Hl). tauto.
  - rewrite Hbas. exact Hb1.
  - intros Hno. rewrite Hc in Hno.
    split; [apply corporate_bases_nil, Hno |].
    split; [rewrite Hbas, Hb1, (corporate_bases_nil _ _ Hno); reflexivity |].
    rewrite Hrel, Hr1, Hno. cbn [orb]. rewrite special_fires_iff, Hpe.
    intuition discriminate.
Qed.

(** A director facing a corporate party without figures: the corporate run
    adds nothing and the basis list is the connected-person one. *)
Lemma C5_witness :
  exists r,
    assess individual_director corporate_empty = Ok r
    /\ isRelatedParty r = false
    /\ basis r = ["Director relationship"].
Proof.
  destruct (C5_mixed_pair_corporate_run individual_director corporate_empty
              "INDIVIDUAL" "CORPORATE" eq_refl eq_refl eq_refl eq_refl eq_refl)
    as (c & r & Ec & E & Hiff & _ & _ & _ & Hno).
  assert (Hc : CorporateRelationshipAnalyzer.isRelatedParty c = false).
  { vm_compute in Ec. apply Ok_inj in Ec. subst c. reflexivity. }
  destruct (Hno Hc) as (_ & Hbas & Hrel).
  exists r. split; [exact E |]. split; [| exact Hbas].
  destruct (isRelatedParty r); [| reflexivity].
  destruct (proj1 Hrel eq_refl) as [H | H]; discriminate H.
Defined.

(** C5 as stated fails: an Individual without any ownership, voting, profit
    or management field, facing a Corporate party that reports 60% direct
    ownership, gets a related sub-result from the corporate analyzer, and the
    branch sets isRelatedParty and appends the ownership basis string. *)
Lemma C5_counterexample :
  well_formed individual_empty = true /\ well_formed corporate_owned = true
  /\ party_type individual_empty = Ok "INDIVIDUAL"
  /\ party_type corporate_owned = Ok "CORPORATE"
  /\ lacks_corporate_fields individual_empty
  /\ (exists c,
        CorporateRelationshipAnalyzer.assess_relationship individual_empty corporate_owned
        = Ok c
        /\ CorporateRelationshipAnalyzer.isRelatedParty c = true)
  /\ exists r,
       assess individual_empty corporate_owned = Ok r
       /\ isRelatedParty r = true
       /\ isConnectedPerson r = false
       /\ basis r = ["Ownership >= 50%"]
       /\ specialCases r = [].
Proof.
  repeat (split; [vm_compute; reflexivity |]).
  split; [repeat split |].
  split.
  - eexists. split; [vm_compute; reflexivity |]. reflexivity.
  - eexists. split; [vm_compute; reflexivity |]. repeat split.
Qed.

(** C6. For a pair of Individual parties the family test looks only at
    party1's relationship label: the family analyzer returns the same record
    for any two calls whose first arguments carry the same label, whatever
    the second arguments; two runs that differ only in party2's relationship label
    have the same outcome, and on well-formed parties both return, with the
    same isRelatedParty flag and the same basis list; and there is a pair of
    Individual parties for which swapping the two changes isRelatedParty. *)
Theorem C6_family_test_reads_party1_only :
  (forall p1 p1' p2 p2' : gmap string value,
     p1 !! "relationship_type" = p1' !! "relationship_type" ->
     FamilyRelationshipAnalyzer.assess_relationship p1 p2
     = FamilyRelationshipAnalyzer.assess_relationship p1' p2')
  /\ (forall p1 p2 p2' : gmap string value,
        party_type p1 = Ok "INDIVIDUAL" -> party_type p2 = Ok "INDIVIDUAL" ->
        differ_only_in ["relationship_type"] p2 p2' ->
        assess p1 p2 = assess p1 p2'
        /\ (well_formed p1 = true -> well_formed p2 = true ->
            exists r r',
              assess p1 p2 = Ok r /\ assess p1 p2' = Ok r'
              /\ isRelatedParty r = isRelatedParty r' /\ basis r = basis r'))
  /\ (exists (p1 p2 : gmap string value) (r r' : assessment_result),
        party_type p1 = Ok "INDIVIDUAL" /\ party_type p2 = Ok "INDIVIDUAL"
        /\ assess p1 p2 = Ok r /\ assess p2 p1 = Ok r'
        /\ isRelatedParty r = true /\ isRelatedParty r' = false).
Proof.
  split; [| split].
  - intros p1 p1' p2 p2' Hlabel.
    unfold FamilyRelationshipAnalyzer.assess_relationship, dict_get.
    rewrite Hlabel. reflexivity.
  - intros p1 p2 p2' _ _ Hd.
    assert (Hsame : assess p1 p2 = assess p1 p2').
    { apply assess_agree, (differ_only_in_agree _ _ _ Hd).
      intros k [<- | []]; cbn; intros H;
        repeat (destruct H as [H | H]; [discriminate H |]); exact H. }
    split; [exact Hsame |]. intros W1 W2.
    destruct (assess_wf p1 p2 W1 W2) as (r1 & r & _ & E & _).
    exists r, r. rewrite <- Hsame. repeat split; assumption.
  - exists sibling_1, individual_empty. do 2 eexists.
    split; [reflexivity |]. split; [reflexivity |].
    split; [vm_compute; reflexivity |]. split; [vm_compute; reflexivity |].
    split; reflexivity.
Qed.

(** The hypotheses of C6 hold of a sibling and an Individual whose label
    changes from absent to "first_cousin". *)
Lemma C6_witness :
  exists r r',
    assess sibling_1 individual_empty = Ok r
    /\ assess sibling_1 individual_cousin = Ok r'
    /\ isRelatedParty r = isRelatedParty r' /\ basis r = basis r'.
Proof.
  assert (Hd : differ_only_in ["relationship_type"] individual_empty individual_cousin).
  { intros k Hk. unfold individual_empty, individual_cousin, dict.
    rewrite !list_to_map_cons, list_to_map_nil.
    assert (k <> "relationship_type") by (intros ->; apply Hk; cbn; auto).
    destruct (decide (k = "type")) as [-> | Hty]; [reflexivity |].
    rewrite !lookup_insert_ne by congruence. reflexivity. }
  exact (proj2 (proj1 (proj2 C6_family_test_reads_party1_only) sibling_1
                  individual_empty individual_cousin eq_refl eq_refl Hd)
           eq_refl eq_refl).
Defined.

(** C7. The documentation record is computed from party1's revenue and
    groupConsolidatedRevenue, the result's isRelatedParty flag and the risk
    record.  Two runs that differ only in party2's revenue and
    groupConsolidatedRevenue have the same outcome altogether; on well-formed
    parties both return, with the same documentationRequired record. *)
Theorem C7_documentation_ignores_party2_revenue (p1 p2 p2' : gmap string value) :
  differ_only_in ["revenue"; "groupConsolidatedRevenue"] p2 p2' ->
  assess p1 p2 = assess p1 p2'
  /\ (well_formed p1 = true -> well_formed p2 = true ->
      exists r r' ra d,
        assess p1 p2 = Ok r /\ assess p1 p2' = Ok r'
        /\ riskAssessment r = Some ra
        /\ d = requirements_of p1 (isRelatedParty r) ra
        /\ documentationRequired r = Some d
        /\ documentationRequired r' = Some d).
Proof.
  intros Hd.
  assert (Hsame : assess p1 p2 = assess p1 p2').
  { apply assess_agree, (differ_only_in_agree _ _ _ Hd).
    intros k [<- | [<- | []]]; cbn; intros H;
      repeat (destruct H as [H | H]; [discriminate H |]); exact H. }
  split; [exact Hsame |]. intros W1 W2.
  destruct (assess_wf p1 p2 W1 W2) as (r1 & r & _ & E & _ & _ & _ & _ & Hra & Hdoc).
  exists r, r, (risk_of p1 p2), (requirements_of p1 (isRelatedParty r) (risk_of p1 p2)).
  rewrite <- Hsame. repeat split; assumption.
Qed.

(** The hypotheses of C7 hold of a corporate pair whose second party
    changes both of its revenue figures. *)
Lemma C7_witness :
  exists r r',
    assess corporate_owner corporate_empty = Ok r
    /\ assess corporate_owner corporate_rich = Ok r'
    /\ documentationRequired r = documentationRequired r'.
Proof.
  assert (Hd : differ_only_in ["revenue"; "groupConsolidatedRevenue"]
                 corporate_empty corporate_rich).
  { intros k Hk. unfold corporate_empty, corporate_rich, dict.
    rewrite !list_to_map_cons, list_to_map_nil.
    assert (k <> "revenue") by (intros ->; apply Hk; cbn; auto).
    assert (k <> "groupConsolidatedRevenue") by (intros ->; apply Hk; cbn; auto).
    destruct (decide (k = "type")) as [-> | Hty]; [reflexivity |].
    rewrite !lookup_insert_ne by congruence. reflexivity. }
  destruct (proj2 (C7_documentation_ignores_party2_revenue corporate_owner
                     corporate_empty corporate_rich Hd) eq_refl eq_refl)
    as (r & r' & ra & d & E & E' & _ & _ & D & D').
  exists r, r'. split; [exact E |]. split; [exact E' |]. congruence.
Defined.

(** C8. When the upper-cased type strings of a well-formed pair match none
    of the three dispatch conditions (in particular whenever one of them is
    PERMANENT_ESTABLISHMENT), the dispatch leaves the result untouched: no
    family, corporate or connected-person test contributes.  The call still
    returns a complete result, in which isConnectedPerson is false, the
    basis list is empty, the special cases are the labels of the
    special-entity predicates that fire and isRelatedParty is true iff one of
    the three fires.  Risk and documentation are computed as for any other
    pair: the risk dictionary is built, the risk analyzer returns the record
    [risk_of] (level and factors from the merged risk entries), which is the
    result's riskAssessment, and the documentation analyzer returns the
    record [requirements_of] (master and local file from party1's revenues,
    disclosure form from isRelatedParty, additional documents from the risk
    level), which is the result's documentationRequired. *)
Theorem C8_unmatched_type_pair (p1 p2 : gmap string value) (t1 t2 : string) :
  well_formed p1 = true -> well_formed p2 = true ->
  party_type p1 = Ok t1 -> party_type p2 = Ok t2 ->
  (t1 = "PERMANENT_ESTABLISHMENT" \/ t2 = "PERMANENT_ESTABLISHMENT"
   \/ (both_individual t1 t2 = false /\ both_corporate t1 t2 = false
       /\ mixed_pair t1 t2 = false)) ->
  (forall r0, TPRelationshipAssessor.dispatch p1 p2 t1 t2 r0 = Ok r0)
  /\ exists r data,
       assess p1 p2 = Ok r
       /\ isConnectedPerson r = false
       /\ basis r = []
       /\ specialCases r = special_labels p1 p2
       /\ (isRelatedParty r = true
           <-> SpecialEntityAnalyzer.assess_permanent_establishment p1 p2 = true
               \/ SpecialEntityAnalyzer.assess_partnership p1 p2 = true
               \/ SpecialEntityAnalyzer.assess_trust_foundation p1 p2 = true)
       /\ TPRelationshipAssessor.risk_data p1 p2 = Ok data
       /\ RiskAnalyzer.analyze_risk data = Ok (risk_of p1 p2)
       /\ riskAssessment r = Some (risk_of p1 p2)
       /\ DocumentationAnalyzer.determine_requirements p1 r (risk_of p1 p2)
          = Ok (requirements_of p1 (isRelatedParty r) (risk_of p1 p2))
       /\ documentationRequired r
          = Some (requirements_of p1 (isRelatedParty r) (risk_of p1 p2)).
Proof.
  intros W1 W2 T1 T2 Hno.
  assert (Hf : both_individual t1 t2 = false /\ both_corporate t1 t2 = false
               /\ mixed_pair t1 t2 = false).
  { destruct Hno as [H | [H | H]];
      [apply permanent_establishment_no_branch; auto
      | apply permanent_establishment_no_branch; auto | exact H]. }
  destruct Hf as (HI & HC & HM).
  split; [intros r0; apply (dispatch_fallback _ _ _ _ _ HI HC HM) |].
  rewrite (party_type_wf p1 W1) in T1. rewrite (party_type_wf p2 W2) in T2.
  apply Ok_inj in T1, T2.
  destruct (assess_wf p1 p2 W1 W2)
    as (r1 & r & Ed & E & Hrel & Hcon & Hbas & Hspec & Hra & Hdoc).
  rewrite T1, T2, (dispatch_fallback _ _ _ _ _ HI HC HM) in Ed.
  apply Ok_inj in Ed. subst r1.
  destruct (risk_wf p1 p2 W1 W2) as (data & Edata & Erisk).
  exists r, data. split; [exact E |].
  split; [exact Hcon |]. split; [exact Hbas |]. split; [exact Hspec |].
  split; [rewrite Hrel; cbn [initial_result isRelatedParty orb];
          apply special_fires_iff |].
  split; [exact Edata |]. split; [exact Erisk |]. split; [exact Hra |].
  split; [apply (determine_requirements_wf p1 r (risk_of p1 p2) W1) | exact Hdoc].
Qed.

(** The hypotheses of C8 hold of a permanent establishment facing a
    corporate party, and of a party typed "Company" facing a director: the
    80% holding, the voting rights and the directorship are read by no test,
    while the cross-border flag still makes the risk HIGH. *)
Lemma C8_witness :
  (exists r,
     assess establishment corporate_empty = Ok r
     /\ isRelatedParty r = false /\ isConnectedPerson r = false /\ basis r = [])
  /\ (exists r,
        assess company_misspelt individual_director = Ok r
        /\ isRelatedParty r = false /\ isConnectedPerson r = false /\ basis r = []
        /\ option_map RiskAnalyzer.riskLevel (riskAssessment r) = Some "HIGH"
        /\ option_map additionalDocs (documentationRequired r)
           = Some ["Detailed Intercompany Agreement Documentation"]).
Proof.
  split.
  - destruct (C8_unmatched_type_pair establishment corporate_empty
                "PERMANENT_ESTABLISHMENT" "CORPORATE" eq_refl eq_refl eq_refl eq_refl
                (or_introl eq_refl))
      as (_ & r & data & E & Hcon & Hbas & _ & Hrel & _).
    exists r. split; [exact E |]. split; [| split; [exact Hcon | exact Hbas]].
    destruct (isRelatedParty r); [| reflexivity].
    destruct (proj1 Hrel eq_refl) as [H | [H | H]]; discriminate H.
  - destruct (C8_unmatched_type_pair company_misspelt individual_director
                "COMPANY" "INDIVIDUAL" eq_refl eq_refl eq_refl eq_refl
                (or_intror (or_intror (conj eq_refl (conj eq_refl eq_refl)))))
      as (_ & r & data & E & Hcon & Hbas & _ & Hrel & _ & _ & Hra & _ & Hdoc).
    exists r. split; [exact E |].
    split; [| split; [exact Hcon | split; [exact Hbas |]]].
    + destruct (isRelatedParty r); [| reflexivity].
      destruct (proj1 Hrel eq_refl) as [H | [H | H]]; discriminate H.
    + rewrite Hra, Hdoc. split; reflexivity.
Defined.

(** C9. The permanent-establishment rule fires exactly when party1's raw
    type is "CORPORATE" and party2's raw type is "PERMANENT_ESTABLISHMENT";
    it does not fire for the reverse ordering.  In the result of an
    assessment of well-formed parties the label "Permanent Establishment
    relationship" is among the special cases exactly when the rule fires, and
    then isRelatedParty is true. *)
Theorem C9_permanent_establishment_rule (p1 p2 : gmap string value) :
  (SpecialEntityAnalyzer.assess_permanent_establishment p1 p2 = true
   <-> p1 !! "type" = Some (VStr "CORPORATE")
       /\ p2 !! "type" = Some (VStr "PERMANENT_ESTABLISHMENT"))
  /\ (p1 !! "type" = Some (VStr "PERMANENT_ESTABLISHMENT") ->
      p2 !! "type" = Some (VStr "CORPORATE") ->
      SpecialEntityAnalyzer.assess_permanent_establishment p1 p2 = false)
  /\ (well_formed p1 = true -> well_formed p2 = true ->
      exists r,
        assess p1 p2 = Ok r
        /\ (In "Permanent Establishment relationship" (specialCases r)
            <-> SpecialEntityAnalyzer.assess_permanent_establishment p1 p2 = true)
        /\ (SpecialEntityAnalyzer.assess_permanent_establishment p1 p2 = true ->
            isRelatedParty r = true)).
Proof.
  split; [apply assess_permanent_establishment_iff |]. split.
  - intros H1 H2.
    destruct (SpecialEntityAnalyzer.assess_permanent_establishment p1 p2) eqn:E;
      [| reflexivity].
    apply assess_permanent_establishment_iff in E. destruct E as [E _].
    rewrite H1 in E. discriminate E.
  - intros W1 W2.
    destruct (assess_wf p1 p2 W1 W2) as (r1 & r & Ed & E & Hrel & _ & _ & Hsc & _).
    exists r. split; [exact E |].
    rewrite Hsc, (dispatch_wf_specialCases _ _ _ _ _ _ W1 W2 Ed). cbn [initial_result specialCases app].
    split; [apply special_labels_permanent_establishment |].
    intros Hpe. rewrite Hrel. unfold special_fires. rewrite Hpe.
    apply orb_true_r.
Qed.

(** The rule fires for a corporate party facing its permanent establishment. *)
Lemma C9_witness :
  exists r,
    assess corporate_empty establishment = Ok r
    /\ In "Permanent Establishment relationship" (specialCases r)
    /\ isRelatedParty r = true.
Proof.
  destruct (proj2 (proj2 (C9_permanent_establishment_rule corporate_empty establishment))
              eq_refl eq_refl) as (r & E & Hin & Hrel).
  exists r. split; [exact E |]. split; [apply Hin | apply Hrel]; reflexivity.
Defined.

(** C10. The special-entity predicates compare the raw strings while the
    dispatch upper-cases the types.  For a well-formed pair with party1.type
    = "corporate" and party2.type = "permanent_establishment", neither party
    carrying a Partnership, Trust or Foundation companyType, the types
    normalize to CORPORATE and PERMANENT_ESTABLISHMENT, the dispatch takes no
    branch, the permanent-establishment predicate does not fire, and assess
    returns isRelatedParty = false with empty specialCases. *)
Theorem C10_lowercase_types (p1 p2 : gmap string value) :
  p1 !! "type" = Some (VStr "corporate") ->
  p2 !! "type" = Some (VStr "permanent_establishment") ->
  special_company_type p1 = false -> special_company_type p2 = false ->
  well_formed p1 = true -> well_formed p2 = true ->
  party_type p1 = Ok "CORPORATE"
  /\ party_type p2 = Ok "PERMANENT_ESTABLISHMENT"
  /\ (forall r0,
        TPRelationshipAssessor.dispatch p1 p2 "CORPORATE" "PERMANENT_ESTABLISHMENT" r0
        = Ok r0)
  /\ SpecialEntityAnalyzer.assess_permanent_establishment p1 p2 = false
  /\ exists r,
       assess p1 p2 = Ok r /\ isRelatedParty r = false /\ specialCases r = []
       /\ isConnectedPerson r = false /\ basis r = [].
Proof.
  intros H1 H2 C1 C2 W1 W2.
  assert (T1 : party_type p1 = Ok "CORPORATE").
  { unfold party_type, dict_get. rewrite H1. reflexivity. }
  assert (T2 : party_type p2 = Ok "PERMANENT_ESTABLISHMENT").
  { unfold party_type, dict_get. rewrite H2. reflexivity. }
  assert (Hpe : SpecialEntityAnalyzer.assess_permanent_establishment p1 p2 = false).
  { unfold SpecialEntityAnalyzer.assess_permanent_establishment, dict_get.
    rewrite H1. reflexivity. }
  destruct (plain_company_types p1 p2 C1 C2) as [Hpa Htr].
  split; [exact T1 |]. split; [exact T2 |].
  split; [intros r0; reflexivity |]. split; [exact Hpe |].
  destruct (assess_wf p1 p2 W1 W2)
    as (r1 & r & Ed & E & Hrel & Hcon & Hbas & Hsc & _).
  rewrite (party_type_wf p1 W1) in T1. rewrite (party_type_wf p2 W2) in T2.
  apply Ok_inj in T1, T2. rewrite T1, T2 in Ed. cbn in Ed. apply Ok_inj in Ed. subst r1.
  exists r. split; [exact E |].
  unfold special_fires in Hrel. unfold special_labels in Hsc.
  rewrite Hpe, Hpa, Htr in Hrel, Hsc.
  repeat split; assumption.
Qed.

Lemma C10_witness :
  exists r,
    assess corporate_lowercase establishment_lowercase = Ok r
    /\ isRelatedParty r = false /\ specialCases r = [].
Proof.
  destruct (C10_lowercase_types corporate_lowercase establishment_lowercase
              eq_refl eq_refl eq_refl eq_refl eq_refl eq_refl)
    as (_ & _ & _ & _ & r & E & Hrel & Hsc & _).
  exists r. repeat split; assumption.
Defined.

(* ===================================================================== *)
(** ** The result of an assessment, branch by branch *)
(* ===================================================================== *)

Lemma permanent_establishment_types (p1 p2 : gmap string value) (t1 t2 : string) :
  party_type p1 = Ok t1 -> party_type p2 = Ok t2 ->
  SpecialEntityAnalyzer.assess_permanent_establishment p1 p2 = true ->
  t1 = "CORPORATE" /\ t2 = "PERMANENT_ESTABLISHMENT".
Proof.
  intros T1 T2 Hpe. apply assess_permanent_establishment_iff in Hpe.
  destruct Hpe as [H1 H2]. unfold party_type, dict_get in T1, T2.
  rewrite H1 in T1. rewrite H2 in T2. cbn in T1, T2.
  apply Ok_inj in T1, T2. auto.
Qed.

Lemma permanent_establishment_falls_back (p1 p2 : gmap string value) (t1 t2 : string) :
  party_type p1 = Ok t1 -> party_type p2 = Ok t2 ->
  SpecialEntityAnalyzer.assess_permanent_establishment p1 p2 = true ->
  both_individual t1 t2 = false /\ both_corporate t1 t2 = false
  /\ mixed_pair t1 t2 = false.
Proof.
  intros T1 T2 Hpe.
  destruct (permanent_establishment_types _ _ _ _ T1 T2 Hpe) as [-> ->].
  repeat split.
Qed.

Lemma both_individual_not_mixed (t1 t2 : string) :
  both_individual t1 t2 = true -> mixed_pair t1 t2 = false.
Proof.
  unfold both_individual, mixed_pair. intros H.
  apply andb_prop in H. destruct H as [H1 H2].
  apply String.eqb_eq in H1, H2. subst. reflexivity.
Qed.

Lemma both_corporate_not_mixed (t1 t2 : string) :
  both_corporate t1 t2 = true -> mixed_pair t1 t2 = false.
Proof.
  unfold both_corporate, mixed_pair. intros H.
  apply andb_prop in H. destruct H as [H1 H2].
  apply String.eqb_eq in H1, H2. subst. reflexivity.
Qed.

(** The complete result of an assessment of well-formed parties. *)
Lemma assess_shape (p1 p2 : gmap string value) (t1 t2 : string) :
  well_formed p1 = true -> well_formed p2 = true ->
  party_type p1 = Ok t1 -> party_type p2 = Ok t2 ->
  exists r,
    assess p1 p2 = Ok r
    /\ isRelatedParty r = branch_related p1 p2 t1 t2 || special_fires p1 p2
    /\ isConnectedPerson r = branch_connected p1 p2 t1 t2
    /\ basis r = branch_bases p1 p2 t1 t2
    /\ specialCases r = special_labels p1 p2
    /\ riskAssessment r = Some (risk_of p1 p2)
    /\ documentationRequired r
       = Some (requirements_of p1 (isRelatedParty r) (risk_of p1 p2)).
Proof.
  intros W1 W2 T1 T2.
  destruct (assess_wf p1 p2 W1 W2)
    as (r1 & r & Ed & E & Hrel & Hcon & Hbas & Hsc & Hra & Hdoc).
  rewrite (party_type_wf p1 W1) in T1. rewrite (party_type_wf p2 W2) in T2.
  apply Ok_inj in T1, T2. rewrite T1, T2 in Ed.
  exists r. split; [exact E |].
  pose proof (dispatch_wf_specialCases _ _ _ _ _ _ W1 W2 Ed) as Hs1.
  cbn [initial_result specialCases] in Hs1.
  assert (Hr1 : isRelatedParty r1 = branch_related p1 p2 t1 t2
                /\ isConnectedPerson r1 = branch_connected p1 p2 t1 t2
                /\ basis r1 = branch_bases p1 p2 t1 t2).
  { unfold branch_related, branch_connected, branch_bases.
    destruct (both_individual t1 t2) eqn:HI.
    { rewrite (dispatch_individual _ _ _ _ _ HI) in Ed. apply Ok_inj in Ed. subst r1.
      rewrite (both_individual_not_mixed _ _ HI). unfold family_related, family_basis.
      change (FamilyRelationshipAnalyzer.assess_relationship p1 ∅)
        with (FamilyRelationshipAnalyzer.assess_relationship p1 p2).
      destruct (FamilyRelationshipAnalyzer.isRelatedParty
                  (FamilyRelationshipAnalyzer.assess_relationship p1 p2));
        repeat split. }
    destruct (both_corporate t1 t2) eqn:HC.
    { destruct (dispatch_corporate_wf p1 p2 t1 t2 initial_result W1 W2 HC)
        as (r1' & Ed' & R1 & R2 & R3 & _).
      rewrite Ed in Ed'. apply Ok_inj in Ed'. subst r1'.
      rewrite (both_corporate_not_mixed _ _ HC), R1, R2, R3. repeat split. }
    destruct (mixed_pair t1 t2) eqn:HM.
    { destruct (dispatch_mixed_wf p1 p2 t1 t2 initial_result W1 W2 HM)
        as (r1' & Ed' & R1 & R2 & R3 & _).
      rewrite Ed in Ed'. apply Ok_inj in Ed'. subst r1'.
      rewrite R1, R2, R3. repeat split. }
    rewrite (dispatch_fallback _ _ _ _ _ HI HC HM) in Ed. apply Ok_inj in Ed.
    subst r1. repeat split. }
  destruct Hr1 as (R1 & R2 & R3).
  split; [rewrite Hrel, R1; reflexivity |].
  split; [rewrite Hcon, R2; reflexivity |].
  split; [rewrite Hbas, R3; reflexivity |].
  split; [rewrite Hsc, Hs1; reflexivity |].
  split; assumption.
Qed.

(* ===================================================================== *)
(** ** Further properties of the analyzers and of the assessment *)
(* ===================================================================== *)

Ltac sublist_tac :=
  repeat first [apply sublist_nil | apply sublist_skip | apply sublist_cons].

(** X1. Whenever the connected-person analyzer returns, its verdict is
    true exactly when its basis list is non-empty; the list never holds the
    empty string that an untriggered test carries; it holds "Director
    relationship" (resp. "Officer relationship") exactly when isDirector
    (resp. isOfficer) is truthy, and, on a well-formed person, "Ownership >=
    50%" exactly when personal plus family ownership reaches 50; the strings
    come in the order director, officer, ownership. *)
Theorem X1_connected_person_bases (person entity : gmap string value)
    (c : ConnectedPersonAnalyzer.connection_result) :
  ConnectedPersonAnalyzer.assess_connection person entity = Ok c ->
  (ConnectedPersonAnalyzer.isConnectedPerson c = true
   <-> ConnectedPersonAnalyzer.bases c <> [])
  /\ ~ In "" (ConnectedPersonAnalyzer.bases c)
  /\ (In "Director relationship" (ConnectedPersonAnalyzer.bases c)
      <-> truthy (dict_get person "isDirector" (VBool false)) = true)
  /\ (In "Officer relationship" (ConnectedPersonAnalyzer.bases c)
      <-> truthy (dict_get person "isOfficer" (VBool false)) = true)
  /\ (well_formed person = true ->
      (In "Ownership >= 50%" (ConnectedPersonAnalyzer.bases c)
       <-> 50 <= int_field person "personalOwnership" 0
                 + int_field person "familyOwnership" 0))
  /\ sublist (ConnectedPersonAnalyzer.bases c)
       ["Director relationship"; "Officer relationship"; "Ownership >= 50%"].
Proof.
  intros E.
  assert (Hwf : well_formed person = true ->
                (In "Ownership >= 50%" (ConnectedPersonAnalyzer.bases c)
                 <-> 50 <= int_field person "personalOwnership" 0
                           + int_field person "familyOwnership" 0)).
  { intros W. rewrite (assess_connection_wf person entity W) in E.
    apply Ok_inj in E. subst c. cbn [ConnectedPersonAnalyzer.bases].
    unfold connected_bases, ownership_connected, CONFIG.OWNERSHIP_THRESHOLD.
    destruct (Z.leb_spec 50 (int_field person "personalOwnership" 0
                             + int_field person "familyOwnership" 0));
      destruct (bool_field person "isDirector"), (bool_field person "isOfficer");
      cbn; split; intros H'; try lia; auto;
      repeat (destruct H' as [H' | H']; try discriminate H'); contradiction. }
  unfold ConnectedPersonAnalyzer.assess_connection,
    ConnectedPersonAnalyzer.check_directorship, ConnectedPersonAnalyzer.check_officer
    in E.
  destruct (ConnectedPersonAnalyzer.check_ownership person entity) as [o |] eqn:Eo;
    cbn [bind] in E; [| discriminate E].
  assert (Ho : ConnectedPersonAnalyzer.basis o
               = if ConnectedPersonAnalyzer.isConnected o then "Ownership >= 50%" else "").
  { unfold ConnectedPersonAnalyzer.check_ownership in Eo.
    destruct (py_add _ _) as [s |]; cbn [bind] in Eo; [| discriminate Eo].
    destruct (py_ge s _) as [g |]; cbn [bind] in Eo; [| discriminate Eo].
    apply Ok_inj in Eo. subst o. reflexivity. }
  apply Ok_inj in E. subst c.
  cbn [ConnectedPersonAnalyzer.isConnectedPerson ConnectedPersonAnalyzer.bases
       ConnectedPersonAnalyzer.isConnected ConnectedPersonAnalyzer.basis] in *.
  rewrite Ho in *. clear Ho Eo.
  split; [| split; [| split; [| split; [| split; [exact Hwf |]]]]];
    destruct (truthy (dict_get person "isDirector" (VBool false))),
      (truthy (dict_get person "isOfficer" (VBool false))),
      (ConnectedPersonAnalyzer.isConnected o); cbn; unfold id;
    try (split; intros H'; try discriminate H'; try congruence; auto;
         repeat (destruct H' as [H' | H']; try discriminate H'); try contradiction;
         auto);
    try (intros H'; repeat (destruct H' as [H' | H']; try discriminate H');
         contradiction);
    try sublist_tac.
Qed.

(** An officer holding 30% personally and 25% through family. *)
Lemma X1_witness :
  exists c,
    ConnectedPersonAnalyzer.assess_connection individual_owner corporate_empty = Ok c
    /\ ConnectedPersonAnalyzer.isConnectedPerson c = true
    /\ In "Officer relationship" (ConnectedPersonAnalyzer.bases c)
    /\ In "Ownership >= 50%" (ConnectedPersonAnalyzer.bases c).
Proof.
  destruct (ConnectedPersonAnalyzer.assess_connection individual_owner corporate_empty)
    as [c |] eqn:E; [| vm_compute in E; discriminate E].
  destruct (X1_connected_person_bases individual_owner corporate_empty c E)
    as (Hcon & _ & _ & Hoff & Hown & _).
  exists c. split; [reflexivity |].
  assert (Hin : In "Officer relationship" (ConnectedPersonAnalyzer.bases c))
    by (apply Hoff; reflexivity).
  split; [apply Hcon; intros Hnil; rewrite Hnil in Hin; exact Hin |].
  split; [exact Hin |].
  apply Hown; [reflexivity | vm_compute; discriminate].
Defined.

Lemma corporate_bases_related (e1 e2 : gmap string value) :
  corporate_related e1 e2 = true <-> corporate_bases e1 e2 <> [].
Proof.
  unfold corporate_related, corporate_bases.
  destruct (ownership_test e1 e2), (control_test e1 e2), (management_test e1 e2);
    cbn; split; congruence.
Qed.

Lemma connected_bases_connected (person : gmap string value) :
  connected person = true <-> connected_bases person <> [].
Proof.
  unfold connected, connected_bases.
  destruct (bool_field person "isDirector"), (bool_field person "isOfficer"),
    (ownership_connected person); cbn; split; congruence.
Qed.

Lemma special_labels_fires (p1 p2 : gmap string value) :
  special_fires p1 p2 = true <-> special_labels p1 p2 <> [].
Proof.
  unfold special_fires, special_labels.
  destruct (SpecialEntityAnalyzer.assess_permanent_establishment p1 p2),
    (SpecialEntityAnalyzer.assess_partnership p1 p2),
    (SpecialEntityAnalyzer.assess_trust_foundation p1 p2); cbn; split; congruence.
Qed.

Lemma app_not_nil {A} (l1 l2 : list A) : (l1 ++ l2)%list <> [] <-> l1 <> [] \/ l2 <> [].
Proof.
  destruct l1, l2; cbn; split; try congruence; auto; intros [H | H]; congruence.
Qed.

Lemma connected_iff (person : gmap string value) :
  connected person = true
  <-> bool_field person "isDirector" = true \/ bool_field person "isOfficer" = true
      \/ 50 <= int_field person "personalOwnership" 0
               + int_field person "familyOwnership" 0.
Proof.
  unfold connected, ownership_connected, CONFIG.OWNERSHIP_THRESHOLD.
  rewrite !orb_true_iff, Z.leb_le. tauto.
Qed.

(** X2. The connected-person flag is raised only by the mixed branch: an
    assessment of well-formed parties returns isConnectedPerson = true
    exactly when one party is INDIVIDUAL, the other CORPORATE, and the
    individual (whichever side it is on) is a director, an officer, or holds
    at least 50% personally and through family.  Two individuals, or two
    companies, are never connected persons, whatever roles they carry. *)
Theorem X2_connected_flag_only_for_mixed_pairs (p1 p2 : gmap string value)
    (t1 t2 : string) :
  well_formed p1 = true -> well_formed p2 = true ->
  party_type p1 = Ok t1 -> party_type p2 = Ok t2 ->
  exists r,
    assess p1 p2 = Ok r
    /\ let person := if String.eqb t1 "INDIVIDUAL" then p1 else p2 in
       (isConnectedPerson r = true
        <-> mixed_pair t1 t2 = true
            /\ (bool_field person "isDirector" = true
                \/ bool_field person "isOfficer" = true
                \/ 50 <= int_field person "personalOwnership" 0
                         + int_field person "familyOwnership" 0))
       /\ (mixed_pair t1 t2 = true ->
           party_type person = Ok "INDIVIDUAL").
Proof.
  intros W1 W2 T1 T2.
  destruct (assess_shape p1 p2 t1 t2 W1 W2 T1 T2) as (r & E & _ & Hcon & _).
  exists r. split; [exact E |]. cbn zeta. split.
  - rewrite Hcon. unfold branch_connected, person_of.
    rewrite andb_true_iff, connected_iff. reflexivity.
  - intros HM. unfold mixed_pair in HM.
    apply orb_prop in HM. destruct HM as [HM | HM]; apply andb_prop in HM;
      destruct HM as [H1 H2]; apply String.eqb_eq in H1, H2; subst t1 t2; cbn;
      assumption.
Qed.

(** A director assessed against another individual is not a connected person;
    against a company they are, and so is an officer whose type is written
    with the dotless i. *)
Lemma X2_witness :
  (exists r, assess individual_director individual_empty = Ok r
             /\ isConnectedPerson r = false)
  /\ (exists r, assess corporate_empty individual_director = Ok r
                /\ isConnectedPerson r = true)
  /\ (exists r, assess dotless_officer corporate_empty = Ok r
                /\ isConnectedPerson r = true).
Proof.
  split; [| split].
  - destruct (X2_connected_flag_only_for_mixed_pairs individual_director
                individual_empty "INDIVIDUAL" "INDIVIDUAL" eq_refl eq_refl eq_refl eq_refl)
      as (r & E & Hiff & _).
    exists r. split; [exact E |].
    destruct (isConnectedPerson r); [| reflexivity].
    destruct (proj1 Hiff eq_refl) as [HM _]. discriminate HM.
  - destruct (X2_connected_flag_only_for_mixed_pairs corporate_empty
                individual_director "CORPORATE" "INDIVIDUAL" eq_refl eq_refl eq_refl eq_refl)
      as (r & E & Hiff & _).
    exists r. split; [exact E |]. apply Hiff. split; [reflexivity |]. left. reflexivity.
  - destruct (X2_connected_flag_only_for_mixed_pairs dotless_officer
                corporate_empty "INDIVIDUAL" "CORPORATE" eq_refl eq_refl eq_refl eq_refl)
      as (r & E & Hiff & _).
    exists r. split; [exact E |]. apply Hiff. split; [reflexivity |].
    right. left. reflexivity.
Defined.

Lemma branch_bases_justify (p1 p2 : gmap string value) (t1 t2 : string) :
  (branch_related p1 p2 t1 t2 = true -> branch_bases p1 p2 t1 t2 <> [])
  /\ (branch_connected p1 p2 t1 t2 = true -> branch_bases p1 p2 t1 t2 <> [])
  /\ (branch_bases p1 p2 t1 t2 <> [] ->
      branch_related p1 p2 t1 t2 = true \/ branch_connected p1 p2 t1 t2 = true).
Proof.
  unfold branch_related, branch_connected, branch_bases.
  destruct (both_individual t1 t2) eqn:HI.
  { rewrite (both_individual_not_mixed _ _ HI).
    destruct (family_related p1); cbn; repeat split; intros; congruence || auto. }
  destruct (both_corporate t1 t2) eqn:HC.
  { rewrite (both_corporate_not_mixed _ _ HC).
    cbn. repeat split; intros H; try discriminate H.
    - apply corporate_bases_related, H.
    - left. apply corporate_bases_related, H. }
  destruct (mixed_pair t1 t2); cbn.
  - repeat split; intros H.
    + apply app_not_nil. left. apply corporate_bases_related, H.
    + apply app_not_nil. right. apply connected_bases_connected, H.
    + apply app_not_nil in H. destruct H as [H | H];
        [left; apply corporate_bases_related, H
        | right; apply connected_bases_connected, H].
  - repeat split; intros; congruence.
Qed.

(** X3. Every positive determination carries its justification, and every
    justification a determination: in the result of an assessment of
    well-formed parties, isRelatedParty = true implies that the basis list or
    the special-case list is non-empty, isConnectedPerson = true implies that
    the basis list is non-empty, a non-empty special-case list implies
    isRelatedParty = true, and a non-empty basis list implies that one of
    the two flags is true. *)
Theorem X3_flags_and_their_justification (p1 p2 : gmap string value) :
  well_formed p1 = true -> well_formed p2 = true ->
  exists r,
    assess p1 p2 = Ok r
    /\ (isRelatedParty r = true -> basis r <> [] \/ specialCases r <> [])
    /\ (isConnectedPerson r = true -> basis r <> [])
    /\ (specialCases r <> [] -> isRelatedParty r = true)
    /\ (basis r <> [] -> isRelatedParty r = true \/ isConnectedPerson r = true).
Proof.
  intros W1 W2.
  destruct (assess_shape p1 p2 _ _ W1 W2 (party_type_wf p1 W1) (party_type_wf p2 W2))
    as (r & E & Hrel & Hcon & Hbas & Hsc & _).
  destruct (branch_bases_justify p1 p2 (upper (str_field p1 "type"))
              (upper (str_field p2 "type"))) as (J1 & J2 & J3).
  exists r. split; [exact E |]. rewrite Hrel, Hcon, Hbas, Hsc.
  split; [| split; [| split]].
  - intros H. apply orb_prop in H. destruct H as [H | H];
      [left; apply J1, H | right; apply special_labels_fires, H].
  - exact J2.
  - intros H. apply special_labels_fires in H. rewrite H. apply orb_true_r.
  - intros H. destruct (J3 H) as [H' | H']; [left; rewrite H'; reflexivity | right; exact H'].
Qed.

Lemma X3_witness :
  exists r,
    assess corporate_trust corporate_empty = Ok r
    /\ isRelatedParty r = true /\ basis r = [] /\ specialCases r <> [].
Proof.
  destruct (X3_flags_and_their_justification corporate_trust corporate_empty
              eq_refl eq_refl) as (r & E & Hrel & _ & Hsc & _).
  exists r. split; [exact E |].
  assert (Hb : basis r = []).
  { vm_compute in E. apply Ok_inj in E. subst r. reflexivity. }
  assert (Hr : isRelatedParty r = true).
  { apply Hsc. vm_compute in E. apply Ok_inj in E. subst r. discriminate. }
  split; [exact Hr |]. split; [exact Hb |].
  destruct (Hrel Hr) as [H | H]; [rewrite Hb in H; contradiction | exact H].
Defined.

Lemma corporate_related_sym (e1 e2 : gmap string value) :
  corporate_related e1 e2 = corporate_related e2 e1
  /\ corporate_bases e1 e2 = corporate_bases e2 e1.
Proof.
  assert (Ho : ownership_test e1 e2 = ownership_test e2 e1)
    by (unfold ownership_test; apply orb_comm).
  assert (Hc : control_test e1 e2 = control_test e2 e1)
    by (unfold control_test; apply orb_comm).
  assert (Hm : management_test e1 e2 = management_test e2 e1)
    by (unfold management_test; apply orb_comm).
  unfold corporate_related, corporate_bases. rewrite Ho, Hc, Hm. split; reflexivity.
Qed.

Lemma partnership_trust_sym (p1 p2 : gmap string value) :
  SpecialEntityAnalyzer.assess_partnership p1 p2
  = SpecialEntityAnalyzer.assess_partnership p2 p1
  /\ SpecialEntityAnalyzer.assess_trust_foundation p1 p2
     = SpecialEntityAnalyzer.assess_trust_foundation p2 p1.
Proof.
  unfold SpecialEntityAnalyzer.assess_partnership,
    SpecialEntityAnalyzer.assess_trust_foundation.
  split.
  - rewrite andb_comm. reflexivity.
  - rewrite orb_comm. reflexivity.
Qed.

Lemma risk_of_sym (p1 p2 : gmap string value) : risk_of p1 p2 = risk_of p2 p1.
Proof.
  unfold risk_of, max_layers, merged_cross_border, merged_high_value.
  rewrite Z.max_comm, (orb_comm (bool_field p1 "crossBorder")),
    (orb_comm (bool_field p1 "highValueTransactions")).
  reflexivity.
Qed.

(** X4. Outside the Individual/Individual branch and the
    permanent-establishment rule the relationship verdict does not depend on
    the order of the parties: for a well-formed Corporate/Corporate pair, or
    a pair of one Individual and one Corporate, assessing (party1, party2)
    and (party2, party1) gives the same isRelatedParty and isConnectedPerson
    flags, the same basis list and the same special-case list. *)
Theorem X4_swap_symmetry (p1 p2 : gmap string value) (t1 t2 : string) :
  well_formed p1 = true -> well_formed p2 = true ->
  party_type p1 = Ok t1 -> party_type p2 = Ok t2 ->
  both_corporate t1 t2 = true \/ mixed_pair t1 t2 = true ->
  exists r r',
    assess p1 p2 = Ok r /\ assess p2 p1 = Ok r'
    /\ isRelatedParty r = isRelatedParty r'
    /\ isConnectedPerson r = isConnectedPerson r'
    /\ basis r = basis r'
    /\ specialCases r = specialCases r'.
Proof.
  intros W1 W2 T1 T2 Hkind.
  destruct (assess_shape p1 p2 t1 t2 W1 W2 T1 T2)
    as (r & E & Hrel & Hcon & Hbas & Hsc & _).
  destruct (assess_shape p2 p1 t2 t1 W2 W1 T2 T1)
    as (r' & E' & Hrel' & Hcon' & Hbas' & Hsc' & _).
  destruct (corporate_related_sym p1 p2) as [Sr Sb].
  destruct (partnership_trust_sym p1 p2) as [Spa Str].
  assert (Hpe : SpecialEntityAnalyzer.assess_permanent_establishment p1 p2 = false).
  { destruct (SpecialEntityAnalyzer.assess_permanent_establishment p1 p2) eqn:Epe;
      [| reflexivity].
    destruct (permanent_establishment_falls_back _ _ _ _ T1 T2 Epe) as (_ & HC & HM).
    destruct Hkind; congruence. }
  assert (Hpe' : SpecialEntityAnalyzer.assess_permanent_establishment p2 p1 = false).
  { destruct (SpecialEntityAnalyzer.assess_permanent_establishment p2 p1) eqn:Epe;
      [| reflexivity].
    destruct (permanent_establishment_types _ _ _ _ T2 T1 Epe) as [-> ->].
    destruct Hkind as [H | H]; discriminate H. }
  assert (Hfires : special_fires p1 p2 = special_fires p2 p1
                   /\ special_labels p1 p2 = special_labels p2 p1).
  { unfold special_fires, special_labels. rewrite Hpe, Hpe', Spa, Str.
    split; reflexivity. }
  destruct Hfires as [Sf Sl].
  assert (Hbranch : branch_related p1 p2 t1 t2 = branch_related p2 p1 t2 t1
                    /\ branch_connected p1 p2 t1 t2 = branch_connected p2 p1 t2 t1
                    /\ branch_bases p1 p2 t1 t2 = branch_bases p2 p1 t2 t1).
  { unfold branch_related, branch_connected, branch_bases, person_of.
    destruct Hkind as [H | H].
    - unfold both_corporate in H. apply andb_prop in H. destruct H as [H1 H2].
      apply String.eqb_eq in H1, H2. subst t1 t2. cbn. rewrite Sr, Sb.
      repeat split.
    - unfold mixed_pair in H. apply orb_prop in H.
      destruct H as [H | H]; apply andb_prop in H; destruct H as [H1 H2];
        apply String.eqb_eq in H1, H2; subst t1 t2; cbn; rewrite Sr, Sb;
        repeat split. }
  destruct Hbranch as (B1 & B2 & B3).
  exists r, r'. split; [exact E |]. split; [exact E' |].
  rewrite Hrel, Hrel', Hcon, Hcon', Hbas, Hbas', Hsc, Hsc', B1, B2, B3, Sf, Sl.
  repeat split.
Qed.

Lemma X4_witness :
  exists r r',
    assess individual_director corporate_owned = Ok r
    /\ assess corporate_owned individual_director = Ok r'
    /\ basis r = basis r'
    /\ basis r = ["Ownership >= 50%"; "Director relationship"].
Proof.
  destruct (X4_swap_symmetry individual_director corporate_owned "INDIVIDUAL" "CORPORATE"
              eq_refl eq_refl eq_refl eq_refl (or_intror eq_refl))
    as (r & r' & E & E' & _ & _ & Hb & _).
  exists r, r'. split; [exact E |]. split; [exact E' |]. split; [exact Hb |].
  vm_compute in E. apply Ok_inj in E. subst r. reflexivity.
Defined.

(** X5. The risk record never depends on the order of the parties, whatever
    their types: assessing well-formed parties in either order returns the
    same riskAssessment (level and factors), although the documentation
    record, computed from party1, may differ. *)
Theorem X5_risk_is_symmetric (p1 p2 : gmap string value) :
  well_formed p1 = true -> well_formed p2 = true ->
  exists r r' ra,
    assess p1 p2 = Ok r /\ assess p2 p1 = Ok r'
    /\ riskAssessment r = Some ra /\ riskAssessment r' = Some ra.
Proof.
  intros W1 W2.
  destruct (assess_wf p1 p2 W1 W2) as (_ & r & _ & E & _ & _ & _ & _ & Hra & _).
  destruct (assess_wf p2 p1 W2 W1) as (_ & r' & _ & E' & _ & _ & _ & _ & Hra' & _).
  exists r, r', (risk_of p1 p2). rewrite Hra, Hra', (risk_of_sym p2 p1).
  repeat split; assumption.
Qed.

Lemma X5_witness :
  exists r r',
    assess corporate_owner individual_empty = Ok r
    /\ assess individual_empty corporate_owner = Ok r'
    /\ riskAssessment r = riskAssessment r'
    /\ documentationRequired r <> documentationRequired r'.
Proof.
  destruct (X5_risk_is_symmetric corporate_owner individual_empty eq_refl eq_refl)
    as (r & r' & ra & E & E' & Hra & Hra').
  exists r, r'. split; [exact E |]. split; [exact E' |].
  split; [congruence |].
  vm_compute in E, E'. apply Ok_inj in E, E'. subst r r'. discriminate.
Defined.

Lemma risk_rank_level (score : Z) (cb hv : bool) :
  risk_rank (risk_level_of score cb hv)
  = if (3 <=? score) || cb || hv then 2 else if score =? 2 then 1 else 0.
Proof.
  unfold risk_level_of.
  destruct ((3 <=? score) || cb || hv); [reflexivity |].
  destruct (score =? 2); reflexivity.
Qed.

(** X6. The risk level is monotone in its inputs, in the order LOW < MEDIUM
    < HIGH: for well-formed pairs, if the second pair has at least as many
    ownership layers (the larger of the two parties' counts) and has every
    merged flag the first pair has, its risk level is not lower. *)
Theorem X6_risk_is_monotone (p1 p2 q1 q2 : gmap string value) :
  well_formed p1 = true -> well_formed p2 = true ->
  well_formed q1 = true -> well_formed q2 = true ->
  max_layers p1 p2 <= max_layers q1 q2 ->
  (merged_cross_border p1 p2 = true -> merged_cross_border q1 q2 = true) ->
  (merged_high_value p1 p2 = true -> merged_high_value q1 q2 = true) ->
  exists r s ra sa,
    assess p1 p2 = Ok r /\ assess q1 q2 = Ok s
    /\ riskAssessment r = Some ra /\ riskAssessment s = Some sa
    /\ risk_rank (RiskAnalyzer.riskLevel ra) <= risk_rank (RiskAnalyzer.riskLevel sa).
Proof.
  intros W1 W2 V1 V2 Hl Hcb Hhv.
  destruct (assess_wf p1 p2 W1 W2) as (_ & r & _ & E & _ & _ & _ & _ & Hra & _).
  destruct (assess_wf q1 q2 V1 V2) as (_ & s & _ & E' & _ & _ & _ & _ & Hsa & _).
  exists r, s, (risk_of p1 p2), (risk_of q1 q2).
  split; [exact E |]. split; [exact E' |]. split; [exact Hra |]. split; [exact Hsa |].
  cbn [risk_of RiskAnalyzer.riskLevel]. rewrite !risk_rank_level.
  unfold complexity_of.
  destruct (merged_cross_border p1 p2), (merged_cross_border q1 q2),
    (merged_high_value p1 p2), (merged_high_value q1 q2);
    try (specialize (Hcb eq_refl); discriminate Hcb);
    try (specialize (Hhv eq_refl); discriminate Hhv);
    destruct (Z.ltb_spec 3 (max_layers p1 p2)), (Z.ltb_spec 3 (max_layers q1 q2));
    destruct (Z.eqb_spec (max_layers p1 p2) 3), (Z.eqb_spec (max_layers q1 q2) 3);
    cbn; lia.
Qed.

Lemma X6_witness :
  exists r s ra sa,
    assess individual_empty corporate_empty = Ok r
    /\ assess corporate_owner corporate_empty = Ok s
    /\ riskAssessment r = Some ra /\ riskAssessment s = Some sa
    /\ risk_rank (RiskAnalyzer.riskLevel ra) <= risk_rank (RiskAnalyzer.riskLevel sa).
Proof.
  apply (X6_risk_is_monotone individual_empty corporate_empty corporate_owner
           corporate_empty eq_refl eq_refl eq_refl eq_refl).
  - vm_compute. discriminate.
  - intros _. reflexivity.
  - intros H. vm_compute in H. discriminate H.
Defined.

Lemma py_in_strs_not_str (v : value) (l : list string) :
  is_str v = false -> py_in_strs v l = false.
Proof.
  intros H. unfold py_in_strs. induction l as [| s l IH]; [reflexivity |].
  cbn. rewrite IH. destruct v; try reflexivity. discriminate H.
Qed.

(** A degree other than the sentinel comes from a string of the table. *)
Lemma calculate_degree_inv (v : value) :
  FamilyRelationshipAnalyzer.calculate_degree v = 999
  \/ exists s n labels,
       v = VStr s /\ In (n, labels) FamilyRelationshipAnalyzer.family_degrees
       /\ In s labels /\ FamilyRelationshipAnalyzer.calculate_degree v = n
       /\ 1 <= n <= 4.
Proof.
  destruct (is_str v) eqn:Hs.
  - destruct v as [| | | s |]; try discriminate Hs.
    unfold FamilyRelationshipAnalyzer.calculate_degree,
      FamilyRelationshipAnalyzer.family_degrees.
    cbn [FamilyRelationshipAnalyzer.calculate_degree_in].
    repeat match goal with
           | |- context [py_in_strs (VStr s) ?l] =>
               let E := fresh "E" in
               destruct (py_in_strs (VStr s) l) eqn:E;
               [ apply py_in_strs_In in E; right;
                 eexists s, _, l; split; [reflexivity |];
                 split; [cbn [In]; tauto |]; split; [exact E |];
                 split; [reflexivity | lia]
               | ]
           end.
    left. reflexivity.
  - left. unfold FamilyRelationshipAnalyzer.calculate_degree,
      FamilyRelationshipAnalyzer.family_degrees.
    cbn [FamilyRelationshipAnalyzer.calculate_degree_in].
    rewrite !(py_in_strs_not_str _ _ Hs). reflexivity.
Qed.

(** X7. The family analyzer, for any first argument (label missing, not a
    string, or any string): the degree it reports is 1, 2, 3, 4 or the
    sentinel 999; it reports a relation exactly when the label is a string
    of the table, and the degree is then the one of its row; otherwise the
    degree is 999 and the basis is the fixed "No family relation within 4th
    degree".  Labels are matched as they are, without case folding. *)
Theorem X7_family_analyzer (person1 person2 : gmap string value) :
  let f := FamilyRelationshipAnalyzer.assess_relationship person1 person2 in
  In (FamilyRelationshipAnalyzer.degree f) [1; 2; 3; 4; 999]
  /\ (FamilyRelationshipAnalyzer.isRelatedParty f = true
      <-> exists s n labels,
            dict_get person1 "relationship_type" (VStr "") = VStr s
            /\ In (n, labels) FamilyRelationshipAnalyzer.family_degrees
            /\ In s labels /\ FamilyRelationshipAnalyzer.degree f = n)
  /\ (FamilyRelationshipAnalyzer.isRelatedParty f = false
      <-> FamilyRelationshipAnalyzer.degree f = 999)
  /\ (FamilyRelationshipAnalyzer.isRelatedParty f = false ->
      FamilyRelationshipAnalyzer.basis f = "No family relation within 4th degree")
  /\ (person1 !! "relationship_type" = None ->
      FamilyRelationshipAnalyzer.isRelatedParty f = false)
  /\ FamilyRelationshipAnalyzer.calculate_degree (VStr "Parent") = 999.
Proof.
  cbn zeta. unfold FamilyRelationshipAnalyzer.assess_relationship.
  cbn [FamilyRelationshipAnalyzer.degree FamilyRelationshipAnalyzer.isRelatedParty
       FamilyRelationshipAnalyzer.basis].
  set (v := dict_get person1 "relationship_type" (VStr "")).
  assert (Hnone : person1 !! "relationship_type" = None ->
                  FamilyRelationshipAnalyzer.calculate_degree v = 999).
  { intros H. unfold v, dict_get. rewrite H. reflexivity. }
  destruct (calculate_degree_inv v) as [H9 | (s & n & labels & Hv & Hrow & Hs & Hd & Hn)].
  - rewrite H9. cbn. split; [tauto |]. split.
    + split; [discriminate |]. intros (s & n & labels & Hv & Hrow & Hs & <-).
      destruct (calculate_degree_recognized 999 labels s Hrow Hs) as [_ ?]. lia.
    + repeat split; auto.
  - rewrite Hd.
    assert (Hcases : n = 1 \/ n = 2 \/ n = 3 \/ n = 4) by lia.
    split; [destruct Hcases as [-> | [-> | [-> | ->]]]; cbn; tauto |].
    split.
    + split; [intros _; exists s, n, labels; repeat split; assumption |].
      intros _. destruct Hcases as [-> | [-> | [-> | ->]]]; reflexivity.
    + split; [| split; [| split]].
      * destruct Hcases as [-> | [-> | [-> | ->]]]; cbn; split; intros H;
          try discriminate H; lia.
      * destruct Hcases as [-> | [-> | [-> | ->]]]; cbn; intros H; discriminate H.
      * intros H. rewrite (Hnone H) in Hd. lia.
      * reflexivity.
Qed.

Lemma py_eq_str_get (p : gmap string value) (k s : string) :
  py_eq_str (dict_get p k VNone) s = true <-> p !! k = Some (VStr s).
Proof.
  unfold dict_get, py_eq_str.
  destruct (p !! k) as [[| | | t |] |]; cbn; split; try discriminate.
  - intros H. apply String.eqb_eq in H. now subst.
  - intros H. injection H as ->. apply String.eqb_refl.
Qed.

Lemma assess_partnership_iff (p1 p2 : gmap string value) :
  SpecialEntityAnalyzer.assess_partnership p1 p2 = true
  <-> p1 !! "companyType" = Some (VStr "Partnership")
      /\ p2 !! "companyType" = Some (VStr "Partnership").
Proof.
  unfold SpecialEntityAnalyzer.assess_partnership.
  rewrite <- !py_eq_str_get.
  destruct (py_eq_str (dict_get p1 "companyType" VNone) "Partnership"),
    (py_eq_str (dict_get p2 "companyType" VNone) "Partnership"); cbn;
    intuition discriminate.
Qed.

Lemma assess_trust_foundation_iff (p1 p2 : gmap string value) :
  SpecialEntityAnalyzer.assess_trust_foundation p1 p2 = true
  <-> p1 !! "companyType" = Some (VStr "Trust")
      \/ p1 !! "companyType" = Some (VStr "Foundation")
      \/ p2 !! "companyType" = Some (VStr "Trust")
      \/ p2 !! "companyType" = Some (VStr "Foundation").
Proof.
  unfold SpecialEntityAnalyzer.assess_trust_foundation, py_in_strs.
  cbn [existsb]. rewrite <- !py_eq_str_get.
  destruct (py_eq_str (dict_get p1 "companyType" VNone) "Trust"),
    (py_eq_str (dict_get p1 "companyType" VNone) "Foundation"),
    (py_eq_str (dict_get p2 "companyType" VNone) "Trust"),
    (py_eq_str (dict_get p2 "companyType" VNone) "Foundation"); cbn;
    intuition discriminate.
Qed.

(** X8. The special-case list of an assessment of well-formed parties is a
    sublist of [Permanent Establishment, Partnership, Trust/Foundation], in
    that order.  It holds the partnership label exactly when both
    companyType values are "Partnership", and the trust/foundation label
    exactly when one of them is "Trust" or "Foundation"; these two rules
    exclude each other, so the list never has more than two entries. *)
Theorem X8_special_cases (p1 p2 : gmap string value) :
  well_formed p1 = true -> well_formed p2 = true ->
  exists r,
    assess p1 p2 = Ok r
    /\ sublist (specialCases r) special_vocabulary
    /\ (In "Partnership relationship" (specialCases r)
        <-> p1 !! "companyType" = Some (VStr "Partnership")
            /\ p2 !! "companyType" = Some (VStr "Partnership"))
    /\ (In "Trust/Foundation relationship" (specialCases r)
        <-> p1 !! "companyType" = Some (VStr "Trust")
            \/ p1 !! "companyType" = Some (VStr "Foundation")
            \/ p2 !! "companyType" = Some (VStr "Trust")
            \/ p2 !! "companyType" = Some (VStr "Foundation"))
    /\ ~ (In "Partnership relationship" (specialCases r)
          /\ In "Trust/Foundation relationship" (specialCases r))
    /\ (length (specialCases r) <= 2)%nat.
Proof.
  intros W1 W2.
  destruct (assess_shape p1 p2 _ _ W1 W2 (party_type_wf p1 W1) (party_type_wf p2 W2))
    as (r & E & _ & _ & _ & Hsc & _).
  exists r. split; [exact E |]. rewrite Hsc.
  assert (Hex : SpecialEntityAnalyzer.assess_partnership p1 p2 = true ->
                SpecialEntityAnalyzer.assess_trust_foundation p1 p2 = false).
  { intros Hpa. apply assess_partnership_iff in Hpa. destruct Hpa as [H1 H2].
    destruct (SpecialEntityAnalyzer.assess_trust_foundation p1 p2) eqn:Htr;
      [| reflexivity].
    apply assess_trust_foundation_iff in Htr.
    destruct Htr as [H | [H | [H | H]]]; congruence. }
  rewrite <- assess_partnership_iff, <- assess_trust_foundation_iff.
  unfold special_labels, special_vocabulary.
  destruct (SpecialEntityAnalyzer.assess_permanent_establishment p1 p2),
    (SpecialEntityAnalyzer.assess_partnership p1 p2),
    (SpecialEntityAnalyzer.assess_trust_foundation p1 p2);
    try (specialize (Hex eq_refl); discriminate Hex);
    cbn; unfold not; (split; [sublist_tac |]);
    repeat split; intros; try lia; try discriminate; auto;
    repeat match goal with
           | H : _ /\ _ |- _ => destruct H
           | H : _ \/ _ |- _ => destruct H
           end; try discriminate; try contradiction.
Qed.

(** A corporate trust with a permanent establishment: two special cases. *)
Lemma X8_witness :
  exists r,
    assess corporate_trust establishment = Ok r
    /\ In "Trust/Foundation relationship" (specialCases r)
    /\ ~ In "Partnership relationship" (specialCases r).
Proof.
  destruct (X8_special_cases corporate_trust establishment eq_refl eq_refl)
    as (r & E & _ & _ & Htr & Hex & _).
  exists r. split; [exact E |].
  assert (Hin : In "Trust/Foundation relationship" (specialCases r))
    by (apply Htr; left; reflexivity).
  split; [exact Hin |]. intros Hpa. apply Hex. split; assumption.
Defined.

(** X9. A type entry that is not a string makes the assessment raise
    AttributeError, on either party and whatever else the parties hold: the
    call fails on [.upper()] before any analyzer runs. *)
Theorem X9_non_string_type_raises (p1 p2 : gmap string value) (v : value) :
  p1 !! "type" = Some v \/ p2 !! "type" = Some v ->
  is_str v = false ->
  assess p1 p2 = Raise AttributeError.
Proof.
  intros Hty Hv. unfold assess, TPRelationshipAssessor.assess_relationship.
  assert (Hup : forall p, p !! "type" = Some v ->
                          py_upper (dict_get p "type" (VStr "")) = Raise AttributeError).
  { intros p Hp. unfold dict_get. rewrite Hp. destruct v; try reflexivity.
    discriminate Hv. }
  destruct Hty as [H | H].
  - rewrite (Hup p1 H). reflexivity.
  - rewrite (Hup p2 H).
    destruct (py_upper (dict_get p1 "type" (VStr ""))) as [t1 | e] eqn:E1;
      [reflexivity |].
    unfold py_upper in E1.
    destruct (dict_get p1 "type" (VStr "")); try discriminate E1;
      injection E1 as <-; reflexivity.
Qed.

Lemma X9_witness :
  assess corporate_empty (dict [("type", VNone)]) = Raise AttributeError.
Proof.
  apply (X9_non_string_type_raises corporate_empty (dict [("type", VNone)]) VNone).
  - right. reflexivity.
  - reflexivity.
Defined.

(* ===================================================================== *)
(** ** What the assessment reads of the first party *)
(* ===================================================================== *)

Section Party1Reads.

Variables p1 p1' : gmap string value.
Hypothesis agree1 : forall k, In k party1_reads -> p1 !! k = p1' !! k.

Lemma dict_get_agree1 (k : string) (d : value) :
  In k party1_reads -> dict_get p1 k d = dict_get p1' k d.
Proof. intros Hin. unfold dict_get. now rewrite (agree1 k Hin). Qed.

Ltac in_reads1 := simpl; repeat (first [left; reflexivity | right]).

Ltac to_p1' :=
  repeat match goal with
         | |- context [dict_get p1 ?k ?d] =>
             rewrite (dict_get_agree1 k d) by in_reads1
         end.

Lemma family_agree_l (p2 p2' : gmap string value) :
  FamilyRelationshipAnalyzer.assess_relationship p1 p2
  = FamilyRelationshipAnalyzer.assess_relationship p1' p2'.
Proof.
  unfold FamilyRelationshipAnalyzer.assess_relationship. to_p1'. reflexivity.
Qed.

Lemma corporate_agree_l (e2 : gmap string value) :
  CorporateRelationshipAnalyzer.assess_relationship p1 e2
  = CorporateRelationshipAnalyzer.assess_relationship p1' e2.
Proof.
  unfold CorporateRelationshipAnalyzer.assess_relationship,
    CorporateRelationshipAnalyzer.analyze_ownership,
    CorporateRelationshipAnalyzer.analyze_control,
    CorporateRelationshipAnalyzer.analyze_management.
  to_p1'. reflexivity.
Qed.

Lemma connection_agree_l (entity entity' : gmap string value) :
  ConnectedPersonAnalyzer.assess_connection p1 entity
  = ConnectedPersonAnalyzer.assess_connection p1' entity'.
Proof.
  unfold ConnectedPersonAnalyzer.assess_connection,
    ConnectedPersonAnalyzer.check_directorship, ConnectedPersonAnalyzer.check_officer,
    ConnectedPersonAnalyzer.check_ownership.
  to_p1'. reflexivity.
Qed.

Lemma dispatch_agree_l (p2 : gmap string value) (t1 t2 : string)
    (r0 : assessment_result) :
  TPRelationshipAssessor.dispatch p1 p2 t1 t2 r0
  = TPRelationshipAssessor.dispatch p1' p2 t1 t2 r0.
Proof.
  unfold TPRelationshipAssessor.dispatch.
  rewrite (family_agree_l p2 p2), (corporate_agree_l p2), (connection_agree_l p2 p2).
  reflexivity.
Qed.

Lemma special_agree_l (p2 : gmap string value) (r0 : assessment_result) :
  TPRelationshipAssessor.special_entity_checks p1 p2 r0
  = TPRelationshipAssessor.special_entity_checks p1' p2 r0.
Proof.
  unfold TPRelationshipAssessor.special_entity_checks,
    SpecialEntityAnalyzer.assess_permanent_establishment,
    SpecialEntityAnalyzer.assess_partnership,
    SpecialEntityAnalyzer.assess_trust_foundation.
  to_p1'. reflexivity.
Qed.

Lemma risk_data_agree_l (p2 : gmap string value) :
  TPRelationshipAssessor.risk_data p1 p2 = TPRelationshipAssessor.risk_data p1' p2.
Proof. unfold TPRelationshipAssessor.risk_data. to_p1'. reflexivity. Qed.

Lemma determine_requirements_agree (relationship : assessment_result)
    (ra : RiskAnalyzer.risk_assessment) :
  DocumentationAnalyzer.determine_requirements p1 relationship ra
  = DocumentationAnalyzer.determine_requirements p1' relationship ra.
Proof.
  unfold DocumentationAnalyzer.determine_requirements,
    DocumentationAnalyzer.is_master_file_required,
    DocumentationAnalyzer.is_local_file_required.
  to_p1'. reflexivity.
Qed.

Lemma assess_agree_l (p2 : gmap string value) : assess p1 p2 = assess p1' p2.
Proof.
  unfold assess, TPRelationshipAssessor.assess_relationship.
  rewrite (dict_get_agree1 "type" (VStr "")) by in_reads1.
  destruct (py_upper (dict_get p1' "type" (VStr ""))) as [t1|]; [| reflexivity].
  destruct (py_upper (dict_get p2 "type" (VStr ""))) as [t2|]; [| reflexivity].
  cbn [bind]. rewrite dispatch_agree_l.
  destruct (TPRelationshipAssessor.dispatch p1' p2 t1 t2 _) as [r1|]; [| reflexivity].
  cbn [bind]. rewrite special_agree_l, risk_data_agree_l.
  destruct (TPRelationshipAssessor.risk_data p1' p2) as [data|]; [| reflexivity].
  cbn [bind].
  destruct (RiskAnalyzer.analyze_risk data) as [ra|]; [| reflexivity].
  cbn [bind]. rewrite determine_requirements_agree. reflexivity.
Qed.

End Party1Reads.

(** X10. The assessment looks up nothing but the sixteen keys of the data
    model: two pairs of dictionaries that agree on those keys have the same
    outcome, result or exception, so an extra entry (a name, an id) neither
    changes the result nor causes an error. *)
Theorem X10_only_schema_keys_are_read (p1 p1' p2 p2' : gmap string value) :
  (forall k, In k schema_keys -> p1 !! k = p1' !! k) ->
  (forall k, In k schema_keys -> p2 !! k = p2' !! k) ->
  assess p1 p2 = assess p1' p2'.
Proof.
  intros H1 H2.
  rewrite (assess_agree p2 p2').
  - apply assess_agree_l. intros k Hk. apply H1.
    cbn in Hk. cbn. intuition (subst; auto 20).
  - intros k Hk. apply H2. cbn in Hk. cbn. intuition (subst; auto 20).
Qed.

Lemma X10_witness :
  assess corporate_named corporate_owned = assess corporate_empty corporate_owned.
Proof.
  apply X10_only_schema_keys_are_read; [| reflexivity].
  intros k Hk. unfold corporate_named, corporate_empty, dict.
  rewrite !list_to_map_cons, list_to_map_nil.
  assert (Hname : k <> "name").
  { intros ->. cbn in Hk.
    repeat (destruct Hk as [Hk | Hk]; [discriminate Hk |]). exact Hk. }
  destruct (decide (k = "type")) as [-> | Hty]; [reflexivity |].
  rewrite !lookup_insert_ne by congruence. reflexivity.
Defined.



Lemma family_basis_vocabulary (p1 : gmap string value) :
  family_related p1 = true ->
  In (family_basis p1)
    ["Family relationship - 1 degree"; "Family relationship - 2 degree";
     "Family relationship - 3 degree"; "Family relationship - 4 degree"].
Proof.
  unfold family_related, family_basis, FamilyRelationshipAnalyzer.assess_relationship.
  cbn [FamilyRelationshipAnalyzer.isRelatedParty FamilyRelationshipAnalyzer.basis].
  destruct (calculate_degree_inv (dict_get p1 "relationship_type" (VStr "")))
    as [H9 | (s & n & labels & _ & _ & _ & Hd & Hn)].
  - rewrite H9. cbn. discriminate.
  - rewrite Hd. assert (Hcases : n = 1 \/ n = 2 \/ n = 3 \/ n = 4) by lia.
    destruct Hcases as [-> | [-> | [-> | ->]]]; intros _; cbn; tauto.
Qed.

Lemma corporate_bases_vocabulary (e1 e2 : gmap string value) (s : string) :
  In s (corporate_bases e1 e2) ->
  In s ["Ownership >= 50%";
        "Control through voting rights or profit entitlement >= 50%";
        "Management control >= 50%"].
Proof.
  unfold corporate_bases.
  destruct (ownership_test e1 e2), (control_test e1 e2), (management_test e1 e2);
    cbn; tauto.
Qed.

Lemma connected_bases_vocabulary (person : gmap string value) (s : string) :
  In s (connected_bases person) ->
  In s ["Director relationship"; "Officer relationship"; "Ownership >= 50%"].
Proof.
  unfold connected_bases.
  destruct (bool_field person "isDirector"), (bool_field person "isOfficer"),
    (ownership_connected person); cbn; tauto.
Qed.

Lemma corporate_bases_NoDup (e1 e2 : gmap string value) :
  List.NoDup (corporate_bases e1 e2) /\ (length (corporate_bases e1 e2) <= 3)%nat.
Proof.
  unfold corporate_bases.
  destruct (ownership_test e1 e2), (control_test e1 e2), (management_test e1 e2);
    cbn; (split; [| lia]);
    repeat (constructor; [cbn; intros H;
                          repeat (destruct H as [H | H]; [discriminate H |]);
                          exact H |]);
    constructor.
Qed.

Lemma connected_bases_length (person : gmap string value) :
  (length (connected_bases person) <= 3)%nat.
Proof.
  unfold connected_bases.
  destruct (bool_field person "isDirector"), (bool_field person "isOfficer"),
    (ownership_connected person); cbn; lia.
Qed.

(** X12. The basis list of an assessment of well-formed parties only holds
    strings of a fixed vocabulary: the four "Family relationship - n degree"
    strings, the three corporate test strings and the three connected-person
    strings.  It never holds the empty string of an untriggered test nor the
    family analyzer's "No family relation within 4th degree".  It has at most
    six entries, and it repeats no string unless the pair is one Individual
    and one Corporate (where "Ownership >= 50%" may come from both
    analyzers). *)
Theorem X12_basis_vocabulary (p1 p2 : gmap string value) (t1 t2 : string) :
  well_formed p1 = true -> well_formed p2 = true ->
  party_type p1 = Ok t1 -> party_type p2 = Ok t2 ->
  exists r,
    assess p1 p2 = Ok r
    /\ (forall s, In s (basis r) -> In s basis_vocabulary)
    /\ ~ In "" (basis r)
    /\ ~ In "No family relation within 4th degree" (basis r)
    /\ (length (basis r) <= 6)%nat
    /\ (mixed_pair t1 t2 = false -> List.NoDup (basis r) /\ (length (basis r) <= 3)%nat).
Proof.
  intros W1 W2 T1 T2.
  destruct (assess_shape p1 p2 t1 t2 W1 W2 T1 T2) as (r & E & _ & _ & Hbas & _).
  exists r. split; [exact E |]. rewrite Hbas.
  assert (Hvoc : forall s, In s (branch_bases p1 p2 t1 t2) -> In s basis_vocabulary).
  { intros s. unfold branch_bases.
    destruct (both_individual t1 t2).
    { destruct (family_related p1) eqn:Hf; [| intros []].
      intros [<- | []]. pose proof (family_basis_vocabulary p1 Hf) as H.
      unfold basis_vocabulary. cbn in H |- *. tauto. }
    destruct (both_corporate t1 t2).
    { intros H. apply corporate_bases_vocabulary in H.
      unfold basis_vocabulary. cbn in H |- *. tauto. }
    destruct (mixed_pair t1 t2); [| intros []].
    intros H. apply in_app_or in H. destruct H as [H | H];
      [apply corporate_bases_vocabulary in H | apply connected_bases_vocabulary in H];
      unfold basis_vocabulary; cbn in H |- *; tauto. }
  split; [exact Hvoc |].
  split; [intros H; apply Hvoc in H; cbn in H;
          repeat (destruct H as [H | H]; [discriminate H |]); exact H |].
  split; [intros H; apply Hvoc in H; cbn in H;
          repeat (destruct H as [H | H]; [discriminate H |]); exact H |].
  destruct (corporate_bases_NoDup p1 p2) as [Hnd Hlen].
  pose proof (connected_bases_length (person_of p1 p2 t1)) as Hlen'.
  unfold branch_bases. split.
  - destruct (both_individual t1 t2).
    { destruct (family_related p1); cbn; lia. }
    destruct (both_corporate t1 t2); [lia |].
    destruct (mixed_pair t1 t2); [rewrite length_app; lia | cbn; lia].
  - intros ->.
    destruct (both_individual t1 t2).
    { destruct (family_related p1); cbn; split; try lia;
        repeat constructor. intros []. }
    destruct (both_corporate t1 t2); [split; assumption |].
    cbn. split; [constructor | lia].
Qed.

(** An officer holding 55% facing a company that reports 60% ownership: the
    ownership string is listed twice.  The same holds of an officer whose
    type is written with the dotless i. *)
Lemma X12_witness :
  (exists r,
     assess individual_owner corporate_owned = Ok r
     /\ basis r = ["Ownership >= 50%"; "Officer relationship"; "Ownership >= 50%"]
     /\ (forall s, In s (basis r) -> In s basis_vocabulary))
  /\ (exists r,
        assess dotless_officer corporate_owned = Ok r
        /\ basis r = ["Ownership >= 50%"; "Officer relationship"; "Ownership >= 50%"]
        /\ (forall s, In s (basis r) -> In s basis_vocabulary)).
Proof.
  split.
  - destruct (X12_basis_vocabulary individual_owner corporate_owned "INDIVIDUAL"
                "CORPORATE" eq_refl eq_refl eq_refl eq_refl) as (r & E & Hvoc & _).
    exists r. split; [exact E |]. split; [| exact Hvoc].
    vm_compute in E. apply Ok_inj in E. subst r. reflexivity.
  - destruct (X12_basis_vocabulary dotless_officer corporate_owned "INDIVIDUAL"
                "CORPORATE" eq_refl eq_refl eq_refl eq_refl) as (r & E & Hvoc & _).
    exists r. split; [exact E |]. split; [| exact Hvoc].
    vm_compute in E. apply Ok_inj in E. subst r. reflexivity.
Defined.

(* ===================================================================== *)
(** ** The assessment behind the front end *)
(* ===================================================================== *)

Ltac by_party_type w :=
  unfold FrontEnd.build_party;
  destruct (String.eqb (FrontEnd.party_type w) "INDIVIDUAL");
  destruct (String.eqb (FrontEnd.party_type w) "CORPORATE");
  reflexivity.

Lemma build_party_wf (w : FrontEnd.widgets) :
  well_formed (FrontEnd.build_party w) = true.
Proof. by_party_type w. Qed.

Lemma build_party_type (w : FrontEnd.widgets) :
  FrontEnd.build_party w !! "type" = Some (VStr (FrontEnd.party_type w)).
Proof. by_party_type w. Qed.

Lemma build_party_no_company_type (w : FrontEnd.widgets) :
  FrontEnd.build_party w !! "companyType" = None.
Proof. by_party_type w. Qed.

Lemma build_party_party_type (w : FrontEnd.widgets) :
  party_type (FrontEnd.build_party w) = Ok (upper (FrontEnd.party_type w)).
Proof.
  unfold party_type, dict_get. rewrite build_party_type. reflexivity.
Qed.

Lemma build_party_special (w1 w2 : FrontEnd.widgets) :
  SpecialEntityAnalyzer.assess_partnership (FrontEnd.build_party w1)
    (FrontEnd.build_party w2) = false
  /\ SpecialEntityAnalyzer.assess_trust_foundation (FrontEnd.build_party w1)
       (FrontEnd.build_party w2) = false
  /\ SpecialEntityAnalyzer.assess_permanent_establishment (FrontEnd.build_party w1)
       (FrontEnd.build_party w2)
     = String.eqb (FrontEnd.party_type w1) "CORPORATE"
       && String.eqb (FrontEnd.party_type w2) "PERMANENT_ESTABLISHMENT".
Proof.
  unfold SpecialEntityAnalyzer.assess_partnership,
    SpecialEntityAnalyzer.assess_trust_foundation,
    SpecialEntityAnalyzer.assess_permanent_establishment, dict_get.
  rewrite !build_party_no_company_type, !build_party_type. cbn.
  repeat split.
  destruct (String.eqb (FrontEnd.party_type w1) "CORPORATE"),
    (String.eqb (FrontEnd.party_type w2) "PERMANENT_ESTABLISHMENT"); reflexivity.
Qed.

(** The figures of a party built from the Corporate block, and of one that
    is not. *)
Lemma build_party_corporate (w : FrontEnd.widgets) :
  FrontEnd.party_type w = "CORPORATE" ->
  total_ownership (FrontEnd.build_party w)
  = FrontEnd.direct_own w + FrontEnd.indirect_own w
  /\ int_field (FrontEnd.build_party w) "votingRights" 0 = FrontEnd.voting_rights w
  /\ int_field (FrontEnd.build_party w) "profitEntitlement" 0
     = FrontEnd.profit_entitlement w
  /\ int_field (FrontEnd.build_party w) "managementControl" 0
     = FrontEnd.management_control w.
Proof.
  intros H. unfold FrontEnd.build_party. rewrite H. cbn [String.eqb Ascii.eqb Bool.eqb].
  repeat split.
Qed.

Lemma build_party_not_corporate (w : FrontEnd.widgets) :
  FrontEnd.party_type w <> "CORPORATE" ->
  lacks_corporate_fields (FrontEnd.build_party w).
Proof.
  intros H. unfold FrontEnd.build_party.
  destruct (String.eqb_spec (FrontEnd.party_type w) "CORPORATE"); [contradiction |].
  destruct (String.eqb (FrontEnd.party_type w) "INDIVIDUAL"); repeat split.
Qed.

Lemma build_party_individual (w : FrontEnd.widgets) :
  FrontEnd.party_type w = "INDIVIDUAL" ->
  bool_field (FrontEnd.build_party w) "isDirector" = FrontEnd.is_director w
  /\ bool_field (FrontEnd.build_party w) "isOfficer" = FrontEnd.is_officer w
  /\ int_field (FrontEnd.build_party w) "personalOwnership" 0
     = FrontEnd.personal_ownership w
  /\ int_field (FrontEnd.build_party w) "familyOwnership" 0
     = FrontEnd.family_ownership w
  /\ dict_get (FrontEnd.build_party w) "relationship_type" (VStr "")
     = VStr (FrontEnd.relationship_type w).
Proof.
  intros H. unfold FrontEnd.build_party. rewrite H. cbn [String.eqb Ascii.eqb Bool.eqb].
  repeat split.
Qed.

(** X13. The front end never makes the assessor raise: for every state of
    the widgets, the dictionaries that [main] builds are well formed and the
    assessment returns a result with its risk and documentation records.
    Since the form has no companyType field, the only special case that can
    be reported is the permanent-establishment one, exactly when Party 1 is
    CORPORATE and Party 2 is PERMANENT_ESTABLISHMENT. *)
Theorem X13_front_end_assessment_returns (w1 w2 : FrontEnd.widgets) :
  well_formed (FrontEnd.build_party w1) = true
  /\ well_formed (FrontEnd.build_party w2) = true
  /\ exists r ra d,
       FrontEnd.main w1 w2 = Ok r
       /\ riskAssessment r = Some ra /\ documentationRequired r = Some d
       /\ specialCases r
          = if String.eqb (FrontEnd.party_type w1) "CORPORATE"
               && String.eqb (FrontEnd.party_type w2) "PERMANENT_ESTABLISHMENT"
            then ["Permanent Establishment relationship"] else [].
Proof.
  split; [apply build_party_wf |]. split; [apply build_party_wf |].
  destruct (assess_shape _ _ _ _ (build_party_wf w1) (build_party_wf w2)
              (build_party_party_type w1) (build_party_party_type w2))
    as (r & E & _ & _ & _ & Hsc & Hra & Hdoc).
  exists r. do 2 eexists. split; [exact E |]. split; [exact Hra |].
  split; [exact Hdoc |].
  rewrite Hsc. unfold special_labels.
  destruct (build_party_special w1 w2) as (-> & -> & ->).
  destruct (String.eqb (FrontEnd.party_type w1) "CORPORATE"
            && String.eqb (FrontEnd.party_type w2) "PERMANENT_ESTABLISHMENT");
    reflexivity.
Qed.

Lemma X13_witness :
  exists r,
    FrontEnd.main form_corporate form_establishment = Ok r
    /\ specialCases r = ["Permanent Establishment relationship"].
Proof.
  destruct (X13_front_end_assessment_returns form_corporate form_establishment)
    as (_ & _ & r & ra & d & E & _ & _ & Hsc).
  exists r. split; [exact E | exact Hsc].
Defined.

Lemma branch_corporate (p1 p2 : gmap string value) :
  branch_related p1 p2 "CORPORATE" "CORPORATE" = corporate_related p1 p2
  /\ branch_connected p1 p2 "CORPORATE" "CORPORATE" = false
  /\ branch_bases p1 p2 "CORPORATE" "CORPORATE" = corporate_bases p1 p2.
Proof. repeat split. Qed.

Lemma branch_individual (p1 p2 : gmap string value) :
  branch_related p1 p2 "INDIVIDUAL" "INDIVIDUAL" = family_related p1
  /\ branch_connected p1 p2 "INDIVIDUAL" "INDIVIDUAL" = false
  /\ branch_bases p1 p2 "INDIVIDUAL" "INDIVIDUAL"
     = if family_related p1 then [family_basis p1] else [].
Proof. repeat split. Qed.

Lemma branch_individual_corporate (p1 p2 : gmap string value) :
  branch_related p1 p2 "INDIVIDUAL" "CORPORATE" = corporate_related p1 p2
  /\ branch_connected p1 p2 "INDIVIDUAL" "CORPORATE" = connected p1
  /\ branch_bases p1 p2 "INDIVIDUAL" "CORPORATE"
     = (corporate_bases p1 p2 ++ connected_bases p1)%list.
Proof. repeat split. Qed.

Lemma branch_corporate_individual (p1 p2 : gmap string value) :
  branch_related p1 p2 "CORPORATE" "INDIVIDUAL" = corporate_related p1 p2
  /\ branch_connected p1 p2 "CORPORATE" "INDIVIDUAL" = connected p2
  /\ branch_bases p1 p2 "CORPORATE" "INDIVIDUAL"
     = (corporate_bases p1 p2 ++ connected_bases p2)%list.
Proof. repeat split. Qed.

Lemma reaches_threshold_form (w : FrontEnd.widgets) :
  FrontEnd.party_type w = "CORPORATE" ->
  (reaches_threshold (FrontEnd.build_party w)
   <-> 50 <= FrontEnd.direct_own w + FrontEnd.indirect_own w
       \/ 50 <= FrontEnd.voting_rights w
       \/ 50 <= FrontEnd.profit_entitlement w
       \/ 50 <= FrontEnd.management_control w).
Proof.
  intros H. unfold reaches_threshold.
  destruct (build_party_corporate w H) as (-> & -> & -> & ->). reflexivity.
Qed.

(** X14. Through the front end the corporate test alone decides a
    Corporate/Corporate pair: the result is related exactly when, for one of
    the two parties, direct plus indirect ownership, voting rights, profit
    entitlement or management control entered in the form is at least 50; it
    is related exactly when its basis list is non-empty; it is never a
    connected-person result and reports no special case. *)
Theorem X14_front_end_corporate_pair (w1 w2 : FrontEnd.widgets) :
  FrontEnd.party_type w1 = "CORPORATE" -> FrontEnd.party_type w2 = "CORPORATE" ->
  exists r,
    FrontEnd.main w1 w2 = Ok r
    /\ (isRelatedParty r = true
        <-> (50 <= FrontEnd.direct_own w1 + FrontEnd.indirect_own w1
             \/ 50 <= FrontEnd.voting_rights w1
             \/ 50 <= FrontEnd.profit_entitlement w1
             \/ 50 <= FrontEnd.management_control w1)
            \/ (50 <= FrontEnd.direct_own w2 + FrontEnd.indirect_own w2
                \/ 50 <= FrontEnd.voting_rights w2
                \/ 50 <= FrontEnd.profit_entitlement w2
                \/ 50 <= FrontEnd.management_control w2))
    /\ (isRelatedParty r = true <-> basis r <> [])
    /\ isConnectedPerson r = false
    /\ specialCases r = [].
Proof.
  intros H1 H2.
  assert (T1 : party_type (FrontEnd.build_party w1) = Ok "CORPORATE")
    by (rewrite build_party_party_type, H1; reflexivity).
  assert (T2 : party_type (FrontEnd.build_party w2) = Ok "CORPORATE")
    by (rewrite build_party_party_type, H2; reflexivity).
  destruct (assess_shape _ _ _ _ (build_party_wf w1) (build_party_wf w2) T1 T2)
    as (r & E & Hrel & Hcon & Hbas & Hsc & _).
  destruct (build_party_special w1 w2) as (Hpa & Htr & Hpe).
  rewrite H1, H2 in Hpe. cbn in Hpe.
  unfold special_fires in Hrel. unfold special_labels in Hsc.
  rewrite Hpa, Htr, Hpe in Hrel, Hsc.
  destruct (branch_corporate (FrontEnd.build_party w1) (FrontEnd.build_party w2))
    as (B1 & B2 & B3).
  rewrite B1 in Hrel. rewrite B2 in Hcon. rewrite B3 in Hbas.
  cbn [orb app] in Hrel, Hsc. rewrite orb_false_r in Hrel.
  exists r. split; [exact E |].
  rewrite Hrel, Hbas. split; [| split; [| split; assumption]].
  - rewrite corporate_related_iff, (reaches_threshold_form w1 H1),
      (reaches_threshold_form w2 H2). reflexivity.
  - apply corporate_bases_related.
Qed.

(** 30% direct plus 25% indirect ownership reaches the threshold. *)
Lemma X14_witness :
  exists r,
    FrontEnd.main form_corporate form_corporate = Ok r /\ isRelatedParty r = true.
Proof.
  destruct (X14_front_end_corporate_pair form_corporate form_corporate eq_refl eq_refl)
    as (r & E & Hiff & _).
  exists r. split; [exact E |]. apply Hiff. left. left. vm_compute. discriminate.
Defined.

(** X15. Through the front end every kinship label that can be selected is
    a recognized one: for two INDIVIDUAL parties the result is related
    exactly when Party 1's relationship selection is not the empty option,
    and the basis list is then the single string naming a degree between 1
    and 4.  Roles and ownership entered for the individuals play no part: the
    result is never a connected-person result. *)
Theorem X15_front_end_individual_pair (w1 w2 : FrontEnd.widgets) :
  FrontEnd.party_type w1 = "INDIVIDUAL" -> FrontEnd.party_type w2 = "INDIVIDUAL" ->
  In (FrontEnd.relationship_type w1) FrontEnd.relationship_options ->
  exists r,
    FrontEnd.main w1 w2 = Ok r
    /\ (isRelatedParty r = true <-> FrontEnd.relationship_type w1 <> "")
    /\ (FrontEnd.relationship_type w1 = "" -> basis r = [])
    /\ (FrontEnd.relationship_type w1 <> "" ->
        exists n, 1 <= n <= 4
                  /\ basis r = ["Family relationship - " +:+ pretty n +:+ " degree"])
    /\ isConnectedPerson r = false
    /\ specialCases r = [].
Proof.
  intros H1 H2 Hopt.
  assert (T1 : party_type (FrontEnd.build_party w1) = Ok "INDIVIDUAL")
    by (rewrite build_party_party_type, H1; reflexivity).
  assert (T2 : party_type (FrontEnd.build_party w2) = Ok "INDIVIDUAL")
    by (rewrite build_party_party_type, H2; reflexivity).
  destruct (assess_shape _ _ _ _ (build_party_wf w1) (build_party_wf w2) T1 T2)
    as (r & E & Hrel & Hcon & Hbas & Hsc & _).
  destruct (build_party_special w1 w2) as (Hpa & Htr & Hpe).
  rewrite H1, H2 in Hpe. cbn in Hpe.
  unfold special_fires in Hrel. unfold special_labels in Hsc.
  rewrite Hpa, Htr, Hpe in Hrel, Hsc.
  destruct (branch_individual (FrontEnd.build_party w1) (FrontEnd.build_party w2))
    as (B1 & B2 & B3).
  rewrite B1 in Hrel. rewrite B2 in Hcon. rewrite B3 in Hbas.
  cbn [orb app] in Hrel, Hsc. rewrite orb_false_r in Hrel.
  destruct (build_party_individual w1 H1) as (_ & _ & _ & _ & Hlabel).
  unfold family_related, family_basis, FamilyRelationshipAnalyzer.assess_relationship
    in Hrel, Hbas.
  rewrite Hlabel in Hrel, Hbas.
  cbn [FamilyRelationshipAnalyzer.isRelatedParty FamilyRelationshipAnalyzer.basis]
    in Hrel, Hbas.
  exists r. split; [exact E |].
  rewrite Hrel, Hbas, Hcon, Hsc.
  unfold FrontEnd.relationship_options in Hopt. cbn [In] in Hopt.
  repeat (destruct Hopt as [Hopt | Hopt];
          [ rewrite <- Hopt;
            (split; [split; [intros H; try discriminate H; discriminate
                            | intros H; try reflexivity; contradiction H; reflexivity] |]);
            (split; [intros H; try reflexivity; discriminate H |]);
            (split; [intros H;
                     first [ contradiction H; reflexivity
                           | exists 1; split; [lia | reflexivity]
                           | exists 2; split; [lia | reflexivity]
                           | exists 3; split; [lia | reflexivity]
                           | exists 4; split; [lia | reflexivity] ]
                    |]);
            split; reflexivity
          | ]).
  contradiction.
Qed.

Lemma X15_witness :
  exists r,
    FrontEnd.main form_individual form_individual = Ok r
    /\ isRelatedParty r = true /\ isConnectedPerson r = false.
Proof.
  destruct (X15_front_end_individual_pair form_individual form_individual
              eq_refl eq_refl) as (r & E & Hiff & _ & _ & Hcon & _).
  - cbn. auto 20.
  - exists r. split; [exact E |]. split; [| exact Hcon].
    apply Hiff. discriminate.
Defined.

Lemma branch_no_match (p1 p2 : gmap string value) (t1 t2 : string) :
  both_individual t1 t2 = false -> both_corporate t1 t2 = false ->
  mixed_pair t1 t2 = false ->
  branch_related p1 p2 t1 t2 = false
  /\ branch_connected p1 p2 t1 t2 = false
  /\ branch_bases p1 p2 t1 t2 = [].
Proof.
  intros HI HC HM. unfold branch_related, branch_connected, branch_bases.
  rewrite HI, HC, HM. repeat split.
Qed.

(** X16. Through the front end a permanent establishment is only ever
    related to a company that comes first.  When Party 1 is a
    PERMANENT_ESTABLISHMENT the result is never related nor connected and
    carries no basis and no special case, whatever Party 2 is; when Party 2
    is a PERMANENT_ESTABLISHMENT the result is related exactly when Party 1
    is CORPORATE (the figures entered for the company play no part), and its
    basis list is empty. *)
Theorem X16_front_end_permanent_establishment (w1 w2 : FrontEnd.widgets) :
  (FrontEnd.party_type w1 = "PERMANENT_ESTABLISHMENT" ->
   exists r,
     FrontEnd.main w1 w2 = Ok r
     /\ isRelatedParty r = false /\ isConnectedPerson r = false
     /\ basis r = [] /\ specialCases r = [])
  /\ (FrontEnd.party_type w2 = "PERMANENT_ESTABLISHMENT" ->
      exists r,
        FrontEnd.main w1 w2 = Ok r
        /\ (isRelatedParty r = true <-> FrontEnd.party_type w1 = "CORPORATE")
        /\ isConnectedPerson r = false /\ basis r = []).
Proof.
  destruct (build_party_special w1 w2) as (Hpa & Htr & Hpe).
  split; intros Hty.
  - assert (T1 : party_type (FrontEnd.build_party w1) = Ok "PERMANENT_ESTABLISHMENT")
      by (rewrite build_party_party_type, Hty; reflexivity).
    destruct (assess_shape _ _ _ _ (build_party_wf w1) (build_party_wf w2) T1
                (build_party_party_type w2))
      as (r & E & Hrel & Hcon & Hbas & Hsc & _).
    destruct (permanent_establishment_no_branch "PERMANENT_ESTABLISHMENT"
                (upper (FrontEnd.party_type w2)) (or_introl eq_refl))
      as (HI & HC & HM).
    destruct (branch_no_match (FrontEnd.build_party w1) (FrontEnd.build_party w2)
                _ _ HI HC HM) as (B1 & B2 & B3).
    rewrite Hty in Hpe. cbn in Hpe.
    unfold special_fires in Hrel. unfold special_labels in Hsc.
    rewrite Hpa, Htr, Hpe in Hrel, Hsc. rewrite B1 in Hrel.
    exists r. split; [exact E |]. rewrite Hrel, Hcon, Hbas, Hsc, B2, B3.
    repeat split.
  - assert (T2 : party_type (FrontEnd.build_party w2) = Ok "PERMANENT_ESTABLISHMENT")
      by (rewrite build_party_party_type, Hty; reflexivity).
    destruct (assess_shape _ _ _ _ (build_party_wf w1) (build_party_wf w2)
                (build_party_party_type w1) T2)
      as (r & E & Hrel & Hcon & Hbas & Hsc & _).
    destruct (permanent_establishment_no_branch (upper (FrontEnd.party_type w1))
                "PERMANENT_ESTABLISHMENT" (or_intror eq_refl))
      as (HI & HC & HM).
    destruct (branch_no_match (FrontEnd.build_party w1) (FrontEnd.build_party w2)
                _ _ HI HC HM) as (B1 & B2 & B3).
    rewrite Hty in Hpe. cbn [String.eqb Ascii.eqb Bool.eqb] in Hpe.
    rewrite andb_true_r in Hpe.
    unfold special_fires in Hrel.
    rewrite Hpa, Htr, Hpe, B1 in Hrel. cbn [orb] in Hrel. rewrite !orb_false_r in Hrel.
    exists r. split; [exact E |]. rewrite Hrel, Hcon, Hbas, B2, B3.
    split; [apply String.eqb_eq |]. split; reflexivity.
Qed.

Lemma X16_witness :
  (exists r, FrontEnd.main form_establishment form_corporate = Ok r
             /\ isRelatedParty r = false)
  /\ (exists r, FrontEnd.main form_corporate form_establishment = Ok r
                /\ isRelatedParty r = true).
Proof.
  split.
  - destruct (proj1 (X16_front_end_permanent_establishment form_establishment
                       form_corporate) eq_refl) as (r & E & Hrel & _).
    exists r. split; assumption.
  - destruct (proj2 (X16_front_end_permanent_establishment form_corporate
                       form_establishment) eq_refl) as (r & E & Hrel & _).
    exists r. split; [exact E |]. apply Hrel. reflexivity.
Defined.

(** X17. Through the front end an INDIVIDUAL and a CORPORATE party, in
    either order, are related exactly when one of the figures entered for
    the company reaches 50, and are connected persons exactly when the
    individual is a director, an officer, or holds at least 50% personally
    and through family; the kinship selection of the individual plays no
    part. *)
Theorem X17_front_end_mixed_pair (wi wc : FrontEnd.widgets) :
  FrontEnd.party_type wi = "INDIVIDUAL" -> FrontEnd.party_type wc = "CORPORATE" ->
  exists r r',
    FrontEnd.main wi wc = Ok r /\ FrontEnd.main wc wi = Ok r'
    /\ (isRelatedParty r = true
        <-> 50 <= FrontEnd.direct_own wc + FrontEnd.indirect_own wc
            \/ 50 <= FrontEnd.voting_rights wc
            \/ 50 <= FrontEnd.profit_entitlement wc
            \/ 50 <= FrontEnd.management_control wc)
    /\ (isConnectedPerson r = true
        <-> FrontEnd.is_director wi = true \/ FrontEnd.is_officer wi = true
            \/ 50 <= FrontEnd.personal_ownership wi + FrontEnd.family_ownership wi)
    /\ isRelatedParty r' = isRelatedParty r
    /\ isConnectedPerson r' = isConnectedPerson r
    /\ basis r' = basis r
    /\ specialCases r = [] /\ specialCases r' = [].
Proof.
  intros Hi Hc.
  assert (Ti : party_type (FrontEnd.build_party wi) = Ok "INDIVIDUAL")
    by (rewrite build_party_party_type, Hi; reflexivity).
  assert (Tc : party_type (FrontEnd.build_party wc) = Ok "CORPORATE")
    by (rewrite build_party_party_type, Hc; reflexivity).
  destruct (assess_shape _ _ _ _ (build_party_wf wi) (build_party_wf wc) Ti Tc)
    as (r & E & Hrel & Hcon & Hbas & Hsc & _).
  destruct (assess_shape _ _ _ _ (build_party_wf wc) (build_party_wf wi) Tc Ti)
    as (r' & E' & Hrel' & Hcon' & Hbas' & Hsc' & _).
  destruct (build_party_special wi wc) as (Hpa & Htr & Hpe).
  destruct (build_party_special wc wi) as (Hpa' & Htr' & Hpe').
  rewrite Hi, Hc in Hpe, Hpe'. cbn in Hpe, Hpe'.
  unfold special_fires in Hrel, Hrel'. unfold special_labels in Hsc, Hsc'.
  rewrite Hpa, Htr, Hpe in Hrel, Hsc. rewrite Hpa', Htr', Hpe' in Hrel', Hsc'.
  destruct (branch_individual_corporate (FrontEnd.build_party wi)
              (FrontEnd.build_party wc)) as (B1 & B2 & B3).
  destruct (branch_corporate_individual (FrontEnd.build_party wc)
              (FrontEnd.build_party wi)) as (B1' & B2' & B3').
  destruct (corporate_related_sym (FrontEnd.build_party wc) (FrontEnd.build_party wi))
    as [Sr Sb].
  rewrite B1 in Hrel. rewrite B2 in Hcon. rewrite B3 in Hbas.
  rewrite B1', Sr in Hrel'. rewrite B2' in Hcon'. rewrite B3', Sb in Hbas'.
  cbn [orb app] in Hrel, Hrel', Hsc, Hsc'. rewrite orb_false_r in Hrel, Hrel'.
  exists r, r'. split; [exact E |]. split; [exact E' |].
  split; [| split; [| split; [congruence | split; [congruence | split;
                                [congruence | split; assumption]]]]].
  - rewrite Hrel, corporate_related_iff, (reaches_threshold_form wc Hc).
    assert (Hno : ~ reaches_threshold (FrontEnd.build_party wi)).
    { apply lacks_corporate_fields_below, build_party_not_corporate.
      rewrite Hi. discriminate. }
    tauto.
  - rewrite Hcon, connected_iff.
    destruct (build_party_individual wi Hi) as (-> & -> & -> & -> & _).
    reflexivity.
Qed.

Lemma X17_witness :
  exists r,
    FrontEnd.main form_individual form_corporate = Ok r
    /\ isRelatedParty r = true /\ isConnectedPerson r = true.
Proof.
  destruct (X17_front_end_mixed_pair form_individual form_corporate eq_refl eq_refl)
    as (r & r' & E & _ & Hrel & Hcon & _).
  exists r. split; [exact E |]. split.
  - apply Hrel. left. vm_compute. discriminate.
  - apply Hcon. left. reflexivity.
Defined.

(* ===================================================================== *)
(** ** Error behaviour of the analyzers *)
(* ===================================================================== *)

(** X18. The risk analyzer on an arbitrary dictionary.  When it returns,
    the level is LOW, MEDIUM or HIGH and the score 1, 2 or 3; the level is
    HIGH exactly when the score is 3 or one of the two flags is truthy, and
    MEDIUM exactly when the score is 2 and both flags are falsy; the factors
    report the flags as found.  It raises only TypeError, and only when
    layersOfOwnership is not a number; a missing layersOfOwnership counts as
    one layer. *)
Theorem X18_risk_analyzer_any_input (data : gmap string value) :
  (forall ra,
     RiskAnalyzer.analyze_risk data = Ok ra ->
     let f := RiskAnalyzer.factors ra in
     In (RiskAnalyzer.riskLevel ra) ["LOW"; "MEDIUM"; "HIGH"]
     /\ In (RiskAnalyzer.complexityScore f) [1; 2; 3]
     /\ RiskAnalyzer.crossBorder f = dict_get data "crossBorder" (VBool false)
     /\ RiskAnalyzer.highValueTransactions f
        = dict_get data "highValueTransactions" (VBool false)
     /\ (RiskAnalyzer.riskLevel ra = "HIGH"
         <-> RiskAnalyzer.complexityScore f = 3
             \/ truthy (RiskAnalyzer.crossBorder f) = true
             \/ truthy (RiskAnalyzer.highValueTransactions f) = true)
     /\ (RiskAnalyzer.riskLevel ra = "MEDIUM"
         <-> RiskAnalyzer.complexityScore f = 2
             /\ truthy (RiskAnalyzer.crossBorder f) = false
             /\ truthy (RiskAnalyzer.highValueTransactions f) = false))
  /\ (forall e,
        RiskAnalyzer.analyze_risk data = Raise e ->
        e = TypeError /\ as_int (dict_get data "layersOfOwnership" (VInt 1)) = None)
  /\ (as_int (dict_get data "layersOfOwnership" (VInt 1)) = None ->
      RiskAnalyzer.analyze_risk data = Raise TypeError)
  /\ (data !! "layersOfOwnership" = None ->
      exists ra, RiskAnalyzer.analyze_risk data = Ok ra
                 /\ RiskAnalyzer.complexityScore (RiskAnalyzer.factors ra) = 1).
Proof.
  unfold RiskAnalyzer.analyze_risk, RiskAnalyzer.assess_complexity.
  split; [| split; [| split]].
  - intros ra. cbn zeta.
    destruct (py_gt (dict_get data "layersOfOwnership" (VInt 1)) (VInt 3))
      as [above |]; cbn [bind]; [| discriminate].
    destruct above; cbn [bind];
      [| destruct (py_eq_int (dict_get data "layersOfOwnership" (VInt 1)) 3);
         cbn [bind]];
      intros H; apply Ok_inj in H; subst ra;
      cbn [RiskAnalyzer.riskLevel RiskAnalyzer.factors RiskAnalyzer.complexityScore
           RiskAnalyzer.crossBorder RiskAnalyzer.highValueTransactions];
      destruct (truthy (dict_get data "crossBorder" (VBool false))),
        (truthy (dict_get data "highValueTransactions" (VBool false)));
      cbn; repeat split; intros; auto; try discriminate; try lia;
      repeat match goal with
             | H : _ /\ _ |- _ => destruct H
             | H : _ \/ _ |- _ => destruct H
             end; try discriminate; try lia.
  - intros e.
    destruct (dict_get data "layersOfOwnership" (VInt 1)) as [| b | z | s | d];
      unfold py_gt, py_compare; cbn [as_int bind];
      try (intros H; injection H as <-; split; reflexivity).
    + destruct (Z.b2z b ?= 3); cbn [bind];
        try destruct (py_eq_int (VBool b) 3); discriminate.
    + destruct (z ?= 3); cbn [bind];
        try destruct (py_eq_int (VInt z) 3); discriminate.
  - intros H. unfold py_gt, py_compare. rewrite H. cbn [as_int].
    destruct (dict_get data "layersOfOwnership" (VInt 1)); try discriminate H;
      reflexivity.
  - intros H. unfold dict_get at 1 2. rewrite H. cbn. eexists. split; reflexivity.
Qed.

(** X19. The documentation analyzer on an arbitrary entity.  It returns
    exactly when revenue and groupConsolidatedRevenue (0 when missing) are
    numbers, and otherwise raises TypeError; when it returns, disclosureForm
    is the relationship's isRelatedParty flag and additionalDocs is non-empty
    exactly when the risk level is "HIGH". *)
Theorem X19_documentation_analyzer_errors (entity : gmap string value)
    (relationship : assessment_result) (ra : RiskAnalyzer.risk_assessment) :
  let group_revenue := dict_get entity "groupConsolidatedRevenue" (VInt 0) in
  let revenue := dict_get entity "revenue" (VInt 0) in
  (as_int group_revenue <> None /\ as_int revenue <> None ->
   exists d,
     DocumentationAnalyzer.determine_requirements entity relationship ra = Ok d
     /\ disclosureForm d = isRelatedParty relationship
     /\ (additionalDocs d <> [] <-> RiskAnalyzer.riskLevel ra = "HIGH"))
  /\ (as_int group_revenue = None \/ as_int revenue = None ->
      DocumentationAnalyzer.determine_requirements entity relationship ra
      = Raise TypeError).
Proof.
  cbn zeta.
  unfold DocumentationAnalyzer.determine_requirements,
    DocumentationAnalyzer.is_master_file_required,
    DocumentationAnalyzer.is_local_file_required,
    DocumentationAnalyzer.is_disclosure_required, py_ge, py_compare.
  destruct (as_int (dict_get entity "groupConsolidatedRevenue" (VInt 0))) as [g |] eqn:Eg;
    destruct (as_int (dict_get entity "revenue" (VInt 0))) as [v |] eqn:Ev;
    cbn [as_int bind].
  - split; [| intros [H | H]; discriminate H].
    intros _. eexists. split; [reflexivity |]. cbn. split; [reflexivity |].
    destruct (String.eqb_spec (RiskAnalyzer.riskLevel ra) "HIGH"); cbn;
      split; intros; congruence.
  - split; [intros [_ H]; contradiction |]. intros _.
    destruct (dict_get entity "revenue" (VInt 0)); try discriminate Ev; reflexivity.
  - split; [intros [H _]; contradiction |]. intros _.
    destruct (dict_get entity "groupConsolidatedRevenue" (VInt 0));
      try discriminate Eg; reflexivity.
  - split; [intros [H _]; contradiction |]. intros _.
    destruct (dict_get entity "groupConsolidatedRevenue" (VInt 0));
      try discriminate Eg; reflexivity.
Qed.

Lemma X19_witness :
  DocumentationAnalyzer.determine_requirements
    (dict [("revenue", VStr "250 million")]) initial_result (risk_of ∅ ∅)
  = Raise TypeError.
Proof.
  apply (proj2 (X19_documentation_analyzer_errors
                  (dict [("revenue", VStr "250 million")]) initial_result (risk_of ∅ ∅))).
  right. reflexivity.
Defined.

(** X20. An ownership entry that is not a dictionary makes the corporate
    ownership test raise AttributeError: on entity1 at once, on entity2 once
    entity1's figures have been read.  The assessment of a
    Corporate/Corporate pair whose first party carries such an entry raises
    AttributeError. *)
Theorem X20_ownership_not_a_dictionary (e1 e2 : gmap string value) (v : value) :
  is_dict v = false ->
  (e1 !! "ownership" = Some v ->
   CorporateRelationshipAnalyzer.analyze_ownership e1 e2 = Raise AttributeError
   /\ CorporateRelationshipAnalyzer.assess_relationship e1 e2 = Raise AttributeError
   /\ (party_type e1 = Ok "CORPORATE" -> party_type e2 = Ok "CORPORATE" ->
       assess e1 e2 = Raise AttributeError))
  /\ (well_formed e1 = true -> e2 !! "ownership" = Some v ->
      CorporateRelationshipAnalyzer.analyze_ownership e1 e2 = Raise AttributeError).
Proof.
  intros Hv. split.
  - intros H1.
    assert (Ha : CorporateRelationshipAnalyzer.analyze_ownership e1 e2
                 = Raise AttributeError).
    { unfold CorporateRelationshipAnalyzer.analyze_ownership, dict_get at 1.
      rewrite H1. cbn [default from_option]. unfold id.
      destruct v; try discriminate Hv; reflexivity. }
    assert (Hc : CorporateRelationshipAnalyzer.assess_relationship e1 e2
                 = Raise AttributeError).
    { unfold CorporateRelationshipAnalyzer.assess_relationship. rewrite Ha.
      reflexivity. }
    split; [exact Ha |]. split; [exact Hc |].
    intros T1 T2. unfold assess, TPRelationshipAssessor.assess_relationship.
    fold (party_type e1) (party_type e2). rewrite T1, T2. cbn [bind].
    rewrite (dispatch_corporate e1 e2 "CORPORATE" "CORPORATE" _ eq_refl), Hc.
    reflexivity.
  - intros W1 H2.
    destruct (get_ownership_ok e1) as (E1 & D1 & I1);
      [apply (wf_field _ "ownership" is_ownership W1); in_schema |].
    unfold CorporateRelationshipAnalyzer.analyze_ownership.
    rewrite E1. cbn [py_get bind].
    rewrite (get_int_ok _ _ _ D1), (get_int_ok _ _ _ I1). cbn [bind].
    rewrite py_add_int. cbn [bind]. unfold dict_get at 1. rewrite H2.
    cbn [default from_option]. unfold id.
    destruct v; try discriminate Hv; reflexivity.
Qed.

Lemma X20_witness :
  assess corporate_bad_ownership corporate_empty = Raise AttributeError.
Proof.
  apply (proj1 (X20_ownership_not_a_dictionary corporate_bad_ownership corporate_empty
                  (VStr "sixty percent") eq_refl) eq_refl); reflexivity.
Defined.

(* ===================================================================== *)
(** ** What is read outside the corporate and connected-person analyzers *)
(* ===================================================================== *)

Section CommonReads.

Variables p1 p1' p2 p2' : gmap string value.
Hypothesis agree_1 : forall k, In k common_reads -> p1 !! k = p1' !! k.
Hypothesis agree_2 : forall k, In k common_reads -> p2 !! k = p2' !! k.

Lemma dict_get_common_1 (k : string) (d : value) :
  In k common_reads -> dict_get p1 k d = dict_get p1' k d.
Proof. intros Hin. unfold dict_get. now rewrite (agree_1 k Hin). Qed.

Lemma dict_get_common_2 (k : string) (d : value) :
  In k common_reads -> dict_get p2 k d = dict_get p2' k d.
Proof. intros Hin. unfold dict_get. now rewrite (agree_2 k Hin). Qed.

Ltac in_common := simpl; repeat (first [left; reflexivity | right]).

Ltac to_primed :=
  repeat match goal with
         | |- context [dict_get p1 ?k ?d] =>
             rewrite (dict_get_common_1 k d) by in_common
         | |- context [dict_get p2 ?k ?d] =>
             rewrite (dict_get_common_2 k d) by in_common
         end.

Lemma party_type_common :
  party_type p1 = party_type p1' /\ party_type p2 = party_type p2'.
Proof. unfold party_type. to_primed. split; reflexivity. Qed.

Lemma dispatch_common (t1 t2 : string) (r0 : assessment_result) :
  both_corporate t1 t2 = false -> mixed_pair t1 t2 = false ->
  TPRelationshipAssessor.dispatch p1 p2 t1 t2 r0
  = TPRelationshipAssessor.dispatch p1' p2' t1 t2 r0.
Proof.
  intros HC HM. destruct (both_individual t1 t2) eqn:HI.
  - rewrite !(dispatch_individual _ _ _ _ _ HI).
    unfold FamilyRelationshipAnalyzer.assess_relationship. to_primed. reflexivity.
  - rewrite !(dispatch_fallback _ _ _ _ _ HI HC HM). reflexivity.
Qed.

Lemma special_common (r0 : assessment_result) :
  TPRelationshipAssessor.special_entity_checks p1 p2 r0
  = TPRelationshipAssessor.special_entity_checks p1' p2' r0.
Proof.
  unfold TPRelationshipAssessor.special_entity_checks,
    SpecialEntityAnalyzer.assess_permanent_establishment,
    SpecialEntityAnalyzer.assess_partnership,
    SpecialEntityAnalyzer.assess_trust_foundation.
  to_primed. reflexivity.
Qed.

Lemma risk_data_common :
  TPRelationshipAssessor.risk_data p1 p2 = TPRelationshipAssessor.risk_data p1' p2'.
Proof. unfold TPRelationshipAssessor.risk_data. to_primed. reflexivity. Qed.

Lemma determine_requirements_common (relationship : assessment_result)
    (ra : RiskAnalyzer.risk_assessment) :
  DocumentationAnalyzer.determine_requirements p1 relationship ra
  = DocumentationAnalyzer.determine_requirements p1' relationship ra.
Proof.
  unfold DocumentationAnalyzer.determine_requirements,
    DocumentationAnalyzer.is_master_file_required,
    DocumentationAnalyzer.is_local_file_required.
  to_primed. reflexivity.
Qed.

Lemma assess_common (t1 t2 : string) :
  party_type p1 = Ok t1 -> party_type p2 = Ok t2 ->
  both_corporate t1 t2 = false -> mixed_pair t1 t2 = false ->
  assess p1 p2 = assess p1' p2'.
Proof.
  intros T1 T2 HC HM. destruct party_type_common as [E1 E2].
  unfold assess, TPRelationshipAssessor.assess_relationship.
  fold (party_type p1) (party_type p2) (party_type p1') (party_type p2').
  rewrite <- E1, <- E2, T1, T2. cbn [bind].
  rewrite (dispatch_common t1 t2 _ HC HM).
  destruct (TPRelationshipAssessor.dispatch p1' p2' t1 t2 _) as [r1 |]; [| reflexivity].
  cbn [bind]. rewrite special_common, risk_data_common.
  destruct (TPRelationshipAssessor.risk_data p1' p2') as [data |]; [| reflexivity].
  cbn [bind]. destruct (RiskAnalyzer.analyze_risk data) as [ra |]; [| reflexivity].
  cbn [bind]. rewrite determine_requirements_common. reflexivity.
Qed.

End CommonReads.

(** X21. Outside the Corporate/Corporate and the Individual/Corporate
    branches the ownership, control, management and connected-person entries
    are never looked at: for a pair whose normalized types select the
    Individual/Individual branch or no branch, two runs on dictionaries that
    agree on type, companyType, the three risk entries, relationship_type
    and the two revenue entries have the same outcome, even where the other
    entries are ill-typed. *)
Theorem X21_corporate_entries_unread_elsewhere (p1 p1' p2 p2' : gmap string value)
    (t1 t2 : string) :
  (forall k, In k common_reads -> p1 !! k = p1' !! k) ->
  (forall k, In k common_reads -> p2 !! k = p2' !! k) ->
  party_type p1 = Ok t1 -> party_type p2 = Ok t2 ->
  both_corporate t1 t2 = false -> mixed_pair t1 t2 = false ->
  assess p1 p2 = assess p1' p2'.
Proof.
  intros H1 H2 T1 T2 HC HM. exact (assess_common p1 p1' p2 p2' H1 H2 t1 t2 T1 T2 HC HM).
Qed.

(** An ownership entry that is not a dictionary is harmless on an
    individual facing an individual. *)
Lemma X21_witness :
  assess individual_bad_ownership individual_empty = assess sibling_1 individual_empty
  /\ exists r, assess individual_bad_ownership individual_empty = Ok r
               /\ isRelatedParty r = true.
Proof.
  assert (E : assess individual_bad_ownership individual_empty
              = assess sibling_1 individual_empty).
  { apply (X21_corporate_entries_unread_elsewhere individual_bad_ownership sibling_1
             individual_empty individual_empty "INDIVIDUAL" "INDIVIDUAL");
      try reflexivity.
    intros k Hk. unfold individual_bad_ownership, sibling_1, dict.
    rewrite !list_to_map_cons, list_to_map_nil.
    assert (Hown : k <> "ownership").
    { intros ->. cbn in Hk.
      repeat (destruct Hk as [Hk | Hk]; [discriminate Hk |]). exact Hk. }
    destruct (decide (k = "type")) as [-> | Hty]; [reflexivity |].
    destruct (decide (k = "relationship_type")) as [-> | Hrt]; [reflexivity |].
    rewrite !lookup_insert_ne by congruence. reflexivity. }
  split; [exact E |]. rewrite E. eexists. split; [vm_compute; reflexivity |].
  reflexivity.
Defined.

Lemma in_range_types (w : FrontEnd.widgets) :
  FrontEnd.in_range w = true ->
  FrontEnd.party_type w = "INDIVIDUAL" \/ FrontEnd.party_type w = "CORPORATE"
  \/ FrontEnd.party_type w = "PERMANENT_ESTABLISHMENT".
Proof.
  unfold FrontEnd.in_range. intros H.
  repeat (apply andb_prop in H; destruct H as [H _]).
  unfold FrontEnd.party_types in H. cbn [existsb] in H.
  repeat (apply orb_prop in H; destruct H as [H | H];
          [apply String.eqb_eq in H; auto |]).
  discriminate H.
Qed.

(** X22. The options of the type select box are exactly the strings the
    assessor dispatches on.  For widgets within their ranges the normalized
    type of a built party is the selected option itself, and every pair
    falls in one of four cases: two INDIVIDUAL parties, two CORPORATE
    parties, one of each, or a pair with a PERMANENT_ESTABLISHMENT; so from
    the form the silent no-branch path is reached only through a permanent
    establishment. *)
Theorem X22_front_end_type_pairs (w1 w2 : FrontEnd.widgets) :
  FrontEnd.in_range w1 = true -> FrontEnd.in_range w2 = true ->
  party_type (FrontEnd.build_party w1) = Ok (FrontEnd.party_type w1)
  /\ party_type (FrontEnd.build_party w2) = Ok (FrontEnd.party_type w2)
  /\ (both_individual (FrontEnd.party_type w1) (FrontEnd.party_type w2) = true
      \/ both_corporate (FrontEnd.party_type w1) (FrontEnd.party_type w2) = true
      \/ mixed_pair (FrontEnd.party_type w1) (FrontEnd.party_type w2) = true
      \/ FrontEnd.party_type w1 = "PERMANENT_ESTABLISHMENT"
      \/ FrontEnd.party_type w2 = "PERMANENT_ESTABLISHMENT").
Proof.
  intros R1 R2. rewrite !build_party_party_type.
  destruct (in_range_types w1 R1) as [-> | [-> | ->]];
    destruct (in_range_types w2 R2) as [-> | [-> | ->]];
    (split; [reflexivity |]); (split; [reflexivity |]); cbn; tauto.
Qed.

Lemma X22_witness :
  party_type (FrontEnd.build_party form_individual) = Ok "INDIVIDUAL"
  /\ mixed_pair (FrontEnd.party_type form_individual)
       (FrontEnd.party_type form_corporate) = true.
Proof.
  destruct (X22_front_end_type_pairs form_individual form_corporate eq_refl eq_refl)
    as (T1 & _ & _).
  split; [exact T1 | reflexivity].
Defined.

